(** * A shallow embedding of the swtor_parser core in Rocq.

    Covered: the line parser ([swtor_parser.cpp]), the time cruncher
    ([time_cruncher_swtor.cpp]), the combat state machine and the entity
    registry ([combat_state.cpp]) and the pipeline manager
    ([parse_manager.cpp]).

    Conventions.  Fixed-width integers are [Z] with their wrap-around
    written out ([u32], [u64], [s64], ...).  Floating point values
    (positions, threat) are carried as the exact rational [Q] they denote;
    the two float readers of the parser ([std::from_chars] for [float],
    [std::strtod] for [double]) are left as parameters of the parser
    section, so every statement about the parser holds for any reader.
    A [std::string_view] is a [string]; [npos] is [None]. *)

From Stdlib Require Import ZArith String Ascii List Bool QArith Sorted Permutation Lia.
Import ListNotations.
Open Scope Z_scope.

(* ------------------------------------------------------------------ *)
(** ** Machine integers *)

Definition u16 (x : Z) : Z := x mod 2 ^ 16.
Definition u32 (x : Z) : Z := x mod 2 ^ 32.
Definition u64 (x : Z) : Z := x mod 2 ^ 64.
Definition s32 (x : Z) : Z := (x + 2 ^ 31) mod 2 ^ 32 - 2 ^ 31.
Definition s64 (x : Z) : Z := (x + 2 ^ 63) mod 2 ^ 64 - 2 ^ 63.

(* ------------------------------------------------------------------ *)
(** ** Identifiers of [swtor_parser.h] *)

Definition KINDID_AreaEntered : Z := 836045448953664.
Definition KINDID_DisciplineChanged : Z := 836045448953665.
Definition KINDID_Event : Z := 836045448945472.
Definition KINDID_Spend : Z := 836045448945473.
Definition KINDID_Restore : Z := 836045448945476.
Definition KINDID_ApplyEffect : Z := 836045448945477.
Definition KINDID_RemoveEffect : Z := 836045448945478.
Definition KINDID_ModifyCharges : Z := 836045448953666.

(** [enum class EventActionType : uint64_t] (the values used here). *)
Definition ACT_Heal : Z := 836045448945500.
Definition ACT_EnterCombat : Z := 836045448945489.
Definition ACT_ExitCombat : Z := 836045448945490.
Definition ACT_Damage : Z := 836045448945501.
Definition ACT_Revived : Z := 836045448945494.
Definition ACT_ModifyThreat : Z := 836045448945483.
Definition ACT_Death : Z := 836045448945493.
Definition ACT_TargetSet : Z := 836045448953668.
Definition ACT_TargetCleared : Z := 836045448953669.

(** [enum class AreaDifficulty : uint64_t]. *)
Inductive AreaDifficulty :=
| AD_Unknown | AD_Solo
| AD_Story_4 | AD_Veteran_4 | AD_Master_4
| AD_Story_8 | AD_Veteran_8 | AD_Master_8
| AD_Story_16 | AD_Veteran_16 | AD_Master_16.

Definition AreaDifficulty_value (d : AreaDifficulty) : Z :=
  match d with
  | AD_Unknown => 0 | AD_Solo => 1
  | AD_Story_4 => 836045448953656 | AD_Veteran_4 => 836045448953657
  | AD_Master_4 => 836045448953659
  | AD_Story_8 => 836045448953651 | AD_Veteran_8 => 836045448953652
  | AD_Master_8 => 836045448953655
  | AD_Story_16 => 836045448953653 | AD_Veteran_16 => 836045448953654
  | AD_Master_16 => 836045448953658
  end.

(** [deduce_area_difficulty] (swtor_parser.h): the argument is unused. *)
Definition deduce_area_difficulty (difficult_id : Z) : AreaDifficulty :=
  let result := AD_Solo in result.

(** [number_of_players] (swtor_parser.h). *)
Definition number_of_players (diff : AreaDifficulty) : Z :=
  match diff with
  | AD_Solo => 1
  | AD_Story_8 | AD_Veteran_8 | AD_Master_8 => 8
  | AD_Story_16 | AD_Veteran_16 | AD_Master_16 => 16
  | _ => 0
  end.

(** [enum class CombatRole] and [deduce_combat_role] (swtor_parser.cpp);
    disciplines are their [uint64_t] ids. *)
Inductive CombatRole := Role_Unknown | Role_DPS | Role_Healer | Role_Tank.

Definition deduce_combat_role (disc : Z) : CombatRole :=
  if existsb (Z.eqb disc)
       [1610854127306954 (* CombatMedic *); 2203256920318106 (* Bodyguard *);
        2487567242063162 (* Sawbones *); 1932232264187162 (* Medicine *);
        3218621659655354 (* Seer *); 583093866373434 (* Corruption *)]
  then Role_Healer
  else if existsb (Z.eqb disc)
       [3007101716805754 (* ShieldSpecialist *); 1929098417348794 (* ShieldTech *);
        1929098417479866 (* Defense *); 1913582031199546 (* Immortal *);
        3218586805260602 (* KineticCombat *); 1930851419333946 (* Darkness *)]
  then Role_Tank
  else Role_DPS.

(* ------------------------------------------------------------------ *)
(** ** Data model (structs of swtor_parser.h) *)

Record NamedId := { ni_name : string; ni_id : Z }.
Definition NamedId_default := {| ni_name := ""; ni_id := 0 |}.

Record Position := { px : Q; py : Q; pz : Q; pfacing : Q }.
Definition Position_default := {| px := 0; py := 0; pz := 0; pfacing := 0 |}%Q.

Record Health := { hp_current : Z; hp_max : Z }.
Definition Health_default := {| hp_current := 0; hp_max := 0 |}.

Record CompanionOwner :=
  { co_name_no_at : string; co_player_numeric_id : Z; co_has_owner : bool }.
Definition CompanionOwner_default :=
  {| co_name_no_at := ""; co_player_numeric_id := 0; co_has_owner := false |}.

Record Entity := {
  e_display : string;
  e_name : string;
  e_companion_name : string;
  e_id : Z;
  e_type_id : Z;
  e_is_player : bool;
  e_is_companion : bool;
  e_empty : bool;
  e_is_same_as_source : bool;
  e_pos : Position;
  e_hp : Health;
  e_owner : CompanionOwner }.

Definition Entity_default : Entity :=
  {| e_display := ""; e_name := ""; e_companion_name := ""; e_id := 0;
     e_type_id := 0; e_is_player := false; e_is_companion := false;
     e_empty := false; e_is_same_as_source := false;
     e_pos := Position_default; e_hp := Health_default;
     e_owner := CompanionOwner_default |}.

(** [operator==(const Entity&, const Entity&)]: identity is the id. *)
Definition entity_eqb (p1 p2 : Entity) : bool := Z.eqb (e_id p1) (e_id p2).

Record EventEffect := {
  ev_type_id : Z;
  ev_action_id : Z;
  ev_type_name : string;
  ev_action_name : string;
  ev_data : string }.
Definition EventEffect_default :=
  {| ev_type_id := 0; ev_action_id := 0; ev_type_name := "";
     ev_action_name := ""; ev_data := "" |}.

(** [EventEffect::matches(EventType)] compares the type id only;
    [EventEffect::matches(EventActionType)] goes through
    [matches(uint64_t)], which accepts the type id or the action id. *)
Definition matches_type (e : EventEffect) (et : Z) : bool := Z.eqb (ev_type_id e) et.
Definition matches_id (e : EventEffect) (id : Z) : bool :=
  if Z.eqb (ev_type_id e) id then true
  else if Z.eqb (ev_action_id e) id then true
  else false.

Record TimeStamp := {
  t_combat_ms : Z; t_refined_epoch_ms : Z;
  t_h : Z; t_m : Z; t_s : Z; t_ms : Z;
  t_year : Z; t_month : Z; t_day : Z }.
Definition TimeStamp_default :=
  {| t_combat_ms := 0; t_refined_epoch_ms := -1; t_h := 0; t_m := 0;
     t_s := 0; t_ms := 0; t_year := 0; t_month := 0; t_day := 0 |}.

(** [TimeStamp::update_combat_ms]: [uint32_t] arithmetic. *)
Definition update_combat_ms (t : TimeStamp) : TimeStamp :=
  {| t_combat_ms := u32 (((t_h t * 60 + t_m t) * 60 + t_s t) * 1000 + t_ms t);
     t_refined_epoch_ms := t_refined_epoch_ms t;
     t_h := t_h t; t_m := t_m t; t_s := t_s t; t_ms := t_ms t;
     t_year := t_year t; t_month := t_month t; t_day := t_day t |}.

Definition set_refined_epoch (t : TimeStamp) (ep : Z) : TimeStamp :=
  {| t_combat_ms := t_combat_ms t; t_refined_epoch_ms := ep;
     t_h := t_h t; t_m := t_m t; t_s := t_s t; t_ms := t_ms t;
     t_year := t_year t; t_month := t_month t; t_day := t_day t |}.

(** [oss << std::setw(w) << std::setfill('0') << n] for an unsigned [n]:
    its decimal digits, left-padded with ['0'] up to [w] characters
    (never truncated).  [dec_rev] gives the digits from the least
    significant one; [Z.log2 n + 1] bounds their number. *)
Definition digit_char (d : Z) : ascii := ascii_of_nat (Z.to_nat d + 48).

Fixpoint dec_rev (fuel : nat) (n : Z) : list ascii :=
  match fuel with
  | O => []
  | S f => digit_char (n mod 10) :: (if n <? 10 then [] else dec_rev f (n / 10))
  end.

Definition to_dec (n : Z) : list ascii := rev (dec_rev (S (Z.to_nat (Z.log2 n))) n).

Definition setw_fill0 (w : nat) (n : Z) : string :=
  let ds := to_dec n in
  string_of_list_ascii (repeat "0"%char (w - length ds) ++ ds)%list.

(** [TimeStamp::print]. *)
Definition TimeStamp_print (t : TimeStamp) : string :=
  ((if t_year t >? 0 then
      setw_fill0 4 (t_year t) ++ "-" ++ setw_fill0 2 (t_month t) ++ "-"
      ++ setw_fill0 2 (t_day t) ++ " "
    else "")
   ++ setw_fill0 2 (t_h t) ++ ":" ++ setw_fill0 2 (t_m t) ++ ":" ++ setw_fill0 2 (t_s t)
   ++ "." ++ setw_fill0 3 (t_ms t))%string.

Record AreaEnteredData := {
  ae_area : NamedId;
  ae_difficulty : NamedId;
  ae_difficulty_value : AreaDifficulty;
  ae_version : string;
  ae_raw_value : string;
  ae_has_difficulty : bool }.
Definition AreaEnteredData_default :=
  {| ae_area := NamedId_default; ae_difficulty := NamedId_default;
     ae_difficulty_value := AD_Unknown; ae_version := ""; ae_raw_value := "";
     ae_has_difficulty := false |}.

Record DisciplineChangedData := {
  dc_combat_class : NamedId;
  dc_discipline : NamedId;
  dc_combat_class_enum : Z;
  dc_discipline_enum : Z;
  dc_role_enum : CombatRole }.
Definition DisciplineChangedData_default :=
  {| dc_combat_class := NamedId_default; dc_discipline := NamedId_default;
     dc_combat_class_enum := 0; dc_discipline_enum := 0;
     dc_role_enum := Role_Unknown |}.

(** [enum class MitigationFlags : uint16_t]: a bit set. *)
Definition MF_None : Z := 0.
Definition MF_Shield : Z := 1.
Definition MF_Deflect : Z := 2.
Definition MF_Glance : Z := 4.
Definition MF_Dodge : Z := 8.
Definition MF_Parry : Z := 16.
Definition MF_Resist : Z := 32.
Definition MF_Miss : Z := 64.
Definition MF_Immune : Z := 128.

Inductive ValueKind := VK_None | VK_Numeric | VK_Charges | VK_Unknown.

Definition ValueKind_eqb (a b : ValueKind) : bool :=
  match a, b with
  | VK_None, VK_None | VK_Numeric, VK_Numeric
  | VK_Charges, VK_Charges | VK_Unknown, VK_Unknown => true
  | _, _ => false
  end.

Record School := { sc_name : string; sc_id : Z; sc_present : bool }.
Definition School_default := {| sc_name := ""; sc_id := 0; sc_present := false |}.

Record ShieldDetail := {
  sh_shield_effect_id : Z; sh_absorbed : Z; sh_absorbed_id : Z; sh_present : bool }.
Definition ShieldDetail_default :=
  {| sh_shield_effect_id := 0; sh_absorbed := 0; sh_absorbed_id := 0;
     sh_present := false |}.

Record ValueField := {
  vf_amount : Z;
  vf_crit : bool;
  vf_has_secondary : bool;
  vf_secondary : Z;
  vf_school : School;
  vf_mitig : Z;
  vf_shield : ShieldDetail }.
Definition ValueField_default :=
  {| vf_amount := 0; vf_crit := false; vf_has_secondary := false;
     vf_secondary := 0; vf_school := School_default; vf_mitig := MF_None;
     vf_shield := ShieldDetail_default |}.

Record Trailing := {
  tl_kind : ValueKind;
  tl_val : ValueField;
  tl_charges : Z;
  tl_has_charges : bool;
  tl_has_threat : bool;
  tl_threat : Q;
  tl_unparsed : string }.
Definition Trailing_default :=
  {| tl_kind := VK_None; tl_val := ValueField_default; tl_charges := 0;
     tl_has_charges := false; tl_has_threat := false; tl_threat := 0%Q;
     tl_unparsed := "" |}.

Inductive ParseStatus := Ok | Malformed.

Record CombatLine := {
  cl_t : TimeStamp;
  cl_source : Entity;
  cl_target : Entity;
  cl_ability : NamedId;
  cl_event : EventEffect;
  cl_tail : Trailing;
  cl_area_entered : AreaEnteredData;
  cl_discipline_changed : DisciplineChangedData }.
Definition CombatLine_default :=
  {| cl_t := TimeStamp_default; cl_source := Entity_default;
     cl_target := Entity_default; cl_ability := NamedId_default;
     cl_event := EventEffect_default; cl_tail := Trailing_default;
     cl_area_entered := AreaEnteredData_default;
     cl_discipline_changed := DisciplineChangedData_default |}.

(** [operator==(const CombatLine&, EventType)] and
    [operator==(const CombatLine&, EventActionType)]. *)
Definition line_is_type (l : CombatLine) (et : Z) : bool := matches_type (cl_event l) et.
Definition line_is_action (l : CombatLine) (eat : Z) : bool := matches_id (cl_event l) eat.

Definition with_t (l : CombatLine) (t : TimeStamp) : CombatLine :=
  {| cl_t := t; cl_source := cl_source l; cl_target := cl_target l;
     cl_ability := cl_ability l; cl_event := cl_event l; cl_tail := cl_tail l;
     cl_area_entered := cl_area_entered l;
     cl_discipline_changed := cl_discipline_changed l |}.

(* ------------------------------------------------------------------ *)
(** ** Time cruncher (time_cruncher_swtor.cpp, time_cruncher_swtor.h)

    The NTP keeper is read through [getLocalTime]; the reading is an
    argument [now] (local epoch ms) of [processLine].  [base_date_] and
    [base_date_epoch_ms_] always hold the same instant, kept here once in
    milliseconds. *)

Module TimeCruncher.

Definition MIDNIGHT_ROLLOVER_THRESHOLD_MS : Z := 60000.
Definition MAX_LATE_ARRIVAL_MS : Z := 5000.
Definition MS_PER_DAY : Z := 86400000.

Definition CloseToMidnightThreshold : Z := MS_PER_DAY - MIDNIGHT_ROLLOVER_THRESHOLD_MS.

Record Statistics := {
  total_lines_processed : Z;
  area_entered_count : Z;
  midnight_rollovers_detected : Z;
  time_jumps_detected : Z;
  total_late_arrival_adjustment_ms : Z;
  max_late_arrival_ms : Z }.

Record state := {
  initialized_ : bool;
  midnight_close_ : bool;
  base_date_epoch_ms_ : Z;
  current_day_offset_ : Z;
  last_processed_combat_ms_ : Z;
  last_processed_epoch_ms_ : Z;
  stats_ : Statistics }.

Definition stats_zero :=
  {| total_lines_processed := 0; area_entered_count := 0;
     midnight_rollovers_detected := 0; time_jumps_detected := 0;
     total_late_arrival_adjustment_ms := 0; max_late_arrival_ms := 0 |}.

(** The constructor; [midnight_close_] is not initialised by the C++
    constructor, it is first written by [set_Base_Date]. *)
Definition init : state :=
  {| initialized_ := false; midnight_close_ := false; base_date_epoch_ms_ := 0;
     current_day_offset_ := 0; last_processed_combat_ms_ := 0;
     last_processed_epoch_ms_ := 0; stats_ := stats_zero |}.

(** [NTPTimeKeeper::getZeroHour]: [floor<days>]. *)
Definition getZeroHour (t : Z) : Z := (t / MS_PER_DAY) * MS_PER_DAY.

(** The [while (line_time > ntp_now)] loop of [set_Base_Date]; [fuel]
    bounds the number of days rolled back. *)
Fixpoint roll_back (fuel : nat) (zero_hour combat_ms ntp_now : Z) : Z :=
  match fuel with
  | O => zero_hour
  | S f =>
      if zero_hour + combat_ms >? ntp_now
      then roll_back f (zero_hour - MS_PER_DAY) combat_ms ntp_now
      else zero_hour
  end.

Definition set_Base_Date (ntp_now : Z) (line : CombatLine) (st : state) : state :=
  let c := t_combat_ms (cl_t line) in
  let zero_hour :=
    roll_back (S (S (Z.to_nat (c / MS_PER_DAY)))) (getZeroHour ntp_now) c ntp_now in
  {| initialized_ := true; midnight_close_ := false;
     base_date_epoch_ms_ := zero_hour; current_day_offset_ := 0;
     last_processed_combat_ms_ := last_processed_combat_ms_ st;
     last_processed_epoch_ms_ := last_processed_epoch_ms_ st;
     stats_ := stats_ st |}.

Definition with_stats (st : state) (s : Statistics) : state :=
  {| initialized_ := initialized_ st; midnight_close_ := midnight_close_ st;
     base_date_epoch_ms_ := base_date_epoch_ms_ st;
     current_day_offset_ := current_day_offset_ st;
     last_processed_combat_ms_ := last_processed_combat_ms_ st;
     last_processed_epoch_ms_ := last_processed_epoch_ms_ st; stats_ := s |}.

Definition incr_area (s : Statistics) : Statistics :=
  {| total_lines_processed := total_lines_processed s;
     area_entered_count := area_entered_count s + 1;
     midnight_rollovers_detected := midnight_rollovers_detected s;
     time_jumps_detected := time_jumps_detected s;
     total_late_arrival_adjustment_ms := total_late_arrival_adjustment_ms s;
     max_late_arrival_ms := max_late_arrival_ms s |}.

Definition incr_rollovers (s : Statistics) : Statistics :=
  {| total_lines_processed := total_lines_processed s;
     area_entered_count := area_entered_count s;
     midnight_rollovers_detected := midnight_rollovers_detected s + 1;
     time_jumps_detected := time_jumps_detected s;
     total_late_arrival_adjustment_ms := total_late_arrival_adjustment_ms s;
     max_late_arrival_ms := max_late_arrival_ms s |}.

Definition incr_time_jumps (s : Statistics) : Statistics :=
  {| total_lines_processed := total_lines_processed s;
     area_entered_count := area_entered_count s;
     midnight_rollovers_detected := midnight_rollovers_detected s;
     time_jumps_detected := time_jumps_detected s + 1;
     total_late_arrival_adjustment_ms := total_late_arrival_adjustment_ms s;
     max_late_arrival_ms := max_late_arrival_ms s |}.

Definition incr_lines (s : Statistics) : Statistics :=
  {| total_lines_processed := total_lines_processed s + 1;
     area_entered_count := area_entered_count s;
     midnight_rollovers_detected := midnight_rollovers_detected s;
     time_jumps_detected := time_jumps_detected s;
     total_late_arrival_adjustment_ms := total_late_arrival_adjustment_ms s;
     max_late_arrival_ms := max_late_arrival_ms s |}.

(** [isAreaEntered]: [line == EventType::AreaEntered]. *)
Definition isAreaEntered (line : CombatLine) : bool := line_is_type line KINDID_AreaEntered.

Definition initializeBaseDate (ntp_now : Z) (line : CombatLine) (st : state) : state :=
  if isAreaEntered line then
    let st1 := set_Base_Date ntp_now line st in
    with_stats st1 (incr_area (stats_ st1))
  else if negb (initialized_ st) then set_Base_Date ntp_now line st
  else st.

(** [calculateEpochMs] takes a [uint32_t]. *)
Definition calculateEpochMs (st : state) (combat_ms : Z) : Z :=
  base_date_epoch_ms_ st + u32 combat_ms.

(** [handleMidnightRollover]: one day is added to the base date. *)
Definition handleMidnightRollover (st : state) : state :=
  {| initialized_ := initialized_ st; midnight_close_ := midnight_close_ st;
     base_date_epoch_ms_ := base_date_epoch_ms_ st + MS_PER_DAY;
     current_day_offset_ := current_day_offset_ st + 1;
     last_processed_combat_ms_ := last_processed_combat_ms_ st;
     last_processed_epoch_ms_ := last_processed_epoch_ms_ st;
     stats_ := incr_rollovers (stats_ st) |}.

Definition set_midnight_close (st : state) (b : bool) : state :=
  {| initialized_ := initialized_ st; midnight_close_ := b;
     base_date_epoch_ms_ := base_date_epoch_ms_ st;
     current_day_offset_ := current_day_offset_ st;
     last_processed_combat_ms_ := last_processed_combat_ms_ st;
     last_processed_epoch_ms_ := last_processed_epoch_ms_ st;
     stats_ := stats_ st |}.

Definition set_last (st : state) (c ep : Z) : state :=
  {| initialized_ := initialized_ st; midnight_close_ := midnight_close_ st;
     base_date_epoch_ms_ := base_date_epoch_ms_ st;
     current_day_offset_ := current_day_offset_ st;
     last_processed_combat_ms_ := c; last_processed_epoch_ms_ := ep;
     stats_ := stats_ st |}.

(** [TimeCruncher::processLine]: returns the new state and the line with
    [t.refined_epoch_ms] set. *)
Definition processLine (ntp_now : Z) (st : state) (line : CombatLine)
  : state * CombatLine :=
  let combat_ms := t_combat_ms (cl_t line) in
  let st1 := initializeBaseDate ntp_now line st in
  let epoch :=
    if initialized_ st1 && (combat_ms <? MIDNIGHT_ROLLOVER_THRESHOLD_MS * 2)
       && midnight_close_ st1
    then let jump_forward_ms := MS_PER_DAY + combat_ms in
         calculateEpochMs st1 jump_forward_ms
    else calculateEpochMs st1 combat_ms in
  let line1 := with_t line (set_refined_epoch (cl_t line) epoch) in
  let st2 :=
    if combat_ms <? last_processed_combat_ms_ st1
    then with_stats st1 (incr_time_jumps (stats_ st1)) else st1 in
  let st3 := set_last st2 combat_ms (last_processed_epoch_ms_ st2) in
  let st4 :=
    if combat_ms >? CloseToMidnightThreshold then set_midnight_close st3 true
    else if midnight_close_ st3 && (combat_ms >? MIDNIGHT_ROLLOVER_THRESHOLD_MS / 2)
            && (combat_ms <? CloseToMidnightThreshold)
    then handleMidnightRollover (set_midnight_close st3 false)
    else st3 in
  let st5 := set_last st4 combat_ms epoch in
  (with_stats st5 (incr_lines (stats_ st5)), line1).

(** [TimeCruncher::reset]: [midnight_close_] and the base date are not
    written. *)
Definition reset (st : state) : state :=
  {| initialized_ := false; midnight_close_ := midnight_close_ st;
     base_date_epoch_ms_ := base_date_epoch_ms_ st; current_day_offset_ := 0;
     last_processed_combat_ms_ := 0; last_processed_epoch_ms_ := 0;
     stats_ := stats_zero |}.

(** A run: each line comes with the clock reading at its arrival. *)
Fixpoint run (st : state) (evs : list (Z * CombatLine)) : state * list CombatLine :=
  match evs with
  | [] => (st, [])
  | (now, l) :: rest =>
      let '(st1, l1) := processLine now st l in
      let '(st2, ls) := run st1 rest in
      (st2, l1 :: ls)
  end.

End TimeCruncher.

(* ------------------------------------------------------------------ *)
(** ** Combat state machine ([CombatState], combat_state.cpp)

    [last_combat_line_time_point_] is [last_combat_line_time_] as a
    [time_point] and is not kept separately. *)

Module CombatState.

Definition SAME_COMBAT_TIME_AFTER_REVIVE : Z := 15000.

Record state := {
  monitor_combat_state_ : bool;
  combat_revive_line_ : CombatLine;
  in_combat_ : bool;
  last_combat_entered_ : Z;
  last_combat_line_time_ : Z;
  last_combat_line_ : CombatLine;
  last_combat_exit_ : Z;
  last_died_ : Z;
  died_in_combat_ : bool;
  all_players_dead : bool;
  dead_players_ : list Entity;
  fighting_players_ : list Entity;
  last_area_entered_ : AreaEnteredData;
  owner_ : Entity;
  owner_dead_ : bool }.

(** Default member initialisers. *)
Definition init : state :=
  {| monitor_combat_state_ := false; combat_revive_line_ := CombatLine_default;
     in_combat_ := false; last_combat_entered_ := -1; last_combat_line_time_ := -1;
     last_combat_line_ := CombatLine_default; last_combat_exit_ := -1;
     last_died_ := -1; died_in_combat_ := false; all_players_dead := false;
     dead_players_ := []; fighting_players_ := [];
     last_area_entered_ := AreaEnteredData_default; owner_ := Entity_default;
     owner_dead_ := false |}.

Definition epoch_of (l : CombatLine) : Z := t_refined_epoch_ms (cl_t l).

Definition combat_state_players_dead (cs : state) : Z := Z.of_nat (length (dead_players_ cs)).
Definition combat_state_players_in_fight (cs : state) : Z :=
  Z.of_nat (length (fighting_players_ cs)).

Definition combat_state_all_players_dead (cs : state) : bool :=
  if combat_state_players_in_fight cs >? 1 then
    combat_state_players_dead cs >=? combat_state_players_in_fight cs
  else owner_dead_ cs.

(** [std::find] with [operator==(Entity, Entity)]. *)
Definition contains_entity (l : list Entity) (e : Entity) : bool :=
  existsb (entity_eqb e) l.

(** [erase(find(...))]: removes the first entity with the same id. *)
Fixpoint erase_first (l : list Entity) (e : Entity) : list Entity :=
  match l with
  | [] => []
  | x :: r => if entity_eqb x e then r else x :: erase_first r e
  end.

Definition combat_state_reset (cs : state) : state :=
  {| monitor_combat_state_ := false; combat_revive_line_ := combat_revive_line_ cs;
     in_combat_ := false; last_combat_entered_ := last_combat_entered_ cs;
     last_combat_line_time_ := last_combat_line_time_ cs;
     last_combat_line_ := last_combat_line_ cs; last_combat_exit_ := last_combat_exit_ cs;
     last_died_ := last_died_ cs; died_in_combat_ := false; all_players_dead := true;
     dead_players_ := dead_players_ cs; fighting_players_ := [];
     last_area_entered_ := last_area_entered_ cs; owner_ := owner_ cs;
     owner_dead_ := owner_dead_ cs |}.

(** The four assignments that open an encounter:
    [in_combat_ = true; last_combat_entered_ = last_combat_exit_ = ep]. *)
Definition start_encounter (cs : state) (ep : Z) : state :=
  {| monitor_combat_state_ := monitor_combat_state_ cs;
     combat_revive_line_ := combat_revive_line_ cs;
     in_combat_ := true; last_combat_entered_ := ep;
     last_combat_line_time_ := last_combat_line_time_ cs;
     last_combat_line_ := last_combat_line_ cs; last_combat_exit_ := ep;
     last_died_ := last_died_ cs; died_in_combat_ := died_in_combat_ cs;
     all_players_dead := all_players_dead cs;
     dead_players_ := dead_players_ cs; fighting_players_ := fighting_players_ cs;
     last_area_entered_ := last_area_entered_ cs; owner_ := owner_ cs;
     owner_dead_ := owner_dead_ cs |}.

(** [monitor_combat_state_ = false; died_in_combat_ = false]. *)
Definition clear_monitor (cs : state) : state :=
  {| monitor_combat_state_ := false; combat_revive_line_ := combat_revive_line_ cs;
     in_combat_ := in_combat_ cs; last_combat_entered_ := last_combat_entered_ cs;
     last_combat_line_time_ := last_combat_line_time_ cs;
     last_combat_line_ := last_combat_line_ cs; last_combat_exit_ := last_combat_exit_ cs;
     last_died_ := last_died_ cs; died_in_combat_ := false;
     all_players_dead := all_players_dead cs;
     dead_players_ := dead_players_ cs; fighting_players_ := fighting_players_ cs;
     last_area_entered_ := last_area_entered_ cs; owner_ := owner_ cs;
     owner_dead_ := owner_dead_ cs |}.

Definition combat_state_parse_entercombat (line : CombatLine) (cs : state) : state :=
  if negb (in_combat_ cs) then
    start_encounter (combat_state_reset cs) (epoch_of line)
  else if in_combat_ cs && died_in_combat_ cs && entity_eqb (cl_source line) (owner_ cs)
          && monitor_combat_state_ cs then
    let time_diff := epoch_of line - epoch_of (combat_revive_line_ cs) in
    if time_diff <? SAME_COMBAT_TIME_AFTER_REVIVE then clear_monitor cs
    else start_encounter (combat_state_reset cs) (epoch_of line)
  else cs.

Definition combat_state_parse_disciplinechange (line : CombatLine) (cs : state) : state :=
  if in_combat_ cs && negb (contains_entity (fighting_players_ cs) (cl_source line)) then
    {| monitor_combat_state_ := monitor_combat_state_ cs;
       combat_revive_line_ := combat_revive_line_ cs; in_combat_ := in_combat_ cs;
       last_combat_entered_ := last_combat_entered_ cs;
       last_combat_line_time_ := last_combat_line_time_ cs;
       last_combat_line_ := last_combat_line_ cs;
       last_combat_exit_ := last_combat_exit_ cs; last_died_ := last_died_ cs;
       died_in_combat_ := died_in_combat_ cs; all_players_dead := all_players_dead cs;
       dead_players_ := dead_players_ cs;
       fighting_players_ := fighting_players_ cs ++ [cl_source line];
       last_area_entered_ := last_area_entered_ cs; owner_ := owner_ cs;
       owner_dead_ := owner_dead_ cs |}
  else cs.

Definition combat_state_parse_areaenter (line : CombatLine) (cs : state) : state :=
  {| monitor_combat_state_ := false; combat_revive_line_ := combat_revive_line_ cs;
     in_combat_ := false; last_combat_entered_ := -1;
     last_combat_line_time_ := last_combat_line_time_ cs;
     last_combat_line_ := last_combat_line_ cs; last_combat_exit_ := last_combat_exit_ cs;
     last_died_ := -1; died_in_combat_ := false; all_players_dead := false;
     dead_players_ := []; fighting_players_ := [];
     last_area_entered_ := cl_area_entered line; owner_ := cl_source line;
     owner_dead_ := false |}.

Definition combat_state_parse_revive (line : CombatLine) (cs : state) : state :=
  let cs1 :=
    if Z.eqb (e_id (owner_ cs)) (e_id (cl_source line)) then
      {| monitor_combat_state_ := true; combat_revive_line_ := line;
         in_combat_ := if all_players_dead cs then false else in_combat_ cs;
         last_combat_entered_ := last_combat_entered_ cs;
         last_combat_line_time_ := last_combat_line_time_ cs;
         last_combat_line_ := last_combat_line_ cs;
         last_combat_exit_ := last_combat_exit_ cs; last_died_ := last_died_ cs;
         died_in_combat_ := died_in_combat_ cs; all_players_dead := false;
         dead_players_ := dead_players_ cs; fighting_players_ := fighting_players_ cs;
         last_area_entered_ := last_area_entered_ cs; owner_ := owner_ cs;
         owner_dead_ := false |}
    else cs in
  let dead :=
    match dead_players_ cs1 with
    | [] => []
    | l => erase_first l (cl_source line)
    end in
  let cs2 :=
    {| monitor_combat_state_ := monitor_combat_state_ cs1;
       combat_revive_line_ := combat_revive_line_ cs1; in_combat_ := in_combat_ cs1;
       last_combat_entered_ := last_combat_entered_ cs1;
       last_combat_line_time_ := last_combat_line_time_ cs1;
       last_combat_line_ := last_combat_line_ cs1;
       last_combat_exit_ := last_combat_exit_ cs1; last_died_ := last_died_ cs1;
       died_in_combat_ := died_in_combat_ cs1; all_players_dead := all_players_dead cs1;
       dead_players_ := dead; fighting_players_ := fighting_players_ cs1;
       last_area_entered_ := last_area_entered_ cs1; owner_ := owner_ cs1;
       owner_dead_ := owner_dead_ cs1 |} in
  {| monitor_combat_state_ := monitor_combat_state_ cs2;
     combat_revive_line_ := combat_revive_line_ cs2; in_combat_ := in_combat_ cs2;
     last_combat_entered_ := last_combat_entered_ cs2;
     last_combat_line_time_ := last_combat_line_time_ cs2;
     last_combat_line_ := last_combat_line_ cs2;
     last_combat_exit_ := last_combat_exit_ cs2; last_died_ := last_died_ cs2;
     died_in_combat_ := died_in_combat_ cs2;
     all_players_dead := combat_state_all_players_dead cs2;
     dead_players_ := dead_players_ cs2; fighting_players_ := fighting_players_ cs2;
     last_area_entered_ := last_area_entered_ cs2; owner_ := owner_ cs2;
     owner_dead_ := owner_dead_ cs2 |}.

Definition combat_state_parse_death (line : CombatLine) (cs : state) : state :=
  let cs1 :=
    if Z.eqb (e_id (owner_ cs)) (e_id (cl_target line)) then
      {| monitor_combat_state_ := monitor_combat_state_ cs;
         combat_revive_line_ := combat_revive_line_ cs; in_combat_ := in_combat_ cs;
         last_combat_entered_ := last_combat_entered_ cs;
         last_combat_line_time_ := last_combat_line_time_ cs;
         last_combat_line_ := last_combat_line_ cs;
         last_combat_exit_ := last_combat_exit_ cs; last_died_ := epoch_of line;
         died_in_combat_ := true; all_players_dead := all_players_dead cs;
         dead_players_ := dead_players_ cs; fighting_players_ := fighting_players_ cs;
         last_area_entered_ := last_area_entered_ cs; owner_ := owner_ cs;
         owner_dead_ := true |}
    else cs in
  let dead :=
    if e_is_player (cl_target line)
       && negb (contains_entity (dead_players_ cs1) (cl_target line))
    then dead_players_ cs1 ++ [cl_target line] else dead_players_ cs1 in
  let cs2 :=
    {| monitor_combat_state_ := monitor_combat_state_ cs1;
       combat_revive_line_ := combat_revive_line_ cs1; in_combat_ := in_combat_ cs1;
       last_combat_entered_ := last_combat_entered_ cs1;
       last_combat_line_time_ := last_combat_line_time_ cs1;
       last_combat_line_ := last_combat_line_ cs1;
       last_combat_exit_ := last_combat_exit_ cs1; last_died_ := last_died_ cs1;
       died_in_combat_ := died_in_combat_ cs1; all_players_dead := all_players_dead cs1;
       dead_players_ := dead; fighting_players_ := fighting_players_ cs1;
       last_area_entered_ := last_area_entered_ cs1; owner_ := owner_ cs1;
       owner_dead_ := owner_dead_ cs1 |} in
  if in_combat_ cs2 && combat_state_all_players_dead cs2 then
    {| monitor_combat_state_ := false;
       combat_revive_line_ := combat_revive_line_ cs2; in_combat_ := false;
       last_combat_entered_ := last_combat_entered_ cs2;
       last_combat_line_time_ := last_combat_line_time_ cs2;
       last_combat_line_ := last_combat_line_ cs2;
       last_combat_exit_ := epoch_of line; last_died_ := last_died_ cs2;
       died_in_combat_ := died_in_combat_ cs2; all_players_dead := true;
       dead_players_ := dead_players_ cs2; fighting_players_ := fighting_players_ cs2;
       last_area_entered_ := last_area_entered_ cs2; owner_ := owner_ cs2;
       owner_dead_ := owner_dead_ cs2 |}
  else cs2.

Definition combat_state_parse_exitcombat (line : CombatLine) (cs : state) : state :=
  combat_state_reset cs.

Definition combat_state_parse_damage (line : CombatLine) (cs : state) : state :=
  if in_combat_ cs && died_in_combat_ cs && entity_eqb (cl_source line) (owner_ cs)
     && monitor_combat_state_ cs then
    let time_diff := epoch_of line - epoch_of (combat_revive_line_ cs) in
    if time_diff <? SAME_COMBAT_TIME_AFTER_REVIVE then clear_monitor cs
    else combat_state_reset cs
  else cs.

(** [CombatState::reset]. *)
Definition reset (cs : state) : state :=
  let cs1 := combat_state_reset cs in
  {| monitor_combat_state_ := monitor_combat_state_ cs1;
     combat_revive_line_ := combat_revive_line_ cs1; in_combat_ := in_combat_ cs1;
     last_combat_entered_ := last_combat_entered_ cs1;
     last_combat_line_time_ := last_combat_line_time_ cs1;
     last_combat_line_ := last_combat_line_ cs1;
     last_combat_exit_ := last_combat_exit_ cs1; last_died_ := last_died_ cs1;
     died_in_combat_ := died_in_combat_ cs1; all_players_dead := all_players_dead cs1;
     dead_players_ := []; fighting_players_ := fighting_players_ cs1;
     last_area_entered_ := last_area_entered_ cs1; owner_ := owner_ cs1;
     owner_dead_ := owner_dead_ cs1 |}.

Definition is_in_combat (cs : state) : bool := in_combat_ cs.

(** [CombatState::ParseLine]. *)
Definition ParseLine (line : CombatLine) (cs : state) : state :=
  let cs0 :=
    {| monitor_combat_state_ := monitor_combat_state_ cs;
       combat_revive_line_ := combat_revive_line_ cs; in_combat_ := in_combat_ cs;
       last_combat_entered_ := last_combat_entered_ cs;
       last_combat_line_time_ := epoch_of line; last_combat_line_ := line;
       last_combat_exit_ := last_combat_exit_ cs; last_died_ := last_died_ cs;
       died_in_combat_ := died_in_combat_ cs; all_players_dead := all_players_dead cs;
       dead_players_ := dead_players_ cs; fighting_players_ := fighting_players_ cs;
       last_area_entered_ := last_area_entered_ cs; owner_ := owner_ cs;
       owner_dead_ := owner_dead_ cs |} in
  if line_is_action line ACT_EnterCombat then combat_state_parse_entercombat line cs0
  else if line_is_type line KINDID_AreaEntered then combat_state_parse_areaenter line cs0
  else if line_is_action line ACT_Revived then combat_state_parse_revive line cs0
  else if line_is_action line ACT_Death then combat_state_parse_death line cs0
  else if line_is_action line ACT_Damage then combat_state_parse_damage line cs0
  else if line_is_type line KINDID_DisciplineChanged then
    combat_state_parse_disciplinechange line cs0
  else if line_is_action line ACT_ExitCombat then combat_state_parse_exitcombat line cs0
  else cs0.

Fixpoint run (cs : state) (ls : list CombatLine) : state :=
  match ls with
  | [] => cs
  | l :: r => run (ParseLine l cs) r
  end.

End CombatState.

(* ------------------------------------------------------------------ *)
(** ** Entity registry ([EntityManager], combat_state.h / combat_state.cpp)

    [entities_] is a vector of [shared_ptr<EntityState>] with distinct
    objects; it is a list of values, and the [source] / [target] pointers
    of [ParseLine] are positions in it, so that an update through either
    pointer is an update of that position (when both point to the same
    entity the updates compose).  The [target_owner] pointer is kept as
    the id of the entity state it points to.  The numeric counters of an
    [EntityState] are a function from the counter names. *)

Module EntityManager.

Record Applied_Effect := {
  af_id : Z;
  af_source_id : Z;
  af_target_id : Z;
  af_ability_id : Z;
  af_charges : Z;
  af_applied_time_ms : Z;
  af_applied_line : CombatLine }.

(** The constructor [Applied_Effect(CombatLine&)] and [update]: both write
    every field from the line. *)
Definition Applied_Effect_of (line : CombatLine) : Applied_Effect :=
  {| af_id := ev_action_id (cl_event line); af_source_id := e_id (cl_source line);
     af_target_id := e_id (cl_target line); af_ability_id := ni_id (cl_ability line);
     af_charges := tl_charges (cl_tail line);
     af_applied_time_ms := t_refined_epoch_ms (cl_t line); af_applied_line := line |}.

Definition update (e : Applied_Effect) (line : CombatLine) : Applied_Effect :=
  Applied_Effect_of line.

(** [operator==(const CombatLine&, const Applied_Effect&)]. *)
Definition line_matches (line : CombatLine) (p : Applied_Effect) : bool :=
  Z.eqb (af_id p) (ev_action_id (cl_event line))
  && Z.eqb (af_target_id p) (e_id (cl_target line))
  && Z.eqb (af_source_id p) (e_id (cl_source line)).

Inductive Counter :=
| death_count | revive_count
| total_damage_taken | total_healing_taken | total_damage_done
| total_healing_done | total_overheal_done | total_absorb_done | total_threat
| total_shielding_done | total_defect_done | total_dodge_done | total_glance_done
| total_parry_done | total_resist_done | total_miss_done | total_immune_done.

Definition counter_index (c : Counter) : nat :=
  match c with
  | death_count => 0 | revive_count => 1
  | total_damage_taken => 2 | total_healing_taken => 3 | total_damage_done => 4
  | total_healing_done => 5 | total_overheal_done => 6 | total_absorb_done => 7
  | total_threat => 8
  | total_shielding_done => 9 | total_defect_done => 10 | total_dodge_done => 11
  | total_glance_done => 12 | total_parry_done => 13 | total_resist_done => 14
  | total_miss_done => 15 | total_immune_done => 16
  end.

Definition counter_eqb (a b : Counter) : bool := Nat.eqb (counter_index a) (counter_index b).

(** The C++ type of each counter: [int], [uint64_t] or [uint16_t]. *)
Definition counter_wrap (c : Counter) (x : Z) : Z :=
  match c with
  | death_count | revive_count => s32 x
  | total_damage_taken | total_healing_taken | total_damage_done
  | total_healing_done | total_overheal_done | total_absorb_done
  | total_threat => u64 x
  | _ => u16 x
  end.

Record EntityState := {
  es_id : Z;
  es_entity : Entity;
  es_target : Entity;
  es_target_owner : option Z;
  es_owner : bool;
  es_is_dead : bool;
  es_counters : Counter -> Z;
  es_Effects : list Applied_Effect;
  es_AppliedBy : list Applied_Effect }.

Definition get (es : EntityState) (c : Counter) : Z := es_counters es c.

(** [EntityState(Entity ent) : id(ent.id), entity(ent)]; every other
    member has its default initialiser. *)
Definition EntityState_of (ent : Entity) : EntityState :=
  {| es_id := e_id ent; es_entity := ent; es_target := Entity_default;
     es_target_owner := None; es_owner := false; es_is_dead := false;
     es_counters := fun _ => 0; es_Effects := []; es_AppliedBy := [] |}.

Definition es_set_counters (es : EntityState) (f : Counter -> Z) : EntityState :=
  {| es_id := es_id es; es_entity := es_entity es; es_target := es_target es;
     es_target_owner := es_target_owner es; es_owner := es_owner es;
     es_is_dead := es_is_dead es; es_counters := f; es_Effects := es_Effects es;
     es_AppliedBy := es_AppliedBy es |}.

(** [counter += v] in the counter's C++ type. *)
Definition add_counter (c : Counter) (v : Z) (es : EntityState) : EntityState :=
  es_set_counters es
    (fun c' => if counter_eqb c c' then counter_wrap c (es_counters es c + v)
               else es_counters es c').

Definition es_set_entity (ent : Entity) (es : EntityState) : EntityState :=
  {| es_id := es_id es; es_entity := ent; es_target := es_target es;
     es_target_owner := es_target_owner es; es_owner := es_owner es;
     es_is_dead := es_is_dead es; es_counters := es_counters es;
     es_Effects := es_Effects es; es_AppliedBy := es_AppliedBy es |}.

Definition es_set_dead (b : bool) (es : EntityState) : EntityState :=
  {| es_id := es_id es; es_entity := es_entity es; es_target := es_target es;
     es_target_owner := es_target_owner es; es_owner := es_owner es;
     es_is_dead := b; es_counters := es_counters es;
     es_Effects := es_Effects es; es_AppliedBy := es_AppliedBy es |}.

Definition es_set_owner (b : bool) (es : EntityState) : EntityState :=
  {| es_id := es_id es; es_entity := es_entity es; es_target := es_target es;
     es_target_owner := es_target_owner es; es_owner := b;
     es_is_dead := es_is_dead es; es_counters := es_counters es;
     es_Effects := es_Effects es; es_AppliedBy := es_AppliedBy es |}.

Definition es_set_target (t : Entity) (o : option Z) (es : EntityState) : EntityState :=
  {| es_id := es_id es; es_entity := es_entity es; es_target := t;
     es_target_owner := o; es_owner := es_owner es;
     es_is_dead := es_is_dead es; es_counters := es_counters es;
     es_Effects := es_Effects es; es_AppliedBy := es_AppliedBy es |}.

Definition es_set_Effects (l : list Applied_Effect) (es : EntityState) : EntityState :=
  {| es_id := es_id es; es_entity := es_entity es; es_target := es_target es;
     es_target_owner := es_target_owner es; es_owner := es_owner es;
     es_is_dead := es_is_dead es; es_counters := es_counters es;
     es_Effects := l; es_AppliedBy := es_AppliedBy es |}.

Definition es_set_AppliedBy (l : list Applied_Effect) (es : EntityState) : EntityState :=
  {| es_id := es_id es; es_entity := es_entity es; es_target := es_target es;
     es_target_owner := es_target_owner es; es_owner := es_owner es;
     es_is_dead := es_is_dead es; es_counters := es_counters es;
     es_Effects := es_Effects es; es_AppliedBy := l |}.

Record state := { entities_ : list EntityState; last_combat_state : bool }.

(** [EntityManager()] calls [reset()]. *)
Definition init : state := {| entities_ := []; last_combat_state := false |}.

Definition reset (m : state) : state := {| entities_ := []; last_combat_state := false |}.

(** [entity(uint64_t id)]: the first state with that id, or [nullptr];
    it returns no new registry. *)
Definition entity_by_id (m : state) (id : Z) : option EntityState :=
  find (fun es => Z.eqb (es_id es) id) (entities_ m).

(** [entity(Entity& ent)]: the first state with [ent.id], or a new state
    built from [ent] and pushed at the back. *)
Definition entity_of (m : state) (ent : Entity) : state * EntityState :=
  match find (fun es => Z.eqb (es_id es) (e_id ent)) (entities_ m) with
  | Some es => (m, es)
  | None =>
      let n := EntityState_of ent in
      ({| entities_ := entities_ m ++ [n]; last_combat_state := last_combat_state m |}, n)
  end.

(** [owner()]. *)
Definition owner (m : state) : option EntityState := find es_owner (entities_ m).

Definition is_player (es : EntityState) : bool := e_is_player (es_entity es).
Definition is_companion (es : EntityState) : bool := e_is_companion (es_entity es).

(** The [else] branch of [new_combat_reset]: [target_owner] and the
    seventeen counters are zeroed. *)
Definition combat_reset_entity (es : EntityState) : EntityState :=
  es_set_counters (es_set_target (es_target es) None es) (fun _ => 0).

(** [new_combat_reset]: walks the vector and erases every entity that is
    neither a player nor a companion. *)
Fixpoint new_combat_reset_list (l : list EntityState) : list EntityState :=
  match l with
  | [] => []
  | es :: r =>
      if negb (is_player es) && negb (is_companion es) then new_combat_reset_list r
      else combat_reset_entity es :: new_combat_reset_list r
  end.

Definition new_combat_reset (m : state) : state :=
  {| entities_ := new_combat_reset_list (entities_ m);
     last_combat_state := last_combat_state m |}.

(** [combat_state_update]. *)
Definition combat_state_update (in_combat : bool) (m : state) : state :=
  if negb (Bool.eqb (last_combat_state m) in_combat) then
    let m1 := {| entities_ := entities_ m; last_combat_state := in_combat |} in
    if in_combat then new_combat_reset m1 else m1
  else m.

(** The [for] loop of [ParseLine] that keeps the last position matching. *)
Fixpoint last_index_from (p : EntityState -> bool) (l : list EntityState) (pos : nat)
  (acc : option nat) : option nat :=
  match l with
  | [] => acc
  | x :: r => last_index_from p r (S pos) (if p x then Some pos else acc)
  end.

Fixpoint modify_nth {A} (n : nat) (f : A -> A) (l : list A) : list A :=
  match l, n with
  | [], _ => []
  | x :: r, O => f x :: r
  | x :: r, S k => x :: modify_nth k f r
  end.

Definition modify_opt {A} (o : option nat) (f : A -> A) (l : list A) : list A :=
  match o with Some n => modify_nth n f l | None => l end.

Definition nth_opt {A} (o : option nat) (l : list A) : option A :=
  match o with Some n => nth_error l n | None => None end.

(** [static_cast<uint64_t>(double)]: truncation toward zero. *)
Definition threat_to_u64 (q : Q) : Z := Z.quot (Qnum q) (Zpos (Qden q)).

(** The first loop over [Effects] / [AppliedBy] of the [ApplyEffect]
    branch: update the first matching entry in place, if any. *)
Fixpoint update_first (line : CombatLine) (l : list Applied_Effect)
  : bool * list Applied_Effect :=
  match l with
  | [] => (false, [])
  | x :: r =>
      if line_matches line x then (true, update x line :: r)
      else let '(b, r') := update_first line r in (b, x :: r')
  end.

(** The loops of the [ModifyCharges] branch: every matching entry. *)
Definition update_all (line : CombatLine) (l : list Applied_Effect) : list Applied_Effect :=
  map (fun x => if line_matches line x then update x line else x) l.

(** The reverse loops of the [RemoveEffect] branch: every matching entry. *)
Definition remove_all (line : CombatLine) (l : list Applied_Effect) : list Applied_Effect :=
  filter (fun x => negb (line_matches line x)) l.

(** The mitigation [switch] of [ParseLine]: a counter for a value equal
    to one flag, nothing for [None] or a combination of flags. *)
Definition mitigation_update (line : CombatLine) (es : EntityState) : EntityState :=
  let vf := tl_val (cl_tail line) in
  let m := vf_mitig vf in
  if m =? MF_Shield then
    add_counter total_absorb_done (sh_absorbed (vf_shield vf))
      (add_counter total_shielding_done 1 es)
  else if m =? MF_Deflect then add_counter total_defect_done 1 es
  else if m =? MF_Glance then add_counter total_glance_done 1 es
  else if m =? MF_Dodge then add_counter total_dodge_done 1 es
  else if m =? MF_Parry then add_counter total_parry_done 1 es
  else if m =? MF_Resist then add_counter total_resist_done 1 es
  else if m =? MF_Miss then add_counter total_miss_done 1 es
  else if m =? MF_Immune then add_counter total_immune_done 1 es
  else es.

(** Lookup of the [source] / [target] pointers, creating the missing
    entities as the two branches of [ParseLine] do. *)
Definition lookup_or_create (line : CombatLine) (ents : list EntityState)
  : list EntityState * option nat * option nat :=
  let src := cl_source line in
  let tgt := cl_target line in
  match ents with
  | [] =>
      if negb (e_empty tgt) && negb (Z.eqb (e_id src) (e_id tgt))
      then ([EntityState_of src; EntityState_of tgt], Some 0%nat, Some 1%nat)
      else ([EntityState_of src], Some 0%nat, None)
  | _ =>
      let si0 := last_index_from (fun es => Z.eqb (es_id es) (e_id src)) ents 0 None in
      let ti0 := last_index_from (fun es => Z.eqb (es_id es) (e_id tgt)) ents 0 None in
      let '(ents1, si) :=
        match si0 with
        | None => (ents ++ [EntityState_of src], Some (length ents))
        | Some _ => (ents, si0)
        end in
      match ti0 with
      | None =>
          if negb (e_empty tgt) && negb (Z.eqb (e_id src) (e_id tgt))
          then (ents1 ++ [EntityState_of tgt], si, Some (length ents1))
          else (ents1, si, ti0)
      | Some _ => (ents1, si, ti0)
      end
  end.

(** [EntityManager::ParseLine]. *)
Definition ParseLine (line : CombatLine) (m0 : state) : state :=
  let m := if line_is_type line KINDID_AreaEntered then reset m0 else m0 in
  let '(ents0, si, ti) := lookup_or_create line (entities_ m) in
  let vf := tl_val (cl_tail line) in
  let threat := threat_to_u64 (tl_threat (cl_tail line)) in
  let e1 := modify_opt ti (es_set_entity (cl_target line))
              (modify_opt si (es_set_entity (cl_source line)) ents0) in
  let e2 := if line_is_action line ACT_Death
            then modify_opt ti (fun es => add_counter death_count 1 (es_set_dead true es)) e1
            else e1 in
  let e3 := if line_is_action line ACT_Revived
            then modify_opt si (fun es => add_counter revive_count 1 (es_set_dead false es)) e2
            else e2 in
  let e4 := if line_is_action line ACT_Damage
            then modify_opt ti (add_counter total_damage_taken (vf_amount vf))
                   (modify_opt si (fun es => add_counter total_threat threat
                                     (add_counter total_damage_done (vf_amount vf) es)) e3)
            else e3 in
  let e5 := if line_is_action line ACT_Heal
            then modify_opt ti (add_counter total_healing_taken (vf_amount vf))
                   (modify_opt si (fun es =>
                      add_counter total_overheal_done
                        (if vf_has_secondary vf then vf_secondary vf else 0)
                        (add_counter total_healing_done (vf_amount vf) es)) e4)
            else e4 in
  let e6 := if line_is_action line ACT_ModifyThreat
            then modify_opt si (add_counter total_threat threat) e5 else e5 in
  let e7 := if line_is_type line KINDID_AreaEntered
            then modify_opt si (es_set_owner true) e6 else e6 in
  let e8 := if line_is_action line ACT_TargetSet then
              match si, nth_opt ti e7 with
              | Some _, Some tst =>
                  modify_opt si (es_set_target (cl_target line) (Some (es_id tst))) e7
              | _, _ => e7
              end
            else e7 in
  let e9 := if line_is_action line ACT_TargetCleared
            then modify_opt si (es_set_target Entity_default None) e8 else e8 in
  let e10 := if negb (ValueKind_eqb (tl_kind (cl_tail line)) VK_None)
             then modify_opt si (mitigation_update line) e9 else e9 in
  let effect_guard (et : Z) :=
    line_is_type line et && negb (line_is_action line ACT_Damage)
    && negb (line_is_action line ACT_Heal) in
  let e11 :=
    match ti with
    | Some _ =>
        if effect_guard KINDID_ApplyEffect then
          let eff := match nth_opt ti e10 with Some t => es_Effects t | None => [] end in
          let '(tfound, eff') := update_first line eff in
          let ea := modify_opt ti (es_set_Effects
                      (if tfound then eff' else eff ++ [Applied_Effect_of line])) e10 in
          let ab := match nth_opt si ea with Some s => es_AppliedBy s | None => [] end in
          let '(sfound, ab') := update_first line ab in
          if sfound then modify_opt si (es_set_AppliedBy ab') ea
          else
            let tab := match nth_opt ti ea with Some t => es_AppliedBy t | None => [] end in
            modify_opt ti (es_set_AppliedBy (tab ++ [Applied_Effect_of line])) ea
        else if effect_guard KINDID_RemoveEffect then
          let ea := modify_opt ti (fun t => es_set_Effects (remove_all line (es_Effects t)) t) e10 in
          modify_opt si (fun s => es_set_AppliedBy (remove_all line (es_AppliedBy s)) s) ea
        else if effect_guard KINDID_ModifyCharges then
          let ea := modify_opt ti (fun t => es_set_Effects (update_all line (es_Effects t)) t) e10 in
          modify_opt si (fun s => es_set_AppliedBy (update_all line (es_AppliedBy s)) s) ea
        else e10
    | None => e10
    end in
  {| entities_ := e11; last_combat_state := last_combat_state m |}.

(** The public operations that change the registry. *)
Inductive op :=
| Op_ParseLine (l : CombatLine)
| Op_combat_state_update (in_combat : bool)
| Op_reset
| Op_entity (ent : Entity).

Definition step (o : op) (m : state) : state :=
  match o with
  | Op_ParseLine l => ParseLine l m
  | Op_combat_state_update b => combat_state_update b m
  | Op_reset => reset m
  | Op_entity ent => fst (entity_of m ent)
  end.

Fixpoint run (m : state) (ops : list op) : state :=
  match ops with
  | [] => m
  | o :: r => run (step o m) r
  end.

End EntityManager.

(* ------------------------------------------------------------------ *)
(** ** [std::string_view] operations *)

Module SV.

Local Open Scope string_scope.
Local Open Scope nat_scope.

Fixpoint find_aux (c : ascii) (s : string) (i : nat) : option nat :=
  match s with
  | EmptyString => None
  | String x r => if Ascii.eqb x c then Some i else find_aux c r (S i)
  end.

(** [sv.substr(pos)] and [sv.substr(pos, n)] ([pos <= size]). *)
Definition substr_from (s : string) (pos : nat) : string :=
  substring pos (String.length s - pos) s.
Definition substr (s : string) (pos n : nat) : string := substring pos n s.

(** [sv.find(c, from)]. *)
Definition find (c : ascii) (s : string) (from : nat) : option nat :=
  match find_aux c (substr_from s from) 0 with
  | Some k => Some (from + k)
  | None => None
  end.

Fixpoint rfind_aux (c : ascii) (s : string) (i : nat) (acc : option nat) : option nat :=
  match s with
  | EmptyString => acc
  | String x r => rfind_aux c r (S i) (if Ascii.eqb x c then Some i else acc)
  end.

(** [sv.rfind(c)]. *)
Definition rfind (c : ascii) (s : string) : option nat := rfind_aux c s 0 None.

Fixpoint find_first_of_aux (cs : list ascii) (s : string) (i : nat) : option nat :=
  match s with
  | EmptyString => None
  | String x r => if existsb (Ascii.eqb x) cs then Some i else find_first_of_aux cs r (S i)
  end.

(** [sv.find_first_of(cs)]. *)
Definition find_first_of (cs : list ascii) (s : string) : option nat :=
  find_first_of_aux cs s 0.

Definition front_is (s : string) (c : ascii) : bool :=
  match s with String x _ => Ascii.eqb x c | EmptyString => false end.

Definition back_is (s : string) (c : ascii) : bool :=
  match get (String.length s - 1) s with
  | Some x => negb (String.eqb s "") && Ascii.eqb x c
  | None => false
  end.

Definition is_empty (s : string) : bool := String.eqb s "".

Fixpoint ltrim (s : string) : string :=
  match s with
  | String " " r => ltrim r
  | _ => s
  end.

Fixpoint drop_spaces_list (l : list ascii) : list ascii :=
  match l with
  | " "%char :: r => drop_spaces_list r
  | _ => l
  end.

Definition rtrim (s : string) : string :=
  string_of_list_ascii (rev (drop_spaces_list (rev (list_ascii_of_string s)))).

(** [trim_ws]: leading then trailing spaces. *)
Definition trim_ws (s : string) : string := rtrim (ltrim s).

(** [split_once]. *)
Definition split_once (s : string) (sep : ascii) : string * string :=
  match find sep s 0 with
  | None => (s, "")
  | Some p => (substr s 0 p, substr_from s (p + 1))
  end.

(** [strip_one]. *)
Definition strip_one (s : string) (l r : ascii) : string :=
  let s1 := if front_is s l then substr_from s 1 else s in
  if back_is s1 r then substr s1 0 (String.length s1 - 1) else s1.

End SV.

Open Scope string_scope.
Open Scope Z_scope.

(* ------------------------------------------------------------------ *)
(** ** Number readers *)

Definition is_digit (c : ascii) : bool :=
  (48 <=? nat_of_ascii c)%nat && (nat_of_ascii c <=? 57)%nat.
Definition digit_val (c : ascii) : Z := Z.of_nat (nat_of_ascii c) - 48.

Fixpoint digits_acc (s : string) (acc : Z) : option Z :=
  match s with
  | EmptyString => Some acc
  | String c r => if is_digit c then digits_acc r (acc * 10 + digit_val c) else None
  end.

(** A non-empty run of decimal digits, its value. *)
Definition all_digits (s : string) : option Z :=
  match s with EmptyString => None | _ => digits_acc s 0 end.

(** [std::from_chars] into [uint64_t] / [uint32_t] with the check that
    the whole view was consumed ([fast_to_u64], [fast_parse_u64],
    [fast_to_u32]). *)
Definition fast_to_u64 (s : string) : option Z :=
  match all_digits s with Some v => if v <? 2 ^ 64 then Some v else None | None => None end.
Definition fast_to_u32 (s : string) : option Z :=
  match all_digits s with Some v => if v <? 2 ^ 32 then Some v else None | None => None end.

(** [std::from_chars] into [int64_t] ([parse_signed], [fast_to_i64]). *)
Definition parse_signed (s : string) : option Z :=
  match s with
  | String "-" r =>
      match all_digits r with
      | Some v => if v <=? 2 ^ 63 then Some (- v) else None
      | None => None
      end
  | _ =>
      match all_digits s with
      | Some v => if v <? 2 ^ 63 then Some v else None
      | None => None
      end
  end.

Definition is_c_space (c : ascii) : bool :=
  existsb (Ascii.eqb c) [" "; "009"; "010"; "011"; "012"; "013"]%char.

Fixpoint digits_prefix (s : string) (acc : Z) (n : nat) : Z * nat :=
  match s with
  | String c r => if is_digit c then digits_prefix r (acc * 10 + digit_val c) (S n) else (acc, n)
  | EmptyString => (acc, n)
  end.

Fixpoint skip_c_space (s : string) : string :=
  match s with
  | String c r => if is_c_space c then skip_c_space r else s
  | EmptyString => s
  end.

(** [std::strtoull(p, nullptr, 10)] on a view that is followed by ['}']
    in the line buffer (as at each call site): leading white space, an
    optional sign, the longest digit prefix; [ULLONG_MAX] on overflow. *)
Definition strtoull_sv (s0 : string) : Z :=
  let s := skip_c_space s0 in
  let '(neg, body) :=
    match s with
    | String "-" r => (true, r)
    | String "+" r => (false, r)
    | _ => (false, s)
    end in
  let '(v, n) := digits_prefix body 0 0 in
  if (n =? 0)%nat then 0
  else if v >=? 2 ^ 64 then 2 ^ 64 - 1
  else if neg then u64 (- v) else v.

(* ------------------------------------------------------------------ *)
(** ** Field writes used by the parser

    The C++ parser fills an output object field by field and may return
    early; these updates keep the fields written before the early return. *)

Definition ts_with_hms (t : TimeStamp) (h m s ms : Z) : TimeStamp :=
  {| t_combat_ms := t_combat_ms t; t_refined_epoch_ms := t_refined_epoch_ms t;
     t_h := h; t_m := m; t_s := s; t_ms := ms;
     t_year := t_year t; t_month := t_month t; t_day := t_day t |}.

Definition e_set_display (e : Entity) (d : string) (empty same : bool) : Entity :=
  {| e_display := d; e_name := e_name e; e_companion_name := e_companion_name e;
     e_id := e_id e; e_type_id := e_type_id e; e_is_player := e_is_player e;
     e_is_companion := e_is_companion e; e_empty := empty;
     e_is_same_as_source := same; e_pos := e_pos e; e_hp := e_hp e;
     e_owner := e_owner e |}.

(** Writes of [is_player], [is_companion], [owner] and [companion_name]. *)
Definition e_set_kind (e : Entity) (pl co : bool) (ow : CompanionOwner)
    (cname : string) : Entity :=
  {| e_display := e_display e; e_name := e_name e; e_companion_name := cname;
     e_id := e_id e; e_type_id := e_type_id e; e_is_player := pl;
     e_is_companion := co; e_empty := e_empty e;
     e_is_same_as_source := e_is_same_as_source e; e_pos := e_pos e;
     e_hp := e_hp e; e_owner := ow |}.

(** Writes of [name], [type_id] and [id]. *)
Definition e_set_ident (e : Entity) (nm : string) (tid id : Z) : Entity :=
  {| e_display := e_display e; e_name := nm; e_companion_name := e_companion_name e;
     e_id := id; e_type_id := tid; e_is_player := e_is_player e;
     e_is_companion := e_is_companion e; e_empty := e_empty e;
     e_is_same_as_source := e_is_same_as_source e; e_pos := e_pos e;
     e_hp := e_hp e; e_owner := e_owner e |}.

Definition e_set_pos (e : Entity) (p : Position) : Entity :=
  {| e_display := e_display e; e_name := e_name e; e_companion_name := e_companion_name e;
     e_id := e_id e; e_type_id := e_type_id e; e_is_player := e_is_player e;
     e_is_companion := e_is_companion e; e_empty := e_empty e;
     e_is_same_as_source := e_is_same_as_source e; e_pos := p;
     e_hp := e_hp e; e_owner := e_owner e |}.

Definition e_set_hp (e : Entity) (h : Health) : Entity :=
  {| e_display := e_display e; e_name := e_name e; e_companion_name := e_companion_name e;
     e_id := e_id e; e_type_id := e_type_id e; e_is_player := e_is_player e;
     e_is_companion := e_is_companion e; e_empty := e_empty e;
     e_is_same_as_source := e_is_same_as_source e; e_pos := e_pos e;
     e_hp := h; e_owner := e_owner e |}.

Definition ev_set_type (e : EventEffect) (nm : string) (tid : Z) : EventEffect :=
  {| ev_type_id := tid; ev_action_id := ev_action_id e; ev_type_name := nm;
     ev_action_name := ev_action_name e; ev_data := ev_data e |}.
Definition ev_set_action (e : EventEffect) (nm : string) (aid : Z) : EventEffect :=
  {| ev_type_id := ev_type_id e; ev_action_id := aid; ev_type_name := ev_type_name e;
     ev_action_name := nm; ev_data := ev_data e |}.
Definition ev_set_data (e : EventEffect) (d : string) : EventEffect :=
  {| ev_type_id := ev_type_id e; ev_action_id := ev_action_id e;
     ev_type_name := ev_type_name e; ev_action_name := ev_action_name e; ev_data := d |}.

Definition ae_set (a : AreaEnteredData) (area diff : NamedId) (dv : AreaDifficulty)
    (ver raw : string) (has : bool) : AreaEnteredData :=
  {| ae_area := area; ae_difficulty := diff; ae_difficulty_value := dv;
     ae_version := ver; ae_raw_value := raw; ae_has_difficulty := has |}.

Definition cl_set_t (l : CombatLine) (t : TimeStamp) : CombatLine := with_t l t.
Definition cl_set_source (l : CombatLine) (e : Entity) : CombatLine :=
  {| cl_t := cl_t l; cl_source := e; cl_target := cl_target l;
     cl_ability := cl_ability l; cl_event := cl_event l; cl_tail := cl_tail l;
     cl_area_entered := cl_area_entered l; cl_discipline_changed := cl_discipline_changed l |}.
Definition cl_set_target (l : CombatLine) (e : Entity) : CombatLine :=
  {| cl_t := cl_t l; cl_source := cl_source l; cl_target := e;
     cl_ability := cl_ability l; cl_event := cl_event l; cl_tail := cl_tail l;
     cl_area_entered := cl_area_entered l; cl_discipline_changed := cl_discipline_changed l |}.
Definition cl_set_ability (l : CombatLine) (a : NamedId) : CombatLine :=
  {| cl_t := cl_t l; cl_source := cl_source l; cl_target := cl_target l;
     cl_ability := a; cl_event := cl_event l; cl_tail := cl_tail l;
     cl_area_entered := cl_area_entered l; cl_discipline_changed := cl_discipline_changed l |}.
Definition cl_set_event (l : CombatLine) (e : EventEffect) : CombatLine :=
  {| cl_t := cl_t l; cl_source := cl_source l; cl_target := cl_target l;
     cl_ability := cl_ability l; cl_event := e; cl_tail := cl_tail l;
     cl_area_entered := cl_area_entered l; cl_discipline_changed := cl_discipline_changed l |}.
Definition cl_set_tail (l : CombatLine) (t : Trailing) : CombatLine :=
  {| cl_t := cl_t l; cl_source := cl_source l; cl_target := cl_target l;
     cl_ability := cl_ability l; cl_event := cl_event l; cl_tail := t;
     cl_area_entered := cl_area_entered l; cl_discipline_changed := cl_discipline_changed l |}.
Definition cl_set_area (l : CombatLine) (a : AreaEnteredData) : CombatLine :=
  {| cl_t := cl_t l; cl_source := cl_source l; cl_target := cl_target l;
     cl_ability := cl_ability l; cl_event := cl_event l; cl_tail := cl_tail l;
     cl_area_entered := a; cl_discipline_changed := cl_discipline_changed l |}.
Definition cl_set_disc (l : CombatLine) (d : DisciplineChangedData) : CombatLine :=
  {| cl_t := cl_t l; cl_source := cl_source l; cl_target := cl_target l;
     cl_ability := cl_ability l; cl_event := cl_event l; cl_tail := cl_tail l;
     cl_area_entered := cl_area_entered l; cl_discipline_changed := d |}.

(* ------------------------------------------------------------------ *)
(** ** The line parser (swtor_parser.cpp)

    [fast_to_f] ([std::from_chars] into [float] over the whole view) and
    [parse_double_sv] ([std::strtod] with the whole-string check) are the
    floating-point readers; the parser is stated for any such readers. *)

Section Parser.

Variable fast_to_f : string -> option Q.
Variable parse_double_sv : string -> option Q.

Local Open Scope nat_scope.

(** [next_bracket]: the view ["[...]"] and the new cursor. *)
Definition next_bracket (line : string) (cursor : nat) : option (string * nat) :=
  match SV.find "[" line cursor with
  | None => None
  | Some l =>
      match SV.find "]" line (l + 1) with
      | None => None
      | Some r => Some (SV.substr line l (r - l + 1), r + 1)
      end
  end.

(** [parse_timestamp_hhmmssmmm_struct]. *)
Definition parse_timestamp_hhmmssmmm_struct (br : string) (t : TimeStamp)
  : bool * TimeStamp :=
  let core := SV.strip_one br "[" "]" in
  let '(h, rest1) := SV.split_once core ":" in
  let '(m, rest2) := SV.split_once rest1 ":" in
  let '(s, ms) := SV.split_once rest2 "." in
  match fast_to_u32 h with
  | None => (false, t)
  | Some vh =>
  match fast_to_u32 m with
  | None => (false, ts_with_hms t vh (t_m t) (t_s t) (t_ms t))
  | Some vm =>
  match fast_to_u32 s with
  | None => (false, ts_with_hms t vh vm (t_s t) (t_ms t))
  | Some vs =>
  match fast_to_u32 ms with
  | None => (false, ts_with_hms t vh vm vs (t_ms t))
  | Some vms => (true, update_combat_ms (ts_with_hms t vh vm vs vms))
  end end end end.

(** [parse_position]: "(x,y,z,facing)". *)
Definition parse_position (paren : string) (p : Position) : bool * Position :=
  let core := SV.strip_one paren "(" ")" in
  let '(a0, c1) := SV.split_once core "," in
  let '(a1, c2) := SV.split_once c1 "," in
  let '(a2, c3) := SV.split_once c2 "," in
  let '(a3, _) := SV.split_once c3 "," in
  match fast_to_f a0 with
  | None => (false, p)
  | Some x =>
  match fast_to_f a1 with
  | None => (false, {| px := x; py := py p; pz := pz p; pfacing := pfacing p |})
  | Some y =>
  match fast_to_f a2 with
  | None => (false, {| px := x; py := y; pz := pz p; pfacing := pfacing p |})
  | Some z =>
  match fast_to_f a3 with
  | None => (false, {| px := x; py := y; pz := z; pfacing := pfacing p |})
  | Some f => (true, {| px := x; py := y; pz := z; pfacing := f |})
  end end end end.

(** [parse_health]: "(current/max)". *)
Definition parse_health (paren : string) (h : Health) : bool * Health :=
  let core := SV.strip_one paren "(" ")" in
  let '(a, b) := SV.split_once core "/" in
  match parse_signed a with
  | None => (false, h)
  | Some c =>
      match parse_signed b with
      | None => (false, {| hp_current := c; hp_max := hp_max h |})
      | Some mx => (true, {| hp_current := c; hp_max := mx |})
      end
  end.

(** [parse_named_id]: "Name {ID}"; the id is kept when it does not read. *)
Definition parse_named_id (text : string) (out : NamedId) : bool * NamedId :=
  match SV.find "{" text 0 with
  | None => (false, out)
  | Some lb =>
      match SV.find "}" text (lb + 1) with
      | None => (false, out)
      | Some rb =>
          let name_part := SV.rtrim (SV.substr text 0 lb) in
          let id_sv := SV.substr text (lb + 1) (rb - lb - 1) in
          let id := match fast_to_u64 id_sv with Some v => v | None => ni_id out end in
          (true, {| ni_name := name_part; ni_id := id |})
      end
  end.

(** [parse_player_token]: (name without '@', numeric id, looks like a player). *)
Definition parse_player_token (sv0 : string) : string * Z * bool :=
  let looks := SV.front_is sv0 "@" in
  let sv := if looks then SV.substr_from sv0 1 else sv0 in
  let dflt := (sv, 0%Z, looks) in
  match SV.rfind "#" sv with
  | Some hash =>
      match fast_to_u64 (SV.substr_from sv (hash + 1)) with
      | Some pid => (SV.substr sv 0 hash, pid, looks)
      | None => dflt
      end
  | None => dflt
  end.

(** One space removed from the end, as [if (back()==' ') remove_suffix(1)]. *)
Definition drop_one_space (s : string) : string :=
  if SV.back_is s " " then SV.substr s 0 (String.length s - 1) else s.

(** The [parse_position] / [parse_health] tail shared by the three branches
    of [parse_entity]. *)
Definition entity_pos_hp (pos_s hp_s : string) (e : Entity) : bool * Entity :=
  let '(okp, p) := parse_position pos_s (e_pos e) in
  let e1 := e_set_pos e p in
  if negb okp then (false, e1)
  else let '(okh, h) := parse_health hp_s (e_hp e1) in (okh, e_set_hp e1 h).

(** ["{staticId[:instId]}"] at the end of a display text: [None] when the
    static id does not read, else the two ids ([instId] is 0 when absent
    or unreadable). *)
Definition read_ids (right : string) (lb rb : nat) : option (Z * Z) :=
  match fast_to_u64 (SV.substr right (lb + 1) (rb - lb - 1)) with
  | None => None
  | Some sid =>
      let inst :=
        match SV.find ":" right (rb + 1) with
        | Some colon =>
            match fast_to_u64 (SV.substr_from right (colon + 1)) with
            | Some v => v
            | None => 0%Z
            end
        | None => 0%Z
        end in
      Some (sid, inst)
  end.

(** [parse_entity]: "[Display|Position|Health]". *)
Definition parse_entity (br : string) (out : Entity) : bool * Entity :=
  let core := SV.strip_one br "[" "]" in
  if SV.is_empty core then (true, e_set_display out core true (e_is_same_as_source out))
  else if String.eqb core "=" then (true, e_set_display out core false true)
  else
  let out := e_set_display out core false (e_is_same_as_source out) in
  let '(p0, c1) := SV.split_once core "|" in
  let '(p1, c2) := SV.split_once c1 "|" in
  let '(p2, _) := SV.split_once c2 "|" in
  let disp := p0 in
  match SV.find "/" disp 0 with
  | Some slash =>
      (* companion: "OwnerToken/CompanionName {staticId[:instId]}" *)
      let '(owner_name, owner_id, _) := parse_player_token (SV.substr disp 0 slash) in
      let right := SV.substr_from disp (slash + 1) in
      let ids :=
        match SV.rfind "{" right with
        | None => Some (right, 0%Z, 0%Z)
        | Some lb =>
            let comp_name := drop_one_space (SV.substr right 0 lb) in
            match SV.rfind "}" right with
            | Some rb =>
                if lb <? rb then
                  match read_ids right lb rb with
                  | Some (sid, inst) => Some (comp_name, sid, inst)
                  | None => None
                  end
                else Some (comp_name, 0%Z, 0%Z)
            | None => Some (comp_name, 0%Z, 0%Z)
            end
        end in
      match ids with
      | None => (false, out)
      | Some (comp_name, sid, inst) =>
          let ow := {| co_name_no_at := owner_name; co_player_numeric_id := owner_id;
                       co_has_owner := true |} in
          let e := e_set_ident (e_set_kind out false true ow comp_name) comp_name sid inst in
          entity_pos_hp p1 p2 e
      end
  | None =>
      let '(pname, pid, looks) := parse_player_token disp in
      if looks then
        (* player: "@Name#123..." *)
        let e := e_set_ident (e_set_kind out true false CompanionOwner_default "") pname 0 pid in
        entity_pos_hp p1 p2 e
      else
        (* NPC or object: "Name {staticId[:instId]}" *)
        let out := e_set_kind out false false CompanionOwner_default "" in
        match SV.rfind "{" disp, SV.rfind "}" disp with
        | Some lb, Some rb =>
            if lb <? rb then
              match read_ids disp lb rb with
              | None => (false, out)
              | Some (sid, inst) =>
                  let nm := drop_one_space (SV.substr disp 0 lb) in
                  entity_pos_hp p1 p2 (e_set_ident out nm sid inst)
              end
            else entity_pos_hp p1 p2 (e_set_ident out disp 0 0)
        | _, _ => entity_pos_hp p1 p2 (e_set_ident out disp 0 0)
        end
  end.

(** [parse_ability]: the status of [parse_named_id] is not used by the caller. *)
Definition parse_ability (br : string) (out : NamedId) : bool * NamedId :=
  parse_named_id (SV.strip_one br "[" "]") out.

(* --- Trailing value / charges / threat --- *)

(** [peel_terminal_threat]: the trimmed rest and the threat read from a
    final "<...>" group ([None] when absent or unreadable). *)
Definition peel_terminal_threat (tail0 : string) : string * option Q :=
  let tail := SV.trim_ws tail0 in
  if SV.is_empty tail || negb (SV.back_is tail ">") then (tail, None)
  else
    match SV.rfind "<" tail with
    | None => (tail, None)
    | Some lb =>
        let inner := SV.trim_ws (SV.substr tail (lb + 1) (String.length tail - lb - 2)) in
        (SV.trim_ws (SV.substr tail 0 lb), parse_double_sv inner)
    end.

Fixpoint paren_close (s : string) (depth : Z) (i : nat) : option nat :=
  match s with
  | EmptyString => None
  | String c r =>
      if Ascii.eqb c "(" then paren_close r (depth + 1) (S i)
      else if Ascii.eqb c ")" then
        (if (depth - 1 =? 0)%Z then Some (S i) else paren_close r (depth - 1) (S i))
      else paren_close r depth (S i)
  end.

(** [peel_paren_group]: the group inside the balanced leading "(...)"
    and the rest of the view. *)
Definition peel_paren_group (sv0 : string) : string * string :=
  let sv := SV.trim_ws sv0 in
  if negb (SV.front_is sv "(") then ("", sv)
  else
    match paren_close sv 0 0 with
    | None => ("", sv)
    | Some i => (SV.substr sv 1 (i - 2), SV.trim_ws (SV.substr_from sv i))
    end.

Definition has_flag (f b : Z) : bool := negb (Z.land f b =? 0)%Z.

(** [parse_mitigation_token]: switch on the first character, then the
    whole token. *)
Definition parse_mitigation_token (tok : string) : Z :=
  match tok with
  | EmptyString => MF_None
  | String c _ =>
      if Ascii.eqb c "s" then (if String.eqb tok "shield" then MF_Shield else MF_None)
      else if Ascii.eqb c "d" then
        (if String.eqb tok "deflect" then MF_Deflect
         else if String.eqb tok "dodge" then MF_Dodge else MF_None)
      else if Ascii.eqb c "g" then (if String.eqb tok "glance" then MF_Glance else MF_None)
      else if Ascii.eqb c "p" then (if String.eqb tok "parry" then MF_Parry else MF_None)
      else if Ascii.eqb c "r" then (if String.eqb tok "resist" then MF_Resist else MF_None)
      else if Ascii.eqb c "m" then (if String.eqb tok "miss" then MF_Miss else MF_None)
      else if Ascii.eqb c "i" then (if String.eqb tok "immune" then MF_Immune else MF_None)
      else MF_None
  end.

Definition vf_mk (amount : Z) (crit hs : bool) (sec : Z)
    (sc : School) (mit : Z) (sh : ShieldDetail) : ValueField :=
  {| vf_amount := amount; vf_crit := crit; vf_has_secondary := hs; vf_secondary := sec;
     vf_school := sc; vf_mitig := mit; vf_shield := sh |}.

Definition vf_set_mitig (vf : ValueField) (m : Z) : ValueField :=
  vf_mk (vf_amount vf) (vf_crit vf) (vf_has_secondary vf) (vf_secondary vf)
    (vf_school vf) m (vf_shield vf).
Definition vf_set_shield (vf : ValueField) (sh : ShieldDetail) : ValueField :=
  vf_mk (vf_amount vf) (vf_crit vf) (vf_has_secondary vf) (vf_secondary vf)
    (vf_school vf) (vf_mitig vf) sh.
Definition vf_set_school (vf : ValueField) (sc : School) : ValueField :=
  vf_mk (vf_amount vf) (vf_crit vf) (vf_has_secondary vf) (vf_secondary vf)
    sc (vf_mitig vf) (vf_shield vf).

Definition shield_with_effect (sh : ShieldDetail) (sid : Z) : ShieldDetail :=
  {| sh_shield_effect_id := sid; sh_absorbed := sh_absorbed sh;
     sh_absorbed_id := sh_absorbed_id sh; sh_present := true |}.
Definition shield_with_absorbed (sh : ShieldDetail) (a : Z) : ShieldDetail :=
  {| sh_shield_effect_id := sh_shield_effect_id sh; sh_absorbed := a;
     sh_absorbed_id := sh_absorbed_id sh; sh_present := true |}.
Definition shield_with_absorbed_id (sh : ShieldDetail) (aid : Z) : ShieldDetail :=
  {| sh_shield_effect_id := sh_shield_effect_id sh; sh_absorbed := sh_absorbed sh;
     sh_absorbed_id := aid; sh_present := true |}.

(** The ["(123 absorbed {id})"] group of a mitigation. *)
Definition absorbed_group (grp : string) (vf : ValueField) : ValueField :=
  let '(x, rest2) := SV.split_once grp " " in
  if String.eqb (SV.substr rest2 0 8) "absorbed" then
    let vf := match parse_signed x with
              | Some a => vf_set_shield vf (shield_with_absorbed (vf_shield vf) a)
              | None => vf
              end in
    let lb := SV.find "{" rest2 0 in
    let rb := SV.find "}" rest2 (match lb with Some l => l + 1 | None => 0 end) in
    match lb, rb with
    | Some l, Some r =>
        match fast_to_u64 (SV.substr rest2 (l + 1) (r - l - 1)) with
        | Some aid => vf_set_shield vf (shield_with_absorbed_id (vf_shield vf) aid)
        | None => vf
        end
    | _, _ => vf
    end
  else vf.

(** The [while] loop of [parse_mitigation_tail]; every round removes at
    least the leading '-', so [String.length cur + 1] rounds suffice. *)
Fixpoint mitigation_loop (fuel : nat) (cur : string) (vf : ValueField) : ValueField :=
  match fuel with
  | O => vf
  | S f =>
      if negb (SV.front_is cur "-") then vf else
      let cur := SV.substr_from cur 1 in
      let stop := SV.find_first_of [" "; "{"]%char cur in
      let token := match stop with None => cur | Some k => SV.substr cur 0 k end in
      let vf := vf_set_mitig vf (Z.lor (vf_mitig vf) (parse_mitigation_token token)) in
      match stop with
      | None => vf
      | Some k =>
          let cur := SV.trim_ws (SV.substr_from cur k) in
          let '(cur, vf) :=
            if SV.front_is cur "{" then
              match SV.find "}" cur 0 with
              | Some rb =>
                  let vf := match fast_to_u64 (SV.substr cur 1 (rb - 1)) with
                            | Some sid =>
                                if has_flag (vf_mitig vf) MF_Shield
                                then vf_set_shield vf (shield_with_effect (vf_shield vf) sid)
                                else vf
                            | None => vf
                            end in
                  (SV.trim_ws (SV.substr_from cur (rb + 1)), vf)
              | None => (cur, vf)
              end
            else (cur, vf) in
          let '(cur, vf) :=
            if SV.front_is cur "(" then
              let '(grp, cur) := peel_paren_group cur in
              (SV.trim_ws cur, absorbed_group grp vf)
            else (cur, vf) in
          let cur := SV.ltrim cur in
          if negb (SV.is_empty cur) && negb (SV.front_is cur "-") then vf
          else mitigation_loop f cur vf
      end
  end.

Definition parse_mitigation_tail (rest : string) (vf : ValueField) : ValueField :=
  mitigation_loop (S (String.length rest)) rest vf.

Definition opt_default {A} (o : option A) (d : A) : A :=
  match o with Some x => x | None => d end.

(** [parse_value_group]: [None] when it returns [false] (the caller then
    drops the partly filled [ValueField]). *)
Definition parse_value_group (grp : string) : option ValueField :=
  let cur := SV.trim_ws grp in
  let stop := SV.find_first_of [" "; "*"; "~"]%char cur in
  let amt := match stop with None => cur | Some k => SV.substr cur 0 k end in
  match parse_signed amt with
  | None => None
  | Some amount =>
  let vf := vf_mk amount false false 0 School_default MF_None ShieldDetail_default in
  let cur := match stop with None => "" | Some k => SV.substr_from cur k end in
  let '(crit, cur) := if SV.front_is cur "*" then (true, SV.substr_from cur 1) else (false, cur) in
  let vf := vf_mk amount crit false 0 School_default MF_None ShieldDetail_default in
  let cur := SV.trim_ws cur in
  let sec_res :=
    if SV.front_is cur "~" then
      let cur := SV.trim_ws (SV.substr_from cur 1) in
      let sstop := SV.find_first_of [" "; ")"]%char cur in
      let sec := match sstop with None => cur | Some k => SV.substr cur 0 k end in
      match parse_signed sec with
      | None => None
      | Some s =>
          Some (vf_mk amount crit true s School_default MF_None ShieldDetail_default,
                match sstop with None => "" | Some k => SV.substr_from cur k end)
      end
    else Some (vf, cur) in
  match sec_res with
  | None => None
  | Some (vf, cur) =>
  let cur := SV.trim_ws cur in
  let '(vf, cur) :=
    if negb (SV.is_empty cur) && negb (SV.front_is cur "-") && negb (SV.front_is cur "(") then
      let wstop := opt_default (SV.find_first_of [" "; "{"]%char cur) (String.length cur) in
      let w := SV.substr cur 0 wstop in
      let cur := SV.trim_ws (SV.substr_from cur wstop) in
      let sc := vf_school vf in
      if SV.front_is cur "{" then
        match SV.find "}" cur 0 with
        | Some rb =>
            let vf := match fast_to_u64 (SV.substr cur 1 (rb - 1)) with
                      | Some sid => vf_set_school vf {| sc_name := w; sc_id := sid; sc_present := true |}
                      | None => vf
                      end in
            (vf, SV.trim_ws (SV.substr_from cur (rb + 1)))
        | None => (vf_set_school vf {| sc_name := w; sc_id := sc_id sc; sc_present := true |}, cur)
        end
      else if negb (SV.is_empty w) then
        (vf_set_school vf {| sc_name := w; sc_id := sc_id sc; sc_present := true |}, cur)
      else (vf, cur)
    else (vf, cur) in
  Some (if SV.front_is cur "-" then parse_mitigation_tail cur vf else vf)
  end
  end.

(** [parse_charges_group]: "N charges", the count cast to [int32_t]. *)
Definition parse_charges_group (grp : string) : option Z :=
  let core := SV.trim_ws grp in
  let '(numtok, rest) := SV.split_once core " " in
  match parse_signed numtok with
  | None => None
  | Some n => if String.eqb (SV.trim_ws rest) "charges" then Some (s32 n) else None
  end.

(** The pointer loops of the fast path: a digit run accumulated with the
    given wrap-around, its length and the rest. *)
Fixpoint scan_digits (wrap : Z -> Z) (s : string) (acc : Z) (n : nat) : Z * nat * string :=
  match s with
  | String c r => if is_digit c then scan_digits wrap r (wrap (acc * 10 + digit_val c)%Z) (S n)
                  else (acc, n, s)
  | EmptyString => (acc, n, s)
  end.

Definition is_alpha (c : ascii) : bool :=
  let n := nat_of_ascii c in ((65 <=? n) && (n <=? 90)) || ((97 <=? n) && (n <=? 122)).

Fixpoint scan_alpha (s : string) : string * string :=
  match s with
  | String c r => if is_alpha c then let '(w, rest) := scan_alpha r in (String c w, rest)
                  else ("", s)
  | EmptyString => ("", "")
  end.

Definition drop1 (s : string) : string := SV.substr_from s 1.

(** [parse_trailing_fast_common]: "(amt[*]? [~ sec]? school {id}?) [<threat>]"
    with no '-' and no second '('; [None] when it returns [false]. *)
Definition parse_trailing_fast_common (tail : string) : option Trailing :=
  let '(work, thr) := peel_terminal_threat tail in
  let hasThreat := match thr with Some _ => true | None => false end in
  let threat := opt_default thr 0%Q in
  match SV.find "-" work 0 with
  | Some _ => None
  | None =>
  match SV.find "(" work 0 with
  | None =>
      Some {| tl_kind := VK_None; tl_val := ValueField_default; tl_charges := 0;
              tl_has_charges := false; tl_has_threat := hasThreat; tl_threat := threat;
              tl_unparsed := "" |}
  | Some first_open =>
  match SV.find "(" work (first_open + 1) with
  | Some _ => None
  | None =>
  match SV.find ")" work (first_open + 1) with
  | None => None
  | Some close =>
  let grp := SV.substr work (first_open + 1) (close - (first_open + 1)) in
  (* amount *)
  let neg := SV.front_is grp "-" in
  let p := if neg then drop1 grp else grp in
  let '(amount, na, p) := scan_digits s64 p 0 0 in
  if na =? 0 then None else
  let amount := if neg then s64 (- amount) else amount in
  let p := SV.ltrim p in
  (* crit *)
  let '(crit, p) := if SV.front_is p "*" then (true, SV.ltrim (drop1 p)) else (false, p) in
  (* "~ sec" *)
  let sec_res :=
    if SV.front_is p "~" then
      let p := SV.ltrim (drop1 p) in
      let sneg := SV.front_is p "-" in
      let p := if sneg then drop1 p else p in
      let '(sec, ns, p) := scan_digits s64 p 0 0 in
      if ns =? 0 then None
      else Some (true, (if sneg then s64 (- sec) else sec), SV.ltrim p)
    else Some (false, 0%Z, p) in
  match sec_res with
  | None => None
  | Some (hs, sec, p) =>
  (* school [ + optional {id} ] *)
  let '(w, p) := scan_alpha p in
  let school_res :=
    if SV.is_empty w then Some (School_default, p)
    else
      let p := SV.ltrim p in
      if SV.front_is p "{" then
        let '(sid, ni, p) := scan_digits u64 (drop1 p) 0 0 in
        if (ni =? 0) || negb (SV.front_is p "}") then None
        else Some ({| sc_name := w; sc_id := sid; sc_present := true |}, SV.ltrim (drop1 p))
      else Some ({| sc_name := w; sc_id := 0; sc_present := true |}, SV.ltrim p) in
  match school_res with
  | None => None
  | Some (sc, p) =>
  if negb (SV.is_empty p) then None else
  Some {| tl_kind := VK_Numeric;
          tl_val := vf_mk amount crit hs sec sc MF_None ShieldDetail_default;
          tl_charges := 0; tl_has_charges := false;
          tl_has_threat := hasThreat; tl_threat := threat;
          tl_unparsed := SV.substr_from work (close + 1) |}
  end end end end end end.

(** [parse_trailing]: fast path, then the tolerant slow path; it always
    returns [true]. *)
Definition parse_trailing (tail0 : string) : bool * Trailing :=
  match parse_trailing_fast_common tail0 with
  | Some t => (true, t)
  | None =>
      let '(tail, thr) := peel_terminal_threat tail0 in
      let mk k v c hc u :=
        {| tl_kind := k; tl_val := v; tl_charges := c; tl_has_charges := hc;
           tl_has_threat := match thr with Some _ => true | None => false end;
           tl_threat := opt_default thr 0%Q; tl_unparsed := u |} in
      if SV.is_empty tail then (true, mk VK_None ValueField_default 0%Z false "")
      else
        let '(grp1, tail) := peel_paren_group tail in
        if SV.is_empty grp1 then (true, mk VK_None ValueField_default 0%Z false tail)
        else
          match parse_charges_group grp1 with
          | Some c => (true, mk VK_Charges ValueField_default c true tail)
          | None =>
              match parse_value_group grp1 with
              | None => (true, mk VK_Unknown ValueField_default 0%Z false grp1)
              | Some vf => (true, mk VK_Numeric vf 0%Z false tail)
              end
          end
  end.

(* --- Special events and the event field --- *)

(** The '}' count of [parse_area_entered] and the index of the first one. *)
Fixpoint count_close (s : string) (i first count : nat) : nat * nat :=
  match s with
  | EmptyString => (first, count)
  | String c r =>
      if Ascii.eqb c "}" then count_close r (S i) (if count =? 0 then i else first) (S count)
      else count_close r (S i) first count
  end.

(** [detail::parse_area_entered]. *)
Definition parse_area_entered (event_text value_text : string) (out : AreaEnteredData)
  : bool * AreaEnteredData :=
  match SV.find ":" event_text 0 with
  | None => (false, out)
  | Some colon =>
  let rem := SV.ltrim (SV.substr_from event_text (colon + 1)) in
  let '(first_close, brace_count) := count_close rem 0 0 0 in
  let res :=
    if brace_count =? 1 then
      match parse_named_id rem (ae_area out) with
      | (false, _) => inl out
      | (true, a) => inr (a, ae_difficulty out, false)
      end
    else if brace_count =? 2 then
      match parse_named_id (SV.substr rem 0 (first_close + 1)) (ae_area out) with
      | (false, _) => inl out
      | (true, a) =>
          let diff_part := SV.ltrim (SV.substr_from rem (first_close + 1)) in
          match parse_named_id diff_part (ae_difficulty out) with
          | (false, _) =>
              inl (ae_set out a (ae_difficulty out) (ae_difficulty_value out)
                     (ae_version out) (ae_raw_value out) (ae_has_difficulty out))
          | (true, d) => inr (a, d, true)
          end
      end
    else inl out in
  match res with
  | inl o => (false, o)
  | inr (a, d, has) =>
      let dv := if has then deduce_area_difficulty (ni_id d) else ae_difficulty_value out in
      let raw := if SV.is_empty value_text then ae_raw_value out else value_text in
      (true, ae_set out a d dv (ae_version out) raw has)
  end
  end.

(** [detail::parse_discipline_changed]. *)
Definition parse_discipline_changed (event_text : string) (out : DisciplineChangedData)
  : bool * DisciplineChangedData :=
  match SV.find ":" event_text 0 with
  | None => (false, out)
  | Some colon =>
  let rem := SV.ltrim (SV.substr_from event_text (colon + 1)) in
  match SV.find "/" rem 0 with
  | None => (false, out)
  | Some slash =>
  match parse_named_id (SV.substr rem 0 slash) (dc_combat_class out) with
  | (false, _) => (false, out)
  | (true, c) =>
  match parse_named_id (SV.substr_from rem (slash + 1)) (dc_discipline out) with
  | (false, _) =>
      (false, {| dc_combat_class := c; dc_discipline := dc_discipline out;
                 dc_combat_class_enum := dc_combat_class_enum out;
                 dc_discipline_enum := dc_discipline_enum out;
                 dc_role_enum := dc_role_enum out |})
  | (true, d) =>
      (true, {| dc_combat_class := c; dc_discipline := d;
                dc_combat_class_enum := ni_id c; dc_discipline_enum := ni_id d;
                dc_role_enum := deduce_combat_role (ni_id d) |})
  end end end end.

(** [detail::parse_event_field]. *)
Definition parse_event_field (event_text value_text angle_text : string) (out : CombatLine)
  : ParseStatus * CombatLine :=
  if SV.is_empty event_text then (Ok, out) else
  let len := String.length event_text in
  let brace := SV.find "{" event_text 0 in
  let colon := SV.find ":" event_text 0 in
  let name_end := Nat.min (opt_default brace len) (opt_default colon len) in
  let name := SV.rtrim (SV.substr event_text 0 name_end) in
  let ev := cl_event out in
  let tid :=
    match brace with
    | Some b =>
        match SV.find "}" event_text (b + 1) with
        | Some rb => strtoull_sv (SV.substr event_text (b + 1) (rb - b - 1))
        | None => ev_type_id ev
        end
    | None => ev_type_id ev
    end in
  let ev := ev_set_type ev name tid in
  let ev :=
    match colon with
    | Some c =>
        let effect_part := SV.ltrim (SV.substr_from event_text (c + 1)) in
        match SV.rfind "{" effect_part, SV.rfind "}" effect_part with
        | Some lb, Some rb =>
            if rb <? lb then ev
            else ev_set_action ev (SV.substr effect_part 0 lb)
                   (strtoull_sv (SV.substr effect_part (lb + 1) (rb - lb - 1)))
        | _, _ => ev
        end
    | None => ev
    end in
  let out := cl_set_event out ev in
  if matches_type ev KINDID_AreaEntered then
    let '(ok, ae) := parse_area_entered event_text value_text (cl_area_entered out) in
    let out := cl_set_area out ae in
    if negb ok then (Malformed, out)
    else if negb (SV.is_empty angle_text) && SV.front_is angle_text "v" then
      (Ok, cl_set_area out (ae_set ae (ae_area ae) (ae_difficulty ae)
                              (ae_difficulty_value ae) angle_text (ae_raw_value ae)
                              (ae_has_difficulty ae)))
    else (Ok, out)
  else if matches_type ev KINDID_DisciplineChanged then
    let '(ok, dc) := parse_discipline_changed event_text (cl_discipline_changed out) in
    let out := cl_set_disc out dc in
    if negb ok then (Malformed, out) else (Ok, out)
  else (Ok, cl_set_event out (ev_set_data ev event_text)).

(* --- The public parser --- *)

(** Spaces at [pos] and after, as the [while (pos < size && text[pos] == ' ')] loops. *)
Definition skip_spaces_at (line : string) (pos : nat) : nat :=
  let rest := SV.substr_from line pos in
  pos + (String.length rest - String.length (SV.ltrim rest)).

Definition char_at_is (line : string) (pos : nat) (c : ascii) : bool :=
  match String.get pos line with Some x => Ascii.eqb x c | None => false end.

(** [detail::extract_parens_content]. *)
Definition extract_parens_content (text : string) (pos : nat) : string * nat :=
  if negb (char_at_is text pos "(") then ("", pos) else
  match SV.find ")" text pos with
  | None => ("", pos)
  | Some close => (SV.substr text (pos + 1) (close - pos - 1), skip_spaces_at text (close + 1))
  end.

(** [detail::extract_angle_content]. *)
Definition extract_angle_content (text : string) (pos : nat) : string * nat :=
  if negb (char_at_is text pos "<") then ("", pos) else
  match SV.find ">" text pos with
  | None => ("", pos)
  | Some close => (SV.substr text (pos + 1) (close - pos - 1), close + 1)
  end.

(** [parse_combat_line]: the status and the (possibly partly filled) line. *)
Definition parse_combat_line (line : string) : ParseStatus * CombatLine :=
  let out := CombatLine_default in
  match next_bracket line 0 with
  | None => (Malformed, out)
  | Some (tsbr, cur) =>
  let '(okt, t) := parse_timestamp_hhmmssmmm_struct tsbr (cl_t out) in
  let out := cl_set_t out t in
  if negb okt then (Malformed, out) else
  match next_bracket line cur with
  | None => (Malformed, out)
  | Some (srcbr, cur) =>
  let '(oks, src) := parse_entity srcbr (cl_source out) in
  let out := cl_set_source out src in
  if negb oks then (Malformed, out) else
  match next_bracket line cur with
  | None => (Malformed, out)
  | Some (tgtbr, cur) =>
  let '(okg, tgt) := parse_entity tgtbr (cl_target out) in
  let out := cl_set_target out tgt in
  if negb okg then (Malformed, out) else
  let out := if negb (e_empty tgt) && e_is_same_as_source tgt
             then cl_set_target out (cl_source out) else out in
  match next_bracket line cur with
  | None => (Malformed, out)
  | Some (abbr, cur) =>
  let out := cl_set_ability out (snd (parse_ability abbr (cl_ability out))) in
  match next_bracket line cur with
  | None => (Malformed, out)
  | Some (evbr, cur) =>
  let probe := skip_spaces_at line cur in
  let '(value_text, probe) :=
    if char_at_is line probe "(" then extract_parens_content line probe else ("", probe) in
  let angle_text :=
    if char_at_is line probe "<" then fst (extract_angle_content line probe) else "" in
  let event_core := SV.strip_one evbr "[" "]" in
  match parse_event_field event_core value_text angle_text out with
  | (Malformed, out) => (Malformed, out)
  | (Ok, out) =>
  let tailSV := if cur <? String.length line then SV.ltrim (SV.substr_from line cur) else "" in
  let '(okr, tl) := parse_trailing tailSV in
  let out := cl_set_tail out tl in
  if negb okr then (Malformed, out) else (Ok, out)
  end end end end end end.

End Parser.

(* ------------------------------------------------------------------ *)
(** ** The pipeline ([plugin_manager], parse_manager.cpp)

    Plugins are objects behind [parse_plugin]; their state type and
    their virtual methods are left open.  [sort_plugins] is the
    [std::sort] by priority of [plugin_manager::sort]. *)

Module Pipeline.

Section Pipeline.

Variable Plugin : Type.
Variable is_enabled : Plugin -> bool.
Variable get_priority : Plugin -> Z.
Variable ingest : Plugin -> CombatLine -> Plugin.
Variable plugin_reset : Plugin -> Plugin.
Variable sort_plugins : list Plugin -> list Plugin.

(** [parse_data]. *)
Record parse_data := {
  time_cruncher : TimeCruncher.state;
  combat_state : CombatState.state;
  entities : EntityManager.state;
  plugins : list Plugin;
  last_line : CombatLine;
  last_area_enter : CombatLine;
  last_enter_combat : CombatLine }.

Definition reset_plugins (ps : list Plugin) : list Plugin :=
  sort_plugins (map plugin_reset ps).

Definition ingest_all (ps : list Plugin) (line : CombatLine) : list Plugin :=
  map (fun p => if is_enabled p && (get_priority p >=? 0) then ingest p line else p) ps.

(** [plugin_manager::process_line(CombatLine&)]; [now] is the clock
    reading taken by the time cruncher. *)
Definition process_line_event (now : Z) (pd : parse_data) (line0 : CombatLine) : parse_data :=
  let '(tc, line) := TimeCruncher.processLine now (time_cruncher pd) line0 in
  let cs := CombatState.ParseLine line (combat_state pd) in
  let em := EntityManager.combat_state_update (CombatState.is_in_combat cs) (entities pd) in
  let em := EntityManager.ParseLine line em in
  let is_area := line_is_type line KINDID_AreaEntered in
  let is_enter := line_is_action line ACT_EnterCombat in
  let ps := if is_area then reset_plugins (plugins pd) else plugins pd in
  let ps := ingest_all ps line in
  {| time_cruncher := tc; combat_state := cs; entities := em; plugins := ps;
     last_line := line;
     last_area_enter := if is_area then line else last_area_enter pd;
     last_enter_combat := if is_enter then line else last_enter_combat pd |}.

End Pipeline.

Section RawLines.

Variable fast_to_f : string -> option Q.
Variable parse_double_sv : string -> option Q.

(** [plugin_manager::process_line(std::string)]: the line is parsed and
    processed; the parse status is not inspected. *)
Definition process_line_str {Plugin : Type} (is_enabled : Plugin -> bool)
    (get_priority : Plugin -> Z) (ingest : Plugin -> CombatLine -> Plugin)
    (plugin_reset : Plugin -> Plugin) (sort_plugins : list Plugin -> list Plugin)
    (now : Z) (pd : parse_data Plugin) (str_line : string) : parse_data Plugin :=
  let '(status, line) := parse_combat_line fast_to_f parse_double_sv str_line in
  process_line_event Plugin is_enabled get_priority ingest plugin_reset sort_plugins now pd line.

End RawLines.

End Pipeline.

(* ------------------------------------------------------------------ *)
(** ** Sample inputs *)

Module Samples.

(** A line whose time stamp reads [combat_ms] (the other fields default). *)
Definition timed_line (combat_ms : Z) : CombatLine :=
  with_t CombatLine_default
    {| t_combat_ms := combat_ms; t_refined_epoch_ms := -1; t_h := 0; t_m := 0;
       t_s := 0; t_ms := 0; t_year := 0; t_month := 0; t_day := 0 |}.

Definition player (id : Z) : Entity :=
  {| e_display := ""; e_name := ""; e_companion_name := ""; e_id := id;
     e_type_id := 0; e_is_player := true; e_is_companion := false;
     e_empty := false; e_is_same_as_source := false;
     e_pos := Position_default; e_hp := Health_default;
     e_owner := CompanionOwner_default |}.

Definition event_of (type_id action_id : Z) : EventEffect :=
  {| ev_type_id := type_id; ev_action_id := action_id; ev_type_name := "";
     ev_action_name := ""; ev_data := "" |}.

(** A line at refined epoch [ep] from [src] to [tgt] with the given
    event type and action ids. *)
Definition event_line (ep : Z) (src tgt : Entity) (type_id action_id : Z) : CombatLine :=
  cl_set_event
    (cl_set_target
       (cl_set_source
          (with_t CombatLine_default (set_refined_epoch TimeStamp_default ep)) src) tgt)
    (event_of type_id action_id).

(** A line carrying a numeric tail with the given threat. *)
Definition line_with_threat (l : CombatLine) (threat : Q) : CombatLine :=
  cl_set_tail l
    {| tl_kind := VK_Numeric; tl_val := ValueField_default; tl_charges := 0;
       tl_has_charges := false; tl_has_threat := true; tl_threat := threat;
       tl_unparsed := "" |}.

(** A float reader that reads "0" as zero. *)
Definition zero_reader (s : string) : option Q :=
  if String.eqb s "0" then Some 0%Q else None.

(** A line whose trailing group is a charges count. *)
Definition charges_line : string :=
  "[23:59:59.500] [@Alice#1|(0,0,0,0)|(100/100)] [] [Foo {1}] [ApplyEffect {836045448945477}: Bar {2}] (3 charges)".

(** The AreaEntered line of the spec, with a time stamp and a source.  *)
Definition area_line : string :=
  "[23:59:59.500] [@Alice#1|(0,0,0,0)|(100/100)] [] [] [AreaEntered {836045448953664}: Dxun - The CI-004 Facility {833571547775792} 8 Player Master {836045448953655}] (he3001) <v7.0.0b>".

(** An ApplyEffect line of an effect (neither Damage nor Heal) from
    player 1 to player 2. *)
Definition effect_line : CombatLine :=
  event_line 0 (player 1) (player 2) KINDID_ApplyEffect 985226842996736.

(** A Heal line and a Damage line from player 1 to player 2 whose tails
    carry a threat value. *)
Definition heal_threat_line (threat : Q) : CombatLine :=
  line_with_threat (event_line 0 (player 1) (player 2) KINDID_ApplyEffect ACT_Heal) threat.

Definition damage_threat_line (threat : Q) : CombatLine :=
  line_with_threat (event_line 0 (player 1) (player 2) KINDID_ApplyEffect ACT_Damage) threat.

End Samples.

(* ------------------------------------------------------------------ *)
(** ** Shapes of inputs used in the statements below *)

Module Shapes.

Definition c_of (l : CombatLine) : Z := t_combat_ms (cl_t l).

Definition epochs (ls : list CombatLine) : list Z :=
  map (fun l => t_refined_epoch_ms (cl_t l)) ls.

(** An arrival [(now, day, line)]: the clock reading, the day the line
    was written on (counted from any origin) and the line. *)
Definition arrival := (Z * Z * CombatLine)%type.

Definition arrivals (evs : list arrival) : list (Z * CombatLine) :=
  map (fun '(now, _, l) => (now, l)) evs.

Definition well_timed (e : arrival) : Prop :=
  let '(_, _, l) := e in
  TimeCruncher.isAreaEntered l = false /\ 0 <= c_of l < TimeCruncher.MS_PER_DAY.

(** Two consecutive lines, [(day, combat_ms)] each, of a run whose first
    line was written on day [d0]: either the same day with a later or
    equal time (and, on a day after [d0], a line of the first 30 s is
    followed by one of the first 2 min), or the next day with the last
    line of the day in its last minute and the first of the new day in
    its first 2 minutes. *)
Definition ordered_step (d0 : Z) (p q : Z * Z) : Prop :=
  let '(d, c) := p in
  let '(d', c') := q in
  (d' = d /\ c <= c' /\ (d0 < d -> c <= 30000 -> c' < 120000))
  \/ (d' = d + 1 /\ 86340000 < c /\ c' < 120000).

Fixpoint ordered_chain (d0 : Z) (prev : Z * Z) (evs : list arrival) : Prop :=
  match evs with
  | [] => True
  | (_, d, l) :: rest => ordered_step d0 prev (d, c_of l) /\ ordered_chain d0 (d, c_of l) rest
  end.

(** Where a run stands after a line of day [d] at [combat_ms = c]: the
    base date is [B0] moved by the days since [d0], one day behind while a
    rollover is pending (the close-to-midnight flag still set after a
    line of the first 30 s of a new day). *)
Definition Inv (B0 d0 : Z) (st : TimeCruncher.state) (d c : Z) : Prop :=
  TimeCruncher.initialized_ st = true /\ d0 <= d /\
  ((TimeCruncher.midnight_close_ st = false
    /\ TimeCruncher.base_date_epoch_ms_ st = B0 + (d - d0) * TimeCruncher.MS_PER_DAY
    /\ c <= 86340000)
   \/ (TimeCruncher.midnight_close_ st = true
       /\ TimeCruncher.base_date_epoch_ms_ st = B0 + (d - d0) * TimeCruncher.MS_PER_DAY
       /\ 86340000 < c)
   \/ (TimeCruncher.midnight_close_ st = true
       /\ TimeCruncher.base_date_epoch_ms_ st = B0 + (d - d0 - 1) * TimeCruncher.MS_PER_DAY
       /\ c <= 30000 /\ d0 < d)).

(** The wall-clock epoch of an arrival, days counted from [d0] at [B0]. *)
Definition epoch_of (B0 d0 : Z) (e : arrival) : Z :=
  let '(_, d, l) := e in B0 + (d - d0) * TimeCruncher.MS_PER_DAY + c_of l.

(** The counter that the mitigation [switch] of [EntityManager::ParseLine]
    should bump for a mitigation value made of one flag. *)
Definition mitigation_counter_of (m : Z) : option EntityManager.Counter :=
  if m =? MF_Shield then Some EntityManager.total_shielding_done
  else if m =? MF_Deflect then Some EntityManager.total_defect_done
  else if m =? MF_Glance then Some EntityManager.total_glance_done
  else if m =? MF_Dodge then Some EntityManager.total_dodge_done
  else if m =? MF_Parry then Some EntityManager.total_parry_done
  else if m =? MF_Resist then Some EntityManager.total_resist_done
  else if m =? MF_Miss then Some EntityManager.total_miss_done
  else if m =? MF_Immune then Some EntityManager.total_immune_done
  else None.

Definition mitigation_counters : list EntityManager.Counter :=
  [EntityManager.total_shielding_done; EntityManager.total_defect_done;
   EntityManager.total_glance_done; EntityManager.total_dodge_done;
   EntityManager.total_parry_done; EntityManager.total_resist_done;
   EntityManager.total_miss_done; EntityManager.total_immune_done].

(** The entity states with id [x] have [total_damage_done == 0]. *)
Definition damage_zero (x : Z) (es : EntityManager.EntityState) : Prop :=
  EntityManager.es_id es = x -> EntityManager.get es EntityManager.total_damage_done = 0.

Definition no_damage_done (x : Z) (m : EntityManager.state) : Prop :=
  Forall (damage_zero x) (EntityManager.entities_ m).

(** An operation that ingests a Damage line whose source has id [x]. *)
Definition damage_from (x : Z) (o : EntityManager.op) : bool :=
  match o with
  | EntityManager.Op_ParseLine l => line_is_action l ACT_Damage && (e_id (cl_source l) =? x)
  | _ => false
  end.

(** A line of type [Event] with the given action. *)
Definition is_event (l : CombatLine) (act : Z) : bool :=
  (ev_type_id (cl_event l) =? KINDID_Event) && (ev_action_id (cl_event l) =? act).


(** The [total_threat] of the source after [EntityManager::ParseLine]
    of [l], from [b] before: [static_cast<uint64_t>(tail.threat)] is
    added by a Damage line and again by a ModifyThreat line. *)
Definition threat_after (l : CombatLine) (b : Z) : Z :=
  let t := EntityManager.threat_to_u64 (tl_threat (cl_tail l)) in
  let b1 := if line_is_action l ACT_Damage then u64 (b + t) else b in
  if line_is_action l ACT_ModifyThreat then u64 (b1 + t) else b1.

(** A mitigation counter [c] of the source after the line, from [b]
    before: bumped when the tail has a value whose mitigation is the
    single flag of [c]. *)
Definition mitigation_after (l : CombatLine) (c : EntityManager.Counter) (b : Z) : Z :=
  match mitigation_counter_of (vf_mitig (tl_val (cl_tail l))) with
  | Some c' =>
      if negb (ValueKind_eqb (tl_kind (cl_tail l)) VK_None) && EntityManager.counter_eqb c' c
      then u16 (b + 1) else b
  | None => b
  end.

(** Counter [c] of the state of the source of [l] in the registry the
    line meets ([ParseLine] first resets it on AreaEntered); a source
    not yet tracked starts at zero. *)
Definition source_counter (l : CombatLine) (m : EntityManager.state)
    (c : EntityManager.Counter) : Z :=
  match EntityManager.entity_by_id
          (if line_is_type l KINDID_AreaEntered then EntityManager.reset m else m)
          (e_id (cl_source l)) with
  | Some es => EntityManager.get es c
  | None => 0
  end.

(** [total_threat] and the mitigation counters. *)
Definition tracked (c : EntityManager.Counter) : bool :=
  EntityManager.counter_eqb c EntityManager.total_threat
  || existsb (EntityManager.counter_eqb c) mitigation_counters.


(** No occurrence of the character [c] in [s]. *)
Definition no_char (c : ascii) (s : string) : Prop :=
  forall x, In x (list_ascii_of_string s) -> x <> c.

(** The number of drops of the combat clock along [prev :: cs]. *)
Fixpoint drops (prev : Z) (cs : list Z) : Z :=
  match cs with
  | [] => 0
  | c :: r => (if c <? prev then 1 else 0) + drops c r
  end.

(** The dead list holds players only, and neither list holds an id twice. *)
Definition dead_fight_ok (cs : CombatState.state) : Prop :=
  Forall (fun e => e_is_player e = true) (CombatState.dead_players_ cs)
  /\ NoDup (map e_id (CombatState.dead_players_ cs)) /\ NoDup (map e_id (CombatState.fighting_players_ cs)).

(** The registry left by an AreaEntered line: its source, then its
    target when that is another entity, the source being the owner. *)
Definition area_shape (l : CombatLine) (Y : list EntityManager.EntityState) : Prop :=
  map EntityManager.es_id Y
    = e_id (cl_source l)
      :: (if negb (e_empty (cl_target l)) && negb (e_id (cl_source l) =? e_id (cl_target l))
          then [e_id (cl_target l)] else [])
  /\ exists a r, Y = a :: r /\ EntityManager.es_owner a = true.

End Shapes.


(* ================================================================== *)
(** * Proofs *)

(** ** The time reconstructor *)

Module TimeCruncherProofs.
Import TimeCruncher Shapes.

Lemma u32_small (x : Z) : 0 <= x < 2 ^ 32 -> u32 x = x.
Proof. intros H; unfold u32; apply Z.mod_small; exact H. Qed.

(** One line on an initialised state, with the three thresholds of
    [processLine] written out. *)
Lemma processLine_initialized (now : Z) (st : state) (l : CombatLine) :
  initialized_ st = true -> isAreaEntered l = false ->
  let c := t_combat_ms (cl_t l) in
  let mc := midnight_close_ st in
  let base := base_date_epoch_ms_ st in
  let commit := mc && (30000 <? c) && (c <? 86340000) in
  t_refined_epoch_ms (cl_t (snd (processLine now st l)))
    = (if (c <? 120000) && mc then base + u32 (MS_PER_DAY + c) else base + u32 c)
  /\ initialized_ (fst (processLine now st l)) = true
  /\ midnight_close_ (fst (processLine now st l))
       = (if 86340000 <? c then true else if commit then false else mc)
  /\ base_date_epoch_ms_ (fst (processLine now st l))
       = (if 86340000 <? c then base else if commit then base + MS_PER_DAY else base)
  /\ midnight_rollovers_detected (stats_ (fst (processLine now st l)))
       = (if 86340000 <? c then midnight_rollovers_detected (stats_ st)
          else if commit then midnight_rollovers_detected (stats_ st) + 1
          else midnight_rollovers_detected (stats_ st)).
Proof.
  intros Hi Ha.
  destruct st as [ini mc base day lastc laste stats]; cbn in Hi; subst ini.
  unfold processLine, initializeBaseDate. rewrite Ha.
  cbn -[u32 Z.ltb Z.gtb Z.add Z.mul Z.sub Z.div].
  rewrite !Z.gtb_ltb.
  assert (E1 : CloseToMidnightThreshold = 86340000) by reflexivity.
  assert (E2 : MIDNIGHT_ROLLOVER_THRESHOLD_MS / 2 = 30000) by reflexivity.
  assert (E3 : MIDNIGHT_ROLLOVER_THRESHOLD_MS * 2 = 120000) by reflexivity.
  rewrite ?E1, ?E2, ?E3.
  set (c := t_combat_ms (cl_t l)) in *.
  destruct (c <? lastc), (86340000 <? c), mc, (30000 <? c), (c <? 86340000), (c <? 120000);
  cbn -[u32 Z.add Z.mul Z.sub Z.div]; repeat split.
Qed.

Lemma processLine_step (B0 d0 d c d' now : Z) (st : state) (l : CombatLine) :
  Inv B0 d0 st d c -> isAreaEntered l = false -> 0 <= c_of l < MS_PER_DAY ->
  ordered_step d0 (d, c) (d', c_of l) ->
  t_refined_epoch_ms (cl_t (snd (processLine now st l)))
    = B0 + (d' - d0) * MS_PER_DAY + c_of l
  /\ Inv B0 d0 (fst (processLine now st l)) d' (c_of l).
Proof.
  intros [Hi [Hd Hcase]] Ha Hc Hstep.
  pose proof (processLine_initialized now st l Hi Ha) as P; cbv zeta in P.
  destruct P as [E [I [M [B _]]]].
  unfold Inv; rewrite E, I, M, B.
  unfold c_of in *; cbn [ordered_step] in Hstep.
  set (c' := t_combat_ms (cl_t l)) in *.
  unfold MS_PER_DAY in *.
  destruct Hcase as [[Hm [Hb Hc0]] | [[Hm [Hb Hc0]] | [Hm [Hb [Hc1 Hd1]]]]]; rewrite Hm, Hb;
  destruct Hstep as [[-> [Hle Hsm]] | [-> [Hlt Hsm]]].
  all: destruct (Z.ltb_spec c' 120000), (Z.ltb_spec 86340000 c'), (Z.ltb_spec 30000 c'),
    (Z.ltb_spec c' 86340000); cbn -[u32 Z.add Z.mul Z.sub].
  all: clear E I M B; try (exfalso; lia).
  all: rewrite ?u32_small by lia.
  all: (split; [lia | split; [reflexivity | split; [lia | ]]]).
  all: first [ left; split; [reflexivity | split; lia]
             | right; left; split; [reflexivity | split; lia]
             | right; right; split; [reflexivity | repeat split; lia] ].
Qed.

Lemma processLine_uninitialized (now : Z) (st : state) (l : CombatLine) :
  initialized_ st = false -> isAreaEntered l = false ->
  processLine now st l = processLine now (set_Base_Date now l st) l.
Proof.
  intros Hi Ha. unfold processLine at 1 2, initializeBaseDate. rewrite Ha, Hi.
  reflexivity.
Qed.

Lemma processLine_first (d0 now : Z) (st : state) (l : CombatLine) :
  initialized_ st = false -> isAreaEntered l = false -> 0 <= c_of l < MS_PER_DAY ->
  let B0 := base_date_epoch_ms_ (set_Base_Date now l st) in
  t_refined_epoch_ms (cl_t (snd (processLine now st l))) = B0 + c_of l
  /\ Inv B0 d0 (fst (processLine now st l)) d0 (c_of l).
Proof.
  intros Hi Ha Hc B0.
  rewrite (processLine_uninitialized now st l Hi Ha).
  pose proof (processLine_initialized now (set_Base_Date now l st) l eq_refl Ha) as P.
  cbv zeta in P. destruct P as [E [I [M [B _]]]].
  unfold Inv; rewrite E, I, M, B. fold B0.
  unfold c_of in *. cbn [midnight_close_ set_Base_Date].
  set (c := t_combat_ms (cl_t l)) in *. unfold MS_PER_DAY in *.
  rewrite andb_false_r, u32_small by lia.
  destruct (Z.ltb_spec 86340000 c); cbn.
  - split; [lia | split; [reflexivity | split; [lia | right; left; repeat split; lia]]].
  - split; [lia | split; [reflexivity | split; [lia | left; repeat split; lia]]].
Qed.

Lemma arrivals_cons (now d : Z) (l : CombatLine) (rest : list arrival) :
  arrivals ((now, d, l) :: rest) = (now, l) :: arrivals rest.
Proof. reflexivity. Qed.

Lemma run_epochs (B0 d0 : Z) (rest : list arrival) :
  forall st d c, Inv B0 d0 st d c -> Forall well_timed rest ->
  ordered_chain d0 (d, c) rest ->
  epochs (snd (run st (arrivals rest))) = map (epoch_of B0 d0) rest.
Proof.
  induction rest as [| [[now d'] l] rest IH]; intros st d c Hinv Hw Hch.
  - reflexivity.
  - inversion Hw as [| ? ? Hwt Hw']; subst; cbn [well_timed] in Hwt.
    destruct Hwt as [Ha Hc].
    cbn [ordered_chain] in Hch; destruct Hch as [Hstep Hch].
    destruct (processLine_step B0 d0 d c d' now st l Hinv Ha Hc Hstep) as [E Hinv'].
    rewrite arrivals_cons; cbn [run].
    destruct (processLine now st l) as [st1 l1] eqn:Ep. cbn in E, Hinv'.
    specialize (IH st1 d' (c_of l) Hinv' Hw' Hch).
    destruct (run st1 (arrivals rest)) as [st2 ls] eqn:Er.
    unfold epochs in *; cbn [snd map] in IH |- *. rewrite E, IH. reflexivity.
Qed.

Lemma epochs_sorted (B0 d0 : Z) (rest : list arrival) :
  forall d c, 0 <= c < MS_PER_DAY -> Forall well_timed rest ->
  ordered_chain d0 (d, c) rest ->
  Sorted Z.le (map (epoch_of B0 d0) rest)
  /\ HdRel Z.le (B0 + (d - d0) * MS_PER_DAY + c) (map (epoch_of B0 d0) rest).
Proof.
  induction rest as [| [[now d'] l] rest IH]; intros d c Hc Hw Hch.
  - split; constructor.
  - inversion Hw as [| ? ? Hwt Hw']; subst; cbn [well_timed] in Hwt.
    destruct Hwt as [Ha Hc'].
    cbn [ordered_chain] in Hch; destruct Hch as [Hstep Hch].
    destruct (IH d' (c_of l) Hc' Hw' Hch) as [S H].
    cbn [map]. split.
    + constructor; assumption.
    + constructor. cbn. cbn in Hstep. unfold MS_PER_DAY in *. lia.
Qed.

(** C1 (amended). From an uninitialised reconstructor, a run of lines
    that are not AreaEntered, with [0 <= combat_ms < 86400000], whose
    consecutive lines are [ordered_step]s (same day and no earlier, where
    a line of the first 30 s of a day after the first is followed by one
    of the first 2 minutes; or the next day, from the last minute of a
    day to the first 2 minutes of the next), gets the epochs
    [B0 + day * 86400000 + combat_ms], which are non-decreasing. *)
Theorem processLine_epochs_sorted (st : state) (now0 d0 : Z) (l0 : CombatLine)
    (rest : list arrival) :
  initialized_ st = false ->
  Forall well_timed ((now0, d0, l0) :: rest) ->
  ordered_chain d0 (d0, c_of l0) rest ->
  let es := epochs (snd (run st (arrivals ((now0, d0, l0) :: rest)))) in
  Sorted Z.le es /\ exists B0, es = map (epoch_of B0 d0) ((now0, d0, l0) :: rest).
Proof.
  intros Hi Hw Hch es.
  inversion Hw as [| ? ? Hwt Hw']; subst; cbn [well_timed] in Hwt.
  destruct Hwt as [Ha Hc].
  destruct (processLine_first d0 now0 st l0 Hi Ha Hc) as [E Hinv].
  set (B0 := base_date_epoch_ms_ (set_Base_Date now0 l0 st)) in *.
  assert (Hes : es = map (epoch_of B0 d0) ((now0, d0, l0) :: rest)).
  { unfold es. rewrite arrivals_cons; cbn [run].
    destruct (processLine now0 st l0) as [st1 l1] eqn:Ep. cbn in E, Hinv.
    pose proof (run_epochs B0 d0 rest st1 d0 (c_of l0) Hinv Hw' Hch) as R.
    destruct (run st1 (arrivals rest)) as [st2 ls] eqn:Er.
    unfold epochs in *; cbn [snd map] in R |- *. rewrite E, R. cbn.
    f_equal. lia. }
  split; [| exists B0; exact Hes].
  rewrite Hes. cbn [map].
  destruct (epochs_sorted B0 d0 rest d0 (c_of l0) Hc Hw' Hch) as [S H].
  constructor; [exact S |].
  replace (epoch_of B0 d0 (now0, d0, l0)) with (B0 + (d0 - d0) * MS_PER_DAY + c_of l0)
    by reflexivity.
  exact H.
Qed.

Lemma processLine_epochs_sorted_witness :
  let es := epochs (snd (run init
              (arrivals [(86399600, 0, Samples.timed_line 86399500);
                         (86400700, 1, Samples.timed_line 600);
                         (86460100, 1, Samples.timed_line 60000)]))) in
  Sorted Z.le es
  /\ exists B0, es = map (epoch_of B0 0)
                  [(86399600, 0, Samples.timed_line 86399500);
                   (86400700, 1, Samples.timed_line 600);
                   (86460100, 1, Samples.timed_line 60000)].
Proof.
  apply (processLine_epochs_sorted init 86399600 0 (Samples.timed_line 86399500)).
  - reflexivity.
  - repeat constructor; cbn; lia.
  - cbn; lia.
Defined.

(** C1 counterexample: a run that crosses midnight from a line more than a
    minute before it gets a smaller epoch for the line after midnight. *)
Lemma processLine_epochs_decrease :
  epochs (snd (run init [(86339005, Samples.timed_line 86339000);
                         (86400605, Samples.timed_line 600)]))
  = [86339000; 600].
Proof. vm_compute. reflexivity. Qed.

(** C5. On an initialised reconstructor with base date [E], lines at
    combat_ms 86399500, 600 and 60000 (none AreaEntered) get the epochs
    [E + 86399500], [E + 86400600] and [E + 86460000]; after the third the
    base date is [E + 86400000] and one more midnight rollover is counted. *)
Theorem midnight_rollover_commit (st : state) (now1 now2 now3 : Z) (l1 l2 l3 : CombatLine) :
  initialized_ st = true ->
  isAreaEntered l1 = false -> isAreaEntered l2 = false -> isAreaEntered l3 = false ->
  c_of l1 = 86399500 -> c_of l2 = 600 -> c_of l3 = 60000 ->
  let '(st', ls) := run st [(now1, l1); (now2, l2); (now3, l3)] in
  epochs ls = [base_date_epoch_ms_ st + 86399500; base_date_epoch_ms_ st + 86400600;
               base_date_epoch_ms_ st + 86460000]
  /\ base_date_epoch_ms_ st' = base_date_epoch_ms_ st + 86400000
  /\ midnight_rollovers_detected (stats_ st') = midnight_rollovers_detected (stats_ st) + 1.
Proof.
  intros Hinit A1 A2 A3 C1 C2 C3.
  unfold c_of in *. cbn [run].
  pose proof (processLine_initialized now1 st l1 Hinit A1) as P1; cbv zeta in P1.
  destruct (processLine now1 st l1) as [s1 k1] eqn:E1; cbn [fst snd] in P1.
  destruct P1 as [Ep1 [I1 [M1 [B1 R1]]]].
  pose proof (processLine_initialized now2 s1 l2 I1 A2) as P2; cbv zeta in P2.
  destruct (processLine now2 s1 l2) as [s2 k2] eqn:E2; cbn [fst snd] in P2.
  destruct P2 as [Ep2 [I2 [M2 [B2 R2]]]].
  pose proof (processLine_initialized now3 s2 l3 I2 A3) as P3; cbv zeta in P3.
  destruct (processLine now3 s2 l3) as [s3 k3] eqn:E3; cbn [fst snd] in P3.
  destruct P3 as [Ep3 [I3 [M3 [B3 R3]]]].
  rewrite C1 in Ep1, M1, B1, R1. rewrite C2 in Ep2, M2, B2, R2.
  rewrite C3 in Ep3, M3, B3, R3. cbn in M1, B1, R1.
  rewrite M1 in Ep2, M2, B2, R2. cbn in Ep2, M2, B2, R2.
  rewrite M2 in Ep3, B3, R3. cbn in Ep3, B3, R3. rewrite B2, B1 in B3. rewrite B2, B1 in Ep3.
  rewrite B1 in Ep2. rewrite R2, R1 in R3.
  cbn in Ep1.
  unfold epochs; cbn [map]. rewrite Ep1, Ep2, Ep3, B3, R3.
  unfold MS_PER_DAY in *. rewrite ?u32_small by lia.
  repeat split; lia.
Qed.

Lemma midnight_rollover_commit_witness :
  let st := {| initialized_ := true; midnight_close_ := false; base_date_epoch_ms_ := 1000;
               current_day_offset_ := 0; last_processed_combat_ms_ := 0;
               last_processed_epoch_ms_ := 0; stats_ := stats_zero |} in
  let '(st', ls) := run st [(5, Samples.timed_line 86399500); (6, Samples.timed_line 600);
                            (7, Samples.timed_line 60000)] in
  epochs ls = [1000 + 86399500; 1000 + 86400600; 1000 + 86460000]
  /\ base_date_epoch_ms_ st' = 1000 + 86400000
  /\ midnight_rollovers_detected (stats_ st') = 0 + 1.
Proof.
  intros st.
  exact (midnight_rollover_commit st 5 6 7 (Samples.timed_line 86399500)
           (Samples.timed_line 600) (Samples.timed_line 60000)
           eq_refl eq_refl eq_refl eq_refl eq_refl eq_refl eq_refl).
Defined.

End TimeCruncherProofs.

(** ** The combat state machine *)

Module CombatStateProofs.
Import CombatState.

Ltac event_kind H :=
  unfold Shapes.is_event in H; apply andb_true_iff in H;
  let Ht := fresh "Ht" in let Ha := fresh "Ha" in
  destruct H as [Ht Ha]; apply Z.eqb_eq in Ht; apply Z.eqb_eq in Ha.

Ltac unfold_kinds :=
  unfold line_is_action, line_is_type, matches_id, matches_type.

Lemma enter_from_idle (cs : state) (l : CombatLine) :
  in_combat_ cs = false -> Shapes.is_event l ACT_EnterCombat = true ->
  in_combat_ (ParseLine l cs) = true /\ all_players_dead (ParseLine l cs) = true
  /\ last_combat_entered_ (ParseLine l cs) = epoch_of l
  /\ owner_ (ParseLine l cs) = owner_ cs.
Proof.
  intros Hi H; event_kind H.
  unfold ParseLine; unfold_kinds; rewrite Ht, Ha; cbn.
  unfold combat_state_parse_entercombat; cbn; rewrite Hi; cbn.
  repeat split.
Qed.

Lemma death_keeps_flag (cs : state) (l : CombatLine) :
  all_players_dead cs = true -> Shapes.is_event l ACT_Death = true ->
  all_players_dead (ParseLine l cs) = true /\ owner_ (ParseLine l cs) = owner_ cs.
Proof.
  intros Hf H; event_kind H.
  unfold ParseLine; unfold_kinds; rewrite Ht, Ha; cbn.
  unfold combat_state_parse_death; cbn.
  destruct (e_id (owner_ cs) =? e_id (cl_target l)); cbn;
  destruct (in_combat_ cs && _); cbn; rewrite ?Hf; auto.
Qed.

Lemma owner_revive_leaves_combat (cs : state) (l : CombatLine) :
  all_players_dead cs = true -> Shapes.is_event l ACT_Revived = true ->
  e_id (cl_source l) = e_id (owner_ cs) ->
  in_combat_ (ParseLine l cs) = false.
Proof.
  intros Hf H Ho; event_kind H.
  unfold ParseLine; unfold_kinds; rewrite Ht, Ha; cbn.
  unfold combat_state_parse_revive; cbn.
  rewrite Ho, Z.eqb_refl, Hf; reflexivity.
Qed.

(** C3 (code_bug). In an encounter opened by EnterCombat, the owner's
    Death at [T], Revive at [T + 2000] and EnterCombat at [T + 10000]
    start a new encounter: [last_combat_entered_] becomes [T + 10000].
    The revive clears [in_combat_] because [all_players_dead] was set when
    the encounter started, so the revive window of [entercombat] is never
    reached. *)
Theorem revive_window_starts_new_encounter (cs : state) (e0 d r e : CombatLine) (T : Z) :
  in_combat_ cs = false ->
  Shapes.is_event e0 ACT_EnterCombat = true -> Shapes.is_event d ACT_Death = true ->
  Shapes.is_event r ACT_Revived = true -> Shapes.is_event e ACT_EnterCombat = true ->
  e_id (cl_target d) = e_id (owner_ cs) -> e_id (cl_source r) = e_id (owner_ cs) ->
  e_id (cl_source e) = e_id (owner_ cs) ->
  epoch_of d = T -> epoch_of r = T + 2000 -> epoch_of e = T + 10000 ->
  last_combat_entered_ (run cs [e0; d; r; e]) = T + 10000.
Proof.
  intros Hi He0 Hd Hr He Htd Hsr Hse Ed Er Ee.
  cbn [run].
  destruct (enter_from_idle cs e0 Hi He0) as [_ [F0 [_ O0]]].
  destruct (death_keeps_flag _ d F0 Hd) as [F1 O1].
  assert (Hr' : e_id (cl_source r) = e_id (owner_ (ParseLine d (ParseLine e0 cs))))
    by (rewrite O1, O0; exact Hsr).
  pose proof (owner_revive_leaves_combat _ r F1 Hr Hr') as I2.
  destruct (enter_from_idle _ e I2 He) as [_ [_ [L _]]].
  rewrite L; exact Ee.
Qed.

Lemma revive_window_starts_new_encounter_witness :
  let ln ep act := Samples.event_line ep (Samples.player 1) (Samples.player 1)
                     KINDID_Event act in
  last_combat_entered_
    (run (ParseLine (Samples.event_line 0 (Samples.player 1) (Samples.player 1)
                       KINDID_AreaEntered KINDID_AreaEntered) init)
         [ln 1000 ACT_EnterCombat; ln 5000 ACT_Death; ln 7000 ACT_Revived;
          ln 15000 ACT_EnterCombat])
  = 5000 + 10000.
Proof.
  intros ln.
  apply (revive_window_starts_new_encounter _ _ _ _ _ 5000);
    vm_compute; reflexivity.
Defined.

End CombatStateProofs.

(** ** The line parser *)

Module ParserProofs.

(** C2 (code_bug). A line whose trailing group is [(3 charges)] is
    parsed [Ok] by the fast path as a [Numeric] value of amount 3 and
    school ["charges"], with no charges recorded, although the slow path's
    [parse_charges_group] reads the same group as 3 charges. *)
Theorem charges_group_parsed_as_numeric (fast_to_f parse_double_sv : string -> option Q) :
  fast_to_f "0" = Some 0%Q ->
  let r := parse_combat_line fast_to_f parse_double_sv Samples.charges_line in
  fst r = Ok
  /\ tl_kind (cl_tail (snd r)) = VK_Numeric
  /\ vf_amount (tl_val (cl_tail (snd r))) = 3
  /\ sc_name (vf_school (tl_val (cl_tail (snd r)))) = "charges"
  /\ tl_has_charges (cl_tail (snd r)) = false
  /\ tl_charges (cl_tail (snd r)) = 0
  /\ parse_charges_group "3 charges" = Some 3.
Proof.
  intros H r. unfold r. vm_compute. rewrite H. vm_compute.
  repeat split.
Qed.

Lemma charges_group_parsed_as_numeric_witness :
  let r := parse_combat_line Samples.zero_reader Samples.zero_reader Samples.charges_line in
  fst r = Ok
  /\ tl_kind (cl_tail (snd r)) = VK_Numeric
  /\ vf_amount (tl_val (cl_tail (snd r))) = 3
  /\ sc_name (vf_school (tl_val (cl_tail (snd r)))) = "charges"
  /\ tl_has_charges (cl_tail (snd r)) = false
  /\ tl_charges (cl_tail (snd r)) = 0
  /\ parse_charges_group "3 charges" = Some 3.
Proof.
  apply (charges_group_parsed_as_numeric Samples.zero_reader Samples.zero_reader).
  vm_compute. reflexivity.
Defined.

(** C6 (code_bug). [deduce_area_difficulty] maps every id to [Solo], so
    the AreaEntered line of the spec, whose difficulty id is
    836045448953655 ([Master_8]), is parsed with difficulty kind [Solo]. *)
Theorem area_difficulty_always_solo (fast_to_f parse_double_sv : string -> option Q) :
  fast_to_f "0" = Some 0%Q ->
  let r := parse_combat_line fast_to_f parse_double_sv Samples.area_line in
  fst r = Ok
  /\ ni_id (ae_difficulty (cl_area_entered (snd r))) = 836045448953655
  /\ ae_difficulty_value (cl_area_entered (snd r)) = AD_Solo
  /\ (forall id, deduce_area_difficulty id = AD_Solo).
Proof.
  intros H r. unfold r. vm_compute. rewrite H. vm_compute.
  repeat split.
Qed.

Lemma area_difficulty_always_solo_witness :
  let r := parse_combat_line Samples.zero_reader Samples.zero_reader Samples.area_line in
  fst r = Ok
  /\ ni_id (ae_difficulty (cl_area_entered (snd r))) = 836045448953655
  /\ ae_difficulty_value (cl_area_entered (snd r)) = AD_Solo
  /\ (forall id, deduce_area_difficulty id = AD_Solo).
Proof.
  apply (area_difficulty_always_solo Samples.zero_reader Samples.zero_reader).
  vm_compute. reflexivity.
Defined.

End ParserProofs.

(** ** The pipeline *)

Module PipelineProofs.
Import Pipeline.

Lemma processLine_lines (now : Z) (st : TimeCruncher.state) (l : CombatLine) :
  TimeCruncher.total_lines_processed (TimeCruncher.stats_ (fst (TimeCruncher.processLine now st l)))
  = TimeCruncher.total_lines_processed (TimeCruncher.stats_ st) + 1.
Proof.
  destruct st as [ini mc base day lastc laste stats].
  unfold TimeCruncher.processLine, TimeCruncher.initializeBaseDate.
  destruct (TimeCruncher.isAreaEntered l), ini;
  cbn -[u32 Z.ltb Z.gtb Z.add Z.mul Z.sub Z.div TimeCruncher.roll_back];
  repeat match goal with
         | |- context [if ?b then _ else _] => destruct b
         end;
  cbn -[u32 Z.ltb Z.gtb Z.add Z.mul Z.sub Z.div TimeCruncher.roll_back]; reflexivity.
Qed.

(** C4 (code_bug). The empty line is [Malformed], yet
    [process_line(std::string)] hands its default [CombatLine] to every
    stage: the time cruncher counts one more processed line and the line
    becomes [last_line]. *)
Theorem malformed_line_still_processed (fast_to_f parse_double_sv : string -> option Q)
    {Plugin : Type} (is_enabled : Plugin -> bool) (get_priority : Plugin -> Z)
    (ingest : Plugin -> CombatLine -> Plugin) (plugin_reset : Plugin -> Plugin)
    (sort_plugins : list Plugin -> list Plugin) (now : Z) (pd : parse_data Plugin) :
  let pd' := process_line_str fast_to_f parse_double_sv is_enabled get_priority ingest
               plugin_reset sort_plugins now pd "" in
  fst (parse_combat_line fast_to_f parse_double_sv "") = Malformed
  /\ TimeCruncher.total_lines_processed (TimeCruncher.stats_ (time_cruncher _ pd'))
     = TimeCruncher.total_lines_processed (TimeCruncher.stats_ (time_cruncher _ pd)) + 1
  /\ last_line _ pd' = snd (TimeCruncher.processLine now (time_cruncher _ pd) CombatLine_default).
Proof.
  intros pd'.
  assert (P : parse_combat_line fast_to_f parse_double_sv "" = (Malformed, CombatLine_default))
    by reflexivity.
  unfold pd', process_line_str. rewrite P.
  unfold process_line_event.
  destruct (TimeCruncher.processLine now (time_cruncher Plugin pd) CombatLine_default)
    as [tc line] eqn:E.
  pose proof (processLine_lines now (time_cruncher Plugin pd) CombatLine_default) as L.
  rewrite E in L. cbn in L |- *.
  repeat split; assumption.
Qed.

End PipelineProofs.

(** ** The entity registry *)

Module EntityManagerProofs.
Import EntityManager.
Local Open Scope list_scope.

(** *** Lists updated by position *)

Lemma modify_nth_length {A} (n : nat) (f : A -> A) (l : list A) :
  length (modify_nth n f l) = length l.
Proof.
  revert n; induction l as [| x r IH]; intros [| k]; cbn; auto.
Qed.

Lemma nth_error_modify_nth_same {A} (n : nat) (f : A -> A) (l : list A) :
  nth_error (modify_nth n f l) n = option_map f (nth_error l n).
Proof.
  revert n; induction l as [| x r IH]; intros [| k]; cbn; auto.
Qed.

Lemma nth_error_modify_nth_other {A} (n k : nat) (f : A -> A) (l : list A) :
  n <> k -> nth_error (modify_nth n f l) k = nth_error l k.
Proof.
  revert n k; induction l as [| x r IH]; intros [| n] [| k] H; cbn; auto.
  congruence.
Qed.

Lemma modify_opt_Forall {A} (P : A -> Prop) (o : option nat) (f : A -> A) (l : list A) :
  (forall a, P a -> P (f a)) -> Forall P l -> Forall P (modify_opt o f l).
Proof.
  intros Hf Hl; destruct o as [n |]; cbn; [| exact Hl].
  revert n; induction Hl as [| x r Hx Hr IH]; intros [| k]; cbn; constructor; auto.
Qed.

(** A change at one position keeps a property of every element when the
    changed element satisfies it afterwards. *)
Lemma modify_nth_Forall_at {A} (P : A -> Prop) (n : nat) (f : A -> A) (l : list A) :
  (forall a, nth_error l n = Some a -> P (f a)) -> Forall P l ->
  Forall P (modify_nth n f l).
Proof.
  revert n; induction l as [| x r IH]; intros [| k] Hf Hl; cbn.
  - constructor.
  - constructor.
  - inversion Hl; subst. constructor; [apply Hf; reflexivity | assumption].
  - inversion Hl; subst. constructor; [assumption | apply IH; assumption].
Qed.

Lemma modify_opt_map {A B} (g : A -> B) (o : option nat) (f : A -> A) (l : list A) :
  (forall a, g (f a) = g a) -> map g (modify_opt o f l) = map g l.
Proof.
  intros Hf; destruct o as [n |]; cbn; [| reflexivity].
  revert n; induction l as [| x r IH]; intros [| k]; cbn; f_equal; auto.
Qed.

Lemma nth_error_modify_opt_neutral {A B} (g : A -> B) (o : option nat) (f : A -> A)
    (l : list A) (n : nat) :
  (forall a, g (f a) = g a) ->
  option_map g (nth_error (modify_opt o f l) n) = option_map g (nth_error l n).
Proof.
  intros Hf; destruct o as [k |]; cbn; [| reflexivity].
  destruct (Nat.eq_dec k n) as [-> | Hne].
  - rewrite nth_error_modify_nth_same. destruct (nth_error l n); cbn; f_equal; auto.
  - rewrite nth_error_modify_nth_other by exact Hne. reflexivity.
Qed.

Lemma nth_error_modify_opt_at {A B} (g : A -> B) (h : B -> B) (n : nat) (f : A -> A)
    (l : list A) :
  (forall a, g (f a) = h (g a)) ->
  option_map g (nth_error (modify_opt (Some n) f l) n)
  = option_map h (option_map g (nth_error l n)).
Proof.
  intros Hf; cbn. rewrite nth_error_modify_nth_same.
  destruct (nth_error l n); cbn; f_equal; auto.
Qed.

(** *** The search loops *)

Lemma last_index_from_spec (p : EntityState -> bool) (l : list EntityState) :
  forall pos acc k, last_index_from p l pos acc = Some k ->
  acc = Some k \/ (exists a, nth_error l (k - pos) = Some a /\ p a = true /\ (pos <= k)%nat).
Proof.
  induction l as [| x r IH]; intros pos acc k H; cbn in H.
  - left; exact H.
  - destruct (IH _ _ _ H) as [Hacc | [a [Ha [Hp Hle]]]].
    + destruct (p x) eqn:Hx.
      * right. injection Hacc as <-. exists x. rewrite Nat.sub_diag. auto.
      * left; exact Hacc.
    + right. exists a. split; [| split; [exact Hp | lia]].
      replace (k - pos)%nat with (S (k - S pos)) by lia. exact Ha.
Qed.

Lemma last_index_from_found (p : EntityState -> bool) (l : list EntityState) k :
  last_index_from p l 0 None = Some k -> exists a, nth_error l k = Some a /\ p a = true.
Proof.
  intros H. destruct (last_index_from_spec p l 0 None k H) as [D | [a [Ha [Hp _]]]].
  - discriminate.
  - exists a. rewrite Nat.sub_0_r in Ha. auto.
Qed.

Lemma last_index_from_none (p : EntityState -> bool) (l : list EntityState) :
  forall pos acc, last_index_from p l pos acc = None ->
  acc = None /\ Forall (fun a => p a = false) l.
Proof.
  induction l as [| x r IH]; intros pos acc H; cbn in H.
  - split; [exact H | constructor].
  - destruct (IH _ _ H) as [Hacc Hr].
    destruct (p x) eqn:Hx; [discriminate |].
    split; [exact Hacc | constructor; assumption].
Qed.

Lemma find_none_Forall {A} (p : A -> bool) (l : list A) :
  Forall (fun a => p a = false) l -> find p l = None.
Proof.
  induction 1 as [| x r Hx Hr IH]; cbn; [reflexivity | rewrite Hx; exact IH].
Qed.

Lemma NoDup_snoc {A} (l : list A) (x : A) :
  NoDup l -> ~ In x l -> NoDup (l ++ [x]).
Proof.
  intros Hl Hx. apply (Permutation_NoDup (Permutation_cons_append l x)).
  constructor; assumption.
Qed.

Lemma not_in_ids (x : Z) (l : list EntityState) :
  Forall (fun a => (es_id a =? x) = false) l -> ~ In x (map es_id l).
Proof.
  intros H Hin. apply in_map_iff in Hin as [a [Ha Hin]].
  rewrite Forall_forall in H. specialize (H a Hin). apply Z.eqb_neq in H. congruence.
Qed.

Lemma NoDup_ids_same (l : list EntityState) (k : nat) (a b : EntityState) :
  NoDup (map es_id l) -> nth_error l k = Some a -> In b l -> es_id a = es_id b -> a = b.
Proof.
  intros Hn Ha Hb Hid.
  apply In_nth_error in Hb as [j Hj].
  assert (Ek : nth_error (map es_id l) k = Some (es_id a)) by (rewrite nth_error_map, Ha; reflexivity).
  assert (Ej : nth_error (map es_id l) j = Some (es_id b)) by (rewrite nth_error_map, Hj; reflexivity).
  rewrite <- Hid in Ej.
  assert (k = j).
  { apply (proj1 (NoDup_nth_error (map es_id l)) Hn); [| congruence].
    apply nth_error_Some. congruence. }
  subst. congruence.
Qed.

Lemma NoDup_ids_snoc (l : list EntityState) (x : EntityState) :
  NoDup (map es_id l) -> Forall (fun a => (es_id a =? es_id x) = false) l ->
  NoDup (map es_id (l ++ [x])).
Proof.
  intros Hl Hx. rewrite map_app. apply NoDup_snoc; [exact Hl | apply not_in_ids; exact Hx].
Qed.

(** *** The source and target lookup of [ParseLine] *)

(** [lookup_or_create] appends fresh states only, and [source] points to
    a state with the source's id. *)
Lemma lookup_or_create_source (l : CombatLine) (ents ents0 : list EntityState)
    (si ti : option nat) :
  lookup_or_create l ents = (ents0, si, ti) ->
  (exists extra, ents0 = ents ++ map EntityState_of extra)
  /\ (exists n a, si = Some n /\ nth_error ents0 n = Some a
                  /\ es_id a = e_id (cl_source l)).
Proof.
  unfold lookup_or_create. destruct ents as [| e0 r].
  - destruct (negb (e_empty (cl_target l)) && negb (e_id (cl_source l) =? e_id (cl_target l)));
      intros H; injection H as <- <- <-.
    + split; [exists [cl_source l; cl_target l]; reflexivity |].
      exists 0%nat, (EntityState_of (cl_source l)); auto.
    + split; [exists [cl_source l]; reflexivity |].
      exists 0%nat, (EntityState_of (cl_source l)); auto.
  - set (ents := e0 :: r).
    destruct (last_index_from (fun es => es_id es =? e_id (cl_source l)) ents 0 None)
      as [k |] eqn:Hs.
    + destruct (last_index_from_found _ _ _ Hs) as [a [Ha Hp]]. apply Z.eqb_eq in Hp.
      assert (Hk : nth_error (ents ++ [EntityState_of (cl_target l)]) k = Some a)
        by (rewrite nth_error_app1 by (apply nth_error_Some; congruence); exact Ha).
      destruct (last_index_from (fun es => es_id es =? e_id (cl_target l)) ents 0 None);
        [| destruct (negb (e_empty (cl_target l))
                     && negb (e_id (cl_source l) =? e_id (cl_target l)))];
        intros H; injection H as <- <- <-.
      * split; [exists []; rewrite app_nil_r; reflexivity | exists k, a; auto].
      * split; [exists [cl_target l]; reflexivity | exists k, a; auto].
      * split; [exists []; rewrite app_nil_r; reflexivity | exists k, a; auto].
    + set (src := EntityState_of (cl_source l)).
      assert (Hn : nth_error (ents ++ [src]) (length ents) = Some src)
        by (rewrite nth_error_app2, Nat.sub_diag by lia; reflexivity).
      assert (Hn' : nth_error ((ents ++ [src]) ++ [EntityState_of (cl_target l)]) (length ents)
                    = Some src)
        by (rewrite nth_error_app1 by (rewrite length_app; cbn; lia); exact Hn).
      destruct (last_index_from (fun es => es_id es =? e_id (cl_target l)) ents 0 None);
        [| destruct (negb (e_empty (cl_target l))
                     && negb (e_id (cl_source l) =? e_id (cl_target l)))];
        intros H; injection H as <- <- <-.
      * split; [exists [cl_source l]; reflexivity | exists (length ents), src; auto].
      * split; [exists [cl_source l; cl_target l]; rewrite <- app_assoc; reflexivity
               | exists (length ents), src; auto].
      * split; [exists [cl_source l]; reflexivity | exists (length ents), src; auto].
Qed.

(** With distinct ids, the registry keeps distinct ids and [source]
    points to the state the id lookup finds, or to a fresh one. *)
Lemma lookup_or_create_unique (l : CombatLine) (ents ents0 : list EntityState)
    (si ti : option nat) :
  NoDup (map es_id ents) ->
  lookup_or_create l ents = (ents0, si, ti) ->
  NoDup (map es_id ents0)
  /\ (forall n a, si = Some n -> nth_error ents0 n = Some a ->
      a = match find (fun es => es_id es =? e_id (cl_source l)) ents with
          | Some es => es | None => EntityState_of (cl_source l) end).
Proof.
  intros Hnd. unfold lookup_or_create. destruct ents as [| e0 r].
  - destruct (negb (e_empty (cl_target l)) && negb (e_id (cl_source l) =? e_id (cl_target l)))
      eqn:G; intros H; injection H as <- <- <-.
    + apply andb_true_iff in G as [_ G]. apply negb_true_iff, Z.eqb_neq in G.
      split.
      * cbn. constructor; [cbn; intros [E | []]; congruence | constructor; [intros [] | constructor]].
      * intros n a Hn Ha; injection Hn as <-; cbn in Ha |- *; congruence.
    + split.
      * cbn. constructor; [intros [] | constructor].
      * intros n a Hn Ha; injection Hn as <-; cbn in Ha |- *; congruence.
  - set (ents := e0 :: r) in *.
    destruct (last_index_from (fun es => es_id es =? e_id (cl_source l)) ents 0 None)
      as [k |] eqn:Hs.
    + destruct (last_index_from_found _ _ _ Hs) as [a [Ha Hp]].
      assert (Hf : find (fun es => es_id es =? e_id (cl_source l)) ents = Some a).
      { destruct (find (fun es => es_id es =? e_id (cl_source l)) ents) as [b |] eqn:Hb.
        - apply find_some in Hb as [Hin Hb]. apply Z.eqb_eq in Hp, Hb.
          f_equal. symmetry. apply (NoDup_ids_same ents k a b Hnd Ha Hin). congruence.
        - apply nth_error_In in Ha. apply (find_none _ _ Hb) in Ha. congruence. }
      rewrite Hf.
      destruct (last_index_from (fun es => es_id es =? e_id (cl_target l)) ents 0 None)
        as [t |] eqn:Ht;
        [| destruct (negb (e_empty (cl_target l))
                     && negb (e_id (cl_source l) =? e_id (cl_target l)))];
        intros H; injection H as <- <- <-.
      * split; [exact Hnd | intros n b Hn Hb; injection Hn as <-; congruence].
      * destruct (last_index_from_none _ _ _ _ Ht) as [_ Hnot].
        split.
        -- exact (NoDup_ids_snoc ents (EntityState_of (cl_target l)) Hnd Hnot).
        -- intros n b Hn Hb; injection Hn as <-.
           change (nth_error (ents ++ [EntityState_of (cl_target l)]) k = Some b) in Hb.
           rewrite nth_error_app1 in Hb by (apply nth_error_Some; congruence). congruence.
      * split; [exact Hnd | intros n b Hn Hb; injection Hn as <-; congruence].
    + destruct (last_index_from_none _ _ _ _ Hs) as [_ Hnot].
      rewrite (find_none_Forall _ _ Hnot).
      set (src := EntityState_of (cl_source l)).
      assert (Hn : nth_error (ents ++ [src]) (length ents) = Some src)
        by (rewrite nth_error_app2, Nat.sub_diag by lia; reflexivity).
      assert (Nd1 : NoDup (map es_id (ents ++ [src]))) by exact (NoDup_ids_snoc ents src Hnd Hnot).
      destruct (last_index_from (fun es => es_id es =? e_id (cl_target l)) ents 0 None)
        as [t |] eqn:Ht;
        [| destruct (negb (e_empty (cl_target l))
                     && negb (e_id (cl_source l) =? e_id (cl_target l))) eqn:G];
        intros H; injection H as <- <- <-.
      * split; [exact Nd1 | intros n b Hm Hb; injection Hm as <-;
                  change (nth_error (ents ++ [src]) (length ents) = Some b) in Hb; congruence].
      * destruct (last_index_from_none _ _ _ _ Ht) as [_ Hnot'].
        apply andb_true_iff in G as [_ G]. apply negb_true_iff, Z.eqb_neq in G.
        split.
        -- apply (NoDup_ids_snoc (ents ++ [src])); [exact Nd1 |].
           apply Forall_app; split; [exact Hnot' |].
           constructor; [cbn; apply Z.eqb_neq; congruence | constructor].
        -- intros n b Hm Hb; injection Hm as <-.
           change (nth_error ((ents ++ [src]) ++ [EntityState_of (cl_target l)]) (length ents)
                   = Some b) in Hb.
           rewrite nth_error_app1 in Hb by (rewrite length_app; cbn; lia). congruence.
      * split; [exact Nd1 | intros n b Hm Hb; injection Hm as <-;
                  change (nth_error (ents ++ [src]) (length ents) = Some b) in Hb; congruence].
Qed.

(** *** No damage done without a Damage line *)

Lemma fresh_damage_zero (x : Z) (extra : list Entity) :
  Forall (Shapes.damage_zero x) (map EntityState_of extra).
Proof.
  apply Forall_forall. intros a Hin. apply in_map_iff in Hin as [e [<- _]].
  intros _. reflexivity.
Qed.

(** One update of [ParseLine] keeps the ids of the vector; it keeps
    [total_damage_done] at zero for [x] when it does so at the position
    it updates. *)
Lemma modify_opt_damage_zero (x : Z) (o : option nat) (f : EntityState -> EntityState)
    (Y : list EntityState) (ids : list Z) :
  map es_id Y = ids /\ Forall (Shapes.damage_zero x) Y ->
  (forall a, es_id (f a) = es_id a) ->
  (forall a, nth_opt o Y = Some a -> map es_id Y = ids ->
     Shapes.damage_zero x a -> Shapes.damage_zero x (f a)) ->
  map es_id (modify_opt o f Y) = ids /\ Forall (Shapes.damage_zero x) (modify_opt o f Y).
Proof.
  intros [Hids HY] Hf Hz. split.
  - rewrite modify_opt_map by exact Hf. exact Hids.
  - destruct o as [n |]; [| exact HY]. cbn. apply modify_nth_Forall_at; [| exact HY].
    intros a Ha. apply Hz; [exact Ha | exact Hids |].
    rewrite Forall_forall in HY. apply HY. eapply nth_error_In; exact Ha.
Qed.

Ltac ids_kept :=
  intros ?a; cbv beta; first [reflexivity | unfold mitigation_update];
  repeat match goal with |- context [if ?b then _ else _] => destruct b end;
  reflexivity.

Ltac counter_kept :=
  let a := fresh "a" in let Ha := fresh "Ha" in let Hid := fresh "Hid" in
  intros a _ _ Ha; unfold Shapes.damage_zero, get in Ha |- *; intros Hid; cbv beta in Hid |- *;
  first [exact (Ha Hid) | unfold mitigation_update in Hid |- *;
  repeat match goal with |- context [if ?b then _ else _] => destruct b end;
  cbn in Hid |- *; auto].

(** The update of [source] by a Damage line, at a source other than [x]. *)
Ltac damage_point :=
  match goal with
  | Hsx : e_id (cl_source ?l) <> ?x, Ha0 : nth_error ?ents0 ?n = Some ?a0,
    Hid0 : es_id ?a0 = e_id (cl_source ?l) |- _ =>
      intros ?a ?Hn ?Hids _ ?Hid; exfalso; apply Hsx; unfold nth_opt in Hn; cbn in Hid;
      apply (map_nth_error es_id) in Hn; rewrite Hids, nth_error_map, Ha0 in Hn;
      cbn in Hn; injection Hn; congruence
  end.

Ltac dz_step :=
  match goal with
  | |- map es_id ?E = _ /\ _ =>
    lazymatch E with
    | modify_opt _ _ _ =>
        apply modify_opt_damage_zero; [| ids_kept | first [solve [counter_kept] | damage_point]]
    | match ?o with _ => _ end => destruct o
    | _ => split; [reflexivity | assumption]
    end
  end.

Lemma ParseLine_damage_zero (x : Z) (l : CombatLine) (m : state) :
  Shapes.no_damage_done x m ->
  (line_is_action l ACT_Damage && (e_id (cl_source l) =? x)) = false ->
  Shapes.no_damage_done x (ParseLine l m).
Proof.
  intros Hm Hd. unfold Shapes.no_damage_done in *. unfold ParseLine.
  set (m1 := if line_is_type l KINDID_AreaEntered then reset m else m).
  assert (H1 : Forall (Shapes.damage_zero x) (entities_ m1))
    by (unfold m1; destruct (line_is_type l KINDID_AreaEntered); [constructor | exact Hm]).
  clearbody m1.
  destruct (lookup_or_create l (entities_ m1)) as [[ents0 si] ti] eqn:LC.
  destruct (lookup_or_create_source _ _ _ _ _ LC) as [[extra E0] [n [a0 [-> [Ha0 Hid0]]]]].
  assert (H0 : Forall (Shapes.damage_zero x) ents0)
    by (rewrite E0; apply Forall_app; split; [exact H1 | apply fresh_damage_zero]).
  cbv zeta. cbn [entities_].
  destruct (line_is_action l ACT_Damage) eqn:HD.
  - assert (Hsx : e_id (cl_source l) <> x) by (cbn in Hd; apply Z.eqb_neq; exact Hd).
    match goal with |- Forall _ ?E =>
      enough (map es_id E = map es_id ents0 /\ Forall (Shapes.damage_zero x) E) by tauto end.
    repeat dz_step.
  - match goal with |- Forall _ ?E =>
      enough (map es_id E = map es_id ents0 /\ Forall (Shapes.damage_zero x) E) by tauto end.
    repeat dz_step.
Qed.

Lemma new_combat_reset_list_damage_zero (x : Z) (l : list EntityState) :
  Forall (Shapes.damage_zero x) (new_combat_reset_list l).
Proof.
  induction l as [| es r IH]; cbn; [constructor |].
  destruct (negb (is_player es) && negb (is_companion es)); [exact IH |].
  constructor; [intros _; reflexivity | exact IH].
Qed.

Lemma step_damage_zero (x : Z) (o : op) (m : state) :
  Shapes.no_damage_done x m -> Shapes.damage_from x o = false ->
  Shapes.no_damage_done x (step o m).
Proof.
  unfold Shapes.no_damage_done. intros Hm Ho. destruct o as [l | b | | ent]; cbn.
  - apply ParseLine_damage_zero; assumption.
  - unfold combat_state_update.
    destruct (negb (Bool.eqb (last_combat_state m) b)); [| exact Hm].
    destruct b; [apply new_combat_reset_list_damage_zero | exact Hm].
  - constructor.
  - unfold entity_of. destruct (find _ _); cbn; [exact Hm |].
    apply Forall_app; split; [exact Hm | constructor; [intros _; reflexivity | constructor]].
Qed.

(** C9: from a registry where the entity states with id [x] have
    [total_damage_done == 0] (the fresh registry, or right after a
    reset), every sequence of operations none of which ingests a Damage
    line with source [x] leaves [total_damage_done == 0] on every entity
    state with id [x]. *)
Theorem run_no_damage_done (x : Z) (m : state) (ops : list op) :
  Shapes.no_damage_done x m ->
  Forall (fun o => Shapes.damage_from x o = false) ops ->
  Shapes.no_damage_done x (run m ops).
Proof.
  intros Hm Hops. revert m Hm.
  induction Hops as [| o r Ho Hr IH]; intros m Hm; cbn; [exact Hm |].
  apply IH. apply step_damage_zero; assumption.
Qed.

Lemma run_no_damage_done_witness :
  Shapes.no_damage_done 2 (run init
    [Op_ParseLine (Samples.event_line 0 (Samples.player 1) (Samples.player 2)
                     KINDID_ApplyEffect ACT_Damage)]).
Proof.
  apply run_no_damage_done.
  - constructor.
  - constructor; [reflexivity | constructor].
Defined.

(** *** Lookup and creation of entity states *)

Lemma new_combat_reset_list_length (l : list EntityState) :
  (length (new_combat_reset_list l) <= length l)%nat.
Proof.
  induction l as [| es r IH]; cbn; [lia |].
  destruct (negb (is_player es) && negb (is_companion es)); cbn; lia.
Qed.

Lemma find_None_iff (id : Z) (l : list EntityState) :
  find (fun es => es_id es =? id) l = None <-> Forall (fun es => es_id es <> id) l.
Proof.
  induction l as [| es r IH]; cbn; [split; [constructor | reflexivity] |].
  destruct (Z.eqb_spec (es_id es) id) as [E | E].
  - split; [discriminate | intros H; inversion H; contradiction].
  - rewrite IH. split; [intros H; constructor; assumption | intros H; inversion H; assumption].
Qed.

(** C10: [entity(uint64_t)] finds nothing exactly when no entity state
    has the id, and it returns no new registry; [entity(Entity&)] on an
    unseen id pushes [EntityState(ent)] at the back and returns it, and
    on a known id returns the registry unchanged with the state found;
    of the operations on the registry only [entity(Entity&)] and
    [ParseLine] can make the vector longer. *)
Theorem entity_lookup_pure (m : state) :
  (forall id, entity_by_id m id = None <-> Forall (fun es => es_id es <> id) (entities_ m))
  /\ (forall ent, entity_by_id m (e_id ent) = None ->
        entities_ (fst (entity_of m ent)) = entities_ m ++ [EntityState_of ent]
        /\ snd (entity_of m ent) = EntityState_of ent)
  /\ (forall ent es, entity_by_id m (e_id ent) = Some es -> entity_of m ent = (m, es))
  /\ (forall o, (length (entities_ m) < length (entities_ (step o m)))%nat ->
        match o with Op_entity _ | Op_ParseLine _ => True | _ => False end).
Proof.
  unfold entity_by_id. split; [| split; [| split]].
  - intros id. apply find_None_iff.
  - intros ent H. unfold entity_of. rewrite H. split; reflexivity.
  - intros ent es H. unfold entity_of. rewrite H. reflexivity.
  - intros [l | b | | ent]; cbn; intros H; auto.
    + unfold combat_state_update in H.
      destruct (negb (Bool.eqb (last_combat_state m) b)); [| lia].
      destruct b; cbn in H; [pose proof (new_combat_reset_list_length (entities_ m)) |]; lia.
    + lia.
Qed.

(** *** Counters of the source *)

Lemma modify_opt_None {A} (f : A -> A) (l : list A) : modify_opt None f l = l.
Proof. reflexivity. Qed.

Lemma nth_error_modify_opt_Some {A} (k n : nat) (f : A -> A) (l : list A) :
  nth_error (modify_opt (Some k) f l) n
  = if Nat.eqb k n then option_map f (nth_error l n) else nth_error l n.
Proof.
  cbn [modify_opt]. destruct (Nat.eqb_spec k n) as [-> | Hne].
  - apply nth_error_modify_nth_same.
  - apply nth_error_modify_nth_other; exact Hne.
Qed.

Lemma find_nth_NoDup (L : list EntityState) (n : nat) (a : EntityState) (k : Z) :
  NoDup (map es_id L) -> nth_error L n = Some a -> es_id a = k ->
  find (fun es => es_id es =? k) L = Some a.
Proof.
  intros Hnd Ha Hk.
  destruct (find (fun es => es_id es =? k) L) as [b |] eqn:F.
  - apply find_some in F as [Hin Hb]. apply Z.eqb_eq in Hb. f_equal.
    symmetry. apply (NoDup_ids_same L n a b Hnd Ha Hin). congruence.
  - exfalso. apply nth_error_In in Ha.
    apply (find_none _ _ F) in Ha. rewrite Hk, Z.eqb_refl in Ha. discriminate.
Qed.

Lemma layer_any (n : nat) (P Q : EntityState -> Prop) (o : option nat)
    (f : EntityState -> EntityState) (Y : list EntityState) :
  (forall a, P a -> Q a) -> (forall a, P a -> Q (f a)) ->
  (exists a, nth_error Y n = Some a /\ P a) ->
  exists a, nth_error (modify_opt o f Y) n = Some a /\ Q a.
Proof.
  intros HPQ Hf [a [Ha HP]]. destruct o as [k |].
  - rewrite nth_error_modify_opt_Some, Ha.
    destruct (Nat.eqb k n); cbn; eexists; split; eauto.
  - rewrite modify_opt_None. eauto.
Qed.

Lemma layer_at (n : nat) (P Q : EntityState -> Prop)
    (f : EntityState -> EntityState) (Y : list EntityState) :
  (forall a, P a -> Q (f a)) ->
  (exists a, nth_error Y n = Some a /\ P a) ->
  exists a, nth_error (modify_opt (Some n) f Y) n = Some a /\ Q a.
Proof.
  intros Hf [a [Ha HP]]. rewrite nth_error_modify_opt_Some, Ha, Nat.eqb_refl.
  cbn. eexists; split; eauto.
Qed.

Lemma layer_keep (n : nat) (P : EntityState -> Prop) (o : option nat)
    (f : EntityState -> EntityState) (Y : list EntityState) :
  (forall a, P a -> P (f a)) ->
  (exists a, nth_error Y n = Some a /\ P a) ->
  exists a, nth_error (modify_opt o f Y) n = Some a /\ P a.
Proof. intros Hf. apply layer_any; auto. Qed.

Ltac counters_kept :=
  intros ?a ?Hp ?c ?Hc; transitivity (get a c);
  [destruct c; try discriminate Hc; reflexivity | exact (Hp c Hc)].

Ltac ids_layer :=
  repeat match goal with
  | |- map es_id (match ?o with _ => _ end) = _ => destruct o
  | |- map es_id (modify_opt _ _ _) = _ => rewrite modify_opt_map by ids_kept
  end.

Ltac let_pose e :=
  match goal with |- context C [let v := ?X in @?B v] =>
    pose (e := X);
    let G := context C [B e] in
    change G; cbv beta
  end.

(** In a registry whose entity states have distinct ids, [ParseLine l]
    leaves a state for the source of [l] whose [total_threat] went from
    [b] to [b + t] for a Damage line, [+ t] again for a ModifyThreat line
    and unchanged otherwise, [t] being [static_cast<uint64_t>(tail.threat)]
    (wrapping modulo 2^64); and whose mitigation counters are unchanged
    except the one of the flag that [tail.val.mitig] equals, bumped by one
    (modulo 2^16) when [tail.kind] is not [None]. *)
Lemma source_threat_mitigation (l : CombatLine) (m : state) :
  NoDup (map es_id (entities_ m)) ->
  exists es, entity_by_id (ParseLine l m) (e_id (cl_source l)) = Some es
   /\ get es total_threat = Shapes.threat_after l (Shapes.source_counter l m total_threat)
   /\ Forall (fun c => get es c = Shapes.mitigation_after l c (Shapes.source_counter l m c))
        Shapes.mitigation_counters.
Proof.
  intros Hnd. unfold Shapes.source_counter, entity_by_id. cbv delta [ParseLine]. cbv beta.
  let_pose m1.
  change (if line_is_type l KINDID_AreaEntered then reset m else m) with m1.
  destruct (lookup_or_create l (entities_ m1)) as [[ents0 si] ti] eqn:LC.
  cbv beta iota.
  let_pose vf. let_pose threat. let_pose e1. let_pose e2. let_pose e3. let_pose e4.
  let_pose e5. let_pose e6. let_pose e7. let_pose e8. let_pose e9. let_pose e10.
  let_pose effect_guard. let_pose e11.
  assert (Hnd1 : NoDup (map es_id (entities_ m1)))
    by (unfold m1; destruct (line_is_type l KINDID_AreaEntered); [constructor | exact Hnd]).
  destruct (lookup_or_create_source _ _ _ _ _ LC) as [_ [n [a0 [-> [Ha0 Hid0]]]]].
  destruct (lookup_or_create_unique _ _ _ _ _ Hnd1 LC) as [Hnd0 Ha0eq].
  specialize (Ha0eq n a0 eq_refl Ha0).
  (* the positions keep their ids *)
  assert (I1 : map es_id e1 = map es_id ents0) by (unfold e1; ids_layer; reflexivity).
  assert (I2 : map es_id e2 = map es_id ents0) by (unfold e2; ids_layer; exact I1).
  assert (I3 : map es_id e3 = map es_id ents0) by (unfold e3; ids_layer; exact I2).
  assert (I4 : map es_id e4 = map es_id ents0) by (unfold e4; ids_layer; exact I3).
  assert (I5 : map es_id e5 = map es_id ents0) by (unfold e5; ids_layer; exact I4).
  assert (I6 : map es_id e6 = map es_id ents0) by (unfold e6; ids_layer; exact I5).
  assert (I7 : map es_id e7 = map es_id ents0) by (unfold e7; ids_layer; exact I6).
  assert (I8 : map es_id e8 = map es_id ents0) by (unfold e8; ids_layer; exact I7).
  assert (I9 : map es_id e9 = map es_id ents0) by (unfold e9; ids_layer; exact I8).
  assert (I10 : map es_id e10 = map es_id ents0) by (unfold e10; ids_layer; exact I9).
  assert (I11 : map es_id e11 = map es_id ents0) by (unfold e11; cbv zeta; ids_layer; exact I10).
  (* the counters of the source, layer by layer *)
  pose (P0 := fun a => forall c, Shapes.tracked c = true -> get a c = get a0 c).
  pose (P4 := fun a => forall c, Shapes.tracked c = true ->
    get a c = if counter_eqb total_threat c
              then (if line_is_action l ACT_Damage then u64 (get a0 c + threat) else get a0 c)
              else get a0 c).
  pose (P6 := fun a => forall c, Shapes.tracked c = true ->
    get a c = if counter_eqb total_threat c then Shapes.threat_after l (get a0 c) else get a0 c).
  pose (P10 := fun a => forall c, Shapes.tracked c = true ->
    get a c = if counter_eqb total_threat c then Shapes.threat_after l (get a0 c)
              else Shapes.mitigation_after l c (get a0 c)).
  assert (N1 : exists a, nth_error e1 n = Some a /\ P0 a).
  { unfold e1. apply layer_keep; [counters_kept |].
    apply layer_keep; [counters_kept |]. exists a0; split; [exact Ha0 | intros c _; reflexivity]. }
  assert (N2 : exists a, nth_error e2 n = Some a /\ P0 a)
    by (unfold e2; destruct (line_is_action l ACT_Death); [apply layer_keep; [counters_kept | exact N1] | exact N1]).
  assert (N3 : exists a, nth_error e3 n = Some a /\ P0 a)
    by (unfold e3; destruct (line_is_action l ACT_Revived); [apply layer_keep; [counters_kept | exact N2] | exact N2]).
  assert (N4 : exists a, nth_error e4 n = Some a /\ P4 a).
  { unfold e4. destruct (line_is_action l ACT_Damage) eqn:HD.
    - apply layer_keep; [counters_kept |]. apply (layer_at n P0); [| exact N3].
      intros a Hp c Hc. specialize (Hp c Hc). unfold get in *.
      destruct c; try discriminate Hc; cbn -[u64 Z.add] in Hp |- *; rewrite ?HD; rewrite Hp; reflexivity.
    - destruct N3 as [a [Ha Hp]]. exists a; split; [exact Ha |].
      intros c Hc. rewrite (Hp c Hc), ?HD. destruct (counter_eqb total_threat c); reflexivity. }
  assert (N5 : exists a, nth_error e5 n = Some a /\ P4 a).
  { unfold e5. destruct (line_is_action l ACT_Heal); [| exact N4].
    apply layer_keep; [counters_kept |]. apply layer_keep; [counters_kept | exact N4]. }
  assert (N6 : exists a, nth_error e6 n = Some a /\ P6 a).
  { unfold e6. destruct (line_is_action l ACT_ModifyThreat) eqn:HM.
    - apply (layer_at n P4); [| exact N5].
      intros a Hp c Hc. specialize (Hp c Hc). unfold get, Shapes.threat_after in *.
      destruct c; try discriminate Hc; cbn -[u64 Z.add] in Hp |- *; rewrite ?HM; rewrite Hp;
        reflexivity.
    - destruct N5 as [a [Ha Hp]]. exists a; split; [exact Ha |].
      intros c Hc. rewrite (Hp c Hc). unfold Shapes.threat_after. rewrite ?HM.
      destruct (counter_eqb total_threat c); reflexivity. }
  assert (N7 : exists a, nth_error e7 n = Some a /\ P6 a).
  { unfold e7. destruct (line_is_type l KINDID_AreaEntered); [| exact N6].
    apply layer_keep; [counters_kept | exact N6]. }
  assert (N8 : exists a, nth_error e8 n = Some a /\ P6 a).
  { unfold e8. destruct (line_is_action l ACT_TargetSet); [| exact N7].
    destruct (nth_opt ti e7); [| exact N7]. apply layer_keep; [counters_kept | exact N7]. }
  assert (N9 : exists a, nth_error e9 n = Some a /\ P6 a).
  { unfold e9. destruct (line_is_action l ACT_TargetCleared); [| exact N8].
    apply layer_keep; [counters_kept | exact N8]. }
  assert (N10 : exists a, nth_error e10 n = Some a /\ P10 a).
  { unfold e10. destruct (negb (ValueKind_eqb (tl_kind (cl_tail l)) VK_None)) eqn:HK.
    - apply (layer_at n P6); [| exact N9].
      intros a Hp c Hc. specialize (Hp c Hc).
      unfold get, mitigation_update, Shapes.mitigation_after, Shapes.mitigation_counter_of in *.
      rewrite ?HK. cbv zeta. 
      destruct c; try discriminate Hc; cbn [counter_eqb counter_index Nat.eqb] in Hp |- *;
        repeat match goal with |- context [if Z.eqb ?x ?y then _ else _] => destruct (Z.eqb x y) end;
        cbn -[u64 u16 Z.add Shapes.threat_after]; rewrite Hp; reflexivity.
    - destruct N9 as [a [Ha Hp]]. exists a; split; [exact Ha |].
      intros c Hc. rewrite (Hp c Hc). destruct (counter_eqb total_threat c); [reflexivity |].
      unfold Shapes.mitigation_after. rewrite ?HK.
      destruct (Shapes.mitigation_counter_of _); reflexivity. }
  assert (N11 : exists a, nth_error e11 n = Some a /\ P10 a).
  { unfold e11. cbv zeta.
    repeat match goal with
    | |- exists a, nth_error (match ?o with _ => _ end) n = Some a /\ _ => destruct o
    | |- exists a, nth_error (modify_opt _ _ _) n = Some a /\ _ =>
        apply layer_keep; [counters_kept |]
    end; exact N10. }
  destruct N11 as [a11 [Ha11 Hp11]].
  assert (Hb : forall c, get a0 c = match find (fun es => es_id es =? e_id (cl_source l))
                                          (entities_ m1) with
                                    | Some es => get es c | None => 0 end)
    by (intros c; rewrite Ha0eq; destruct (find _ _); reflexivity).
  exists a11. split; [| split].
  - cbn [entities_]. apply (find_nth_NoDup _ n); [rewrite I11; exact Hnd0 | exact Ha11 |].
    apply (map_nth_error es_id) in Ha11. rewrite I11, nth_error_map, Ha0 in Ha11.
    cbn in Ha11. injection Ha11 as <-. exact Hid0.
  - rewrite (Hp11 total_threat eq_refl), <- Hb. reflexivity.
  - cbn [Shapes.mitigation_counters].
    repeat constructor; rewrite Hp11 by reflexivity; rewrite <- Hb; reflexivity.
Qed.
(** C7: an ApplyEffect line of an effect (neither Damage nor Heal) from
    player 1 to player 2, ingested by a fresh registry, records the
    effect in the target's [Effects] and in the target's [AppliedBy]; the
    source's [AppliedBy] stays empty.  The same line a second time
    updates the target's [Effects] entry in place, appends a second entry
    to the target's [AppliedBy], and still leaves the source's list
    empty. *)
Theorem applied_effect_recorded_on_target :
  map (fun es => (es_id es, es_Effects es, es_AppliedBy es))
    (entities_ (ParseLine Samples.effect_line init))
  = [(1, [], []);
     (2, [Applied_Effect_of Samples.effect_line], [Applied_Effect_of Samples.effect_line])]
  /\ map (fun es => (es_id es, length (es_Effects es), length (es_AppliedBy es)))
      (entities_ (run init [Op_ParseLine Samples.effect_line; Op_ParseLine Samples.effect_line]))
    = [(1, 0%nat, 0%nat); (2, 1%nat, 2%nat)].
Proof. split; vm_compute; reflexivity. Qed.

(** C8: a Heal line never adds its threat to the [total_threat] of its
    source, whatever the threat it carries: in a registry whose entity
    states have distinct ids, a line that is a Heal and neither a Damage
    nor a ModifyThreat leaves the source's [total_threat] where it was
    (a source not yet tracked is at 0), while the spec adds the threat of
    every line that carries one. *)
Theorem heal_threat_not_counted (l : CombatLine) (m : state) :
  NoDup (map es_id (entities_ m)) ->
  line_is_action l ACT_Heal = true ->
  line_is_action l ACT_Damage = false ->
  line_is_action l ACT_ModifyThreat = false ->
  exists es, entity_by_id (ParseLine l m) (e_id (cl_source l)) = Some es
   /\ get es total_threat = Shapes.source_counter l m total_threat.
Proof.
  intros Hnd _ HD HM.
  destruct (source_threat_mitigation l m Hnd) as [es [Hes [Ht _]]].
  exists es. split; [exact Hes |].
  rewrite Ht. unfold Shapes.threat_after. rewrite HD, HM. reflexivity.
Qed.

Lemma heal_threat_not_counted_witness :
  tl_has_threat (cl_tail (Samples.heal_threat_line 10)) = true
  /\ threat_to_u64 (tl_threat (cl_tail (Samples.heal_threat_line 10))) = 10
  /\ Shapes.source_counter (Samples.heal_threat_line 10) init total_threat = 0
  /\ exists es, entity_by_id (ParseLine (Samples.heal_threat_line 10) init) 1 = Some es
     /\ get es total_threat = Shapes.source_counter (Samples.heal_threat_line 10) init total_threat.
Proof.
  split; [reflexivity |]. split; [vm_compute; reflexivity |]. split; [vm_compute; reflexivity |].
  apply (heal_threat_not_counted (Samples.heal_threat_line 10) init);
    first [constructor | reflexivity].
Defined.

End EntityManagerProofs.

(** ** Views and number readers *)

Module StringProofs.


Lemma substring_0_length (s : string) : substring 0 (String.length s) s = s.
Proof. induction s as [| c r IH]; cbn; [reflexivity | now rewrite IH]. Qed.

Lemma substring_S (c : ascii) (s : string) (n m : nat) :
  substring (S n) m (String c s) = substring n m s.
Proof. reflexivity. Qed.

Lemma substring_app_l (a b : string) : substring 0 (String.length a) (a ++ b) = a.
Proof. induction a as [| c r IH]; cbn; [destruct b; reflexivity | now rewrite IH]. Qed.

Lemma substring_app_r (a b : string) :
  substring (String.length a) (String.length (a ++ b) - String.length a) (a ++ b) = b.
Proof.
  induction a as [| c r IH]; cbn.
  - rewrite Nat.sub_0_r. apply substring_0_length.
  - exact IH.
Qed.

Lemma find_aux_shift (c : ascii) (s : string) (i : nat) :
  SV.find_aux c s i = option_map (Nat.add i) (SV.find_aux c s 0).
Proof.
  revert i. induction s as [| x r IH]; intros i; cbn; [reflexivity |].
  destruct (Ascii.eqb x c); cbn; [f_equal; lia |].
  rewrite IH, (IH 1%nat). destruct (SV.find_aux c r 0); cbn; [f_equal; lia | reflexivity].
Qed.

Lemma find_aux_app (c : ascii) (a b : string) :
  Shapes.no_char c a -> SV.find_aux c (a ++ String c b)%string 0 = Some (String.length a).
Proof.
  induction a as [| x r IH]; intros H; cbn.
  - rewrite Ascii.eqb_refl. reflexivity.
  - destruct (Ascii.eqb_spec x c) as [E | E]; [exfalso; apply (H x); [left |]; auto |].
    rewrite find_aux_shift, IH; [reflexivity |].
    intros y Hy. apply H. right. exact Hy.
Qed.

Lemma find_aux_none (c : ascii) (a : string) (i : nat) :
  Shapes.no_char c a -> SV.find_aux c a i = None.
Proof.
  revert i. induction a as [| x r IH]; intros i H; cbn; [reflexivity |].
  destruct (Ascii.eqb_spec x c) as [E | E]; [exfalso; apply (H x); [left |]; auto |].
  apply IH. intros y Hy. apply H. right. exact Hy.
Qed.

Lemma find_aux_some (c : ascii) (s : string) (p : nat) :
  SV.find_aux c s 0 = Some p ->
  exists a b, s = a ++ String c b /\ String.length a = p /\ Shapes.no_char c a.
Proof.
  revert p. induction s as [| x r IH]; intros p H; cbn in H; [discriminate |].
  destruct (Ascii.eqb_spec x c) as [E | E].
  - injection H as <-. subst x. exists ""%string, r. split; [reflexivity | split; [reflexivity |]].
    intros y [].
  - rewrite find_aux_shift in H. destruct (SV.find_aux c r 0) as [q |] eqn:F; [| discriminate].
    cbn in H. injection H as <-. destruct (IH q eq_refl) as [a [b [-> [<- Hn]]]].
    exists (String x a), b. split; [reflexivity | split; [reflexivity |]].
    intros y [<- | Hy]; [exact E | exact (Hn y Hy)].
Qed.

Lemma find_aux_none_inv (c : ascii) (s : string) (i : nat) :
  SV.find_aux c s i = None -> Shapes.no_char c s.
Proof.
  revert i. induction s as [| x r IH]; intros i H y Hy; cbn in *; [contradiction |].
  destruct (Ascii.eqb_spec x c) as [E | E]; [discriminate |].
  destruct Hy as [<- | Hy]; [exact E | exact (IH _ H y Hy)].
Qed.

Lemma split_once_app (c : ascii) (a b : string) :
  Shapes.no_char c a -> SV.split_once (a ++ String c b)%string c = (a, b).
Proof.
  intros H. unfold SV.split_once, SV.find, SV.substr_from.
  rewrite Nat.sub_0_r, substring_0_length, find_aux_app by exact H. cbn.
  unfold SV.substr, SV.substr_from. rewrite substring_app_l. f_equal.
  replace (String.length a + 1)%nat with (S (String.length a)) by lia.
  clear H. induction a as [| x r IH]; cbn; [rewrite Nat.sub_0_r; apply substring_0_length |].
  exact IH.
Qed.

(** X2: [split_once s c] either cuts [s] at the first [c] (the first part holds no [c], the separator is dropped) or, when [s] holds no [c], returns [s] and an empty view. *)
Theorem split_once_spec (s : string) (c : ascii) :
  let '(a, b) := SV.split_once s c in
  (s = a ++ String c b /\ ~ In c (list_ascii_of_string a))
  \/ (~ In c (list_ascii_of_string s) /\ a = s /\ b = ""%string).
Proof.
  destruct (SV.find_aux c s 0) as [p |] eqn:F.
  - destruct (find_aux_some c s p F) as [a [b [-> [_ Hn]]]].
    rewrite split_once_app by exact Hn. left. split; [reflexivity |].
    intros Hc. exact (Hn c Hc eq_refl).
  - unfold SV.split_once, SV.find, SV.substr_from.
    rewrite Nat.sub_0_r, substring_0_length, F. right.
    split; [| split; reflexivity]. intros Hc. exact (find_aux_none_inv c s 0 F c Hc eq_refl).
Qed.

Lemma string_of_list_ascii_app (l1 l2 : list ascii) :
  string_of_list_ascii (l1 ++ l2) = (string_of_list_ascii l1 ++ string_of_list_ascii l2)%string.
Proof. induction l1 as [| c r IH]; cbn; [reflexivity | now rewrite IH]. Qed.

Lemma digits_acc_app (a b : string) (acc : Z) :
  digits_acc (a ++ b) acc =
  match digits_acc a acc with Some v => digits_acc b v | None => None end.
Proof.
  revert acc. induction a as [| c r IH]; intros acc; cbn; [reflexivity |].
  destruct (is_digit c); [apply IH | reflexivity].
Qed.

Lemma digit_char_ok (k : Z) : 0 <= k < 10 ->
  is_digit (digit_char k) = true /\ digit_val (digit_char k) = k.
Proof.
  intros Hk. unfold is_digit, digit_val, digit_char.
  rewrite nat_ascii_embedding by lia. split.
  - apply andb_true_iff. split; apply Nat.leb_le; lia.
  - lia.
Qed.

Lemma digits_acc_zeros (k : nat) (acc : Z) :
  digits_acc (string_of_list_ascii (repeat "0"%char k)) acc = Some (acc * 10 ^ Z.of_nat k).
Proof.
  revert acc. induction k as [| k IH]; intros acc.
  - cbn. f_equal. lia.
  - cbn [repeat string_of_list_ascii digits_acc].
    change (is_digit "0"%char) with true. change (digit_val "0"%char) with 0. cbv iota.
    rewrite IH. f_equal. rewrite Nat2Z.inj_succ, Z.pow_succ_r by lia. lia.
Qed.

Lemma dec_rev_S (f : nat) (n : Z) :
  dec_rev (S f) n = digit_char (n mod 10) :: (if n <? 10 then [] else dec_rev f (n / 10)).
Proof. reflexivity. Qed.

Lemma dec_rev_digits (f : nat) (n : Z) : 0 <= n < 2 ^ Z.of_nat (S f) ->
  digits_acc (string_of_list_ascii (rev (dec_rev (S f) n))) 0 = Some n
  /\ Forall (fun ch => is_digit ch = true) (dec_rev (S f) n)
  /\ dec_rev (S f) n <> [].
Proof.
  revert n. induction f as [| f IH]; intros n Hn;
    rewrite dec_rev_S; destruct (digit_char_ok (n mod 10)) as [Hd Hv];
    try (apply Z.mod_pos_bound; lia);
    (destruct (Z.ltb_spec n 10) as [Hl | Hl];
     [cbn; rewrite Hd, Hv; split; [f_equal; rewrite Z.mod_small; lia |];
      split; [constructor; [exact Hd | constructor] | discriminate] |]).
  - cbn in Hn. lia.
  - destruct (IH (n / 10)) as [IH1 [IH2 _]].
    { split; [apply Z.div_pos; lia |].
      rewrite Nat2Z.inj_succ, Z.pow_succ_r in Hn by lia.
      apply Z.div_lt_upper_bound; lia. }
    cbn [rev]. rewrite string_of_list_ascii_app, digits_acc_app, IH1. cbn.
    rewrite Hd, Hv. split; [f_equal; rewrite (Z.div_mod n 10) at 3 by lia; lia |].
    split; [constructor; assumption | discriminate].
Qed.

Lemma setw_fill0_digits (w : nat) (n : Z) : 0 <= n ->
  digits_acc (setw_fill0 w n) 0 = Some n
  /\ Forall (fun ch => is_digit ch = true) (list_ascii_of_string (setw_fill0 w n))
  /\ setw_fill0 w n <> ""%string.
Proof.
  intros Hn. unfold setw_fill0, to_dec.
  destruct (dec_rev_digits (Z.to_nat (Z.log2 n)) n) as [H1 [H2 H3]].
  { split; [exact Hn |]. rewrite Nat2Z.inj_succ, Z2Nat.id by apply Z.log2_nonneg.
    destruct (Z.eq_dec n 0) as [-> | Hz]; [cbn; lia |].
    apply Z.log2_spec; lia. }
  split; [rewrite string_of_list_ascii_app, digits_acc_app, digits_acc_zeros; exact H1 |].
  rewrite list_ascii_of_string_of_list_ascii. split.
  - apply Forall_app. split; [apply Forall_forall; intros x Hx; apply repeat_spec in Hx; subst x; reflexivity |].
    apply Forall_rev. exact H2.
  - intros E. apply (f_equal list_ascii_of_string) in E.
    rewrite list_ascii_of_string_of_list_ascii in E. change (list_ascii_of_string "") with (@nil ascii) in E.
    apply app_eq_nil in E as [_ E]. apply H3.
    rewrite <- (rev_involutive (dec_rev _ n)), E. reflexivity.
Qed.

Lemma fast_to_u32_setw (w : nat) (n : Z) : 0 <= n < 2 ^ 32 ->
  fast_to_u32 (setw_fill0 w n) = Some n.
Proof.
  intros Hn. destruct (setw_fill0_digits w n) as [H1 [_ H3]]; [lia |].
  unfold fast_to_u32, all_digits.
  destruct (setw_fill0 w n) as [| c r]; [contradiction |]. rewrite H1.
  destruct (Z.ltb_spec n (2 ^ 32)); [reflexivity | lia].
Qed.

Lemma digits_no_char (c : ascii) (s : string) :
  is_digit c = false ->
  Forall (fun ch => is_digit ch = true) (list_ascii_of_string s) ->
  Shapes.no_char c s.
Proof.
  intros Hc H x Hx E. subst x. rewrite Forall_forall in H. rewrite (H c Hx) in Hc. discriminate.
Qed.

Lemma str_length_app (a b : string) :
  String.length (a ++ b) = (String.length a + String.length b)%nat.
Proof. induction a as [| c r IH]; cbn; [reflexivity | now rewrite IH]. Qed.

Lemma strip_one_brackets (s : string) :
  SV.strip_one ("[" ++ s ++ "]") "[" "]" = s.
Proof.
  unfold SV.strip_one. cbn [SV.front_is String.append]. rewrite Ascii.eqb_refl.
  unfold SV.substr_from. cbn [String.length substring]. rewrite Nat.sub_succ, Nat.sub_0_r, substring_0_length.
  unfold SV.back_is. rewrite str_length_app. cbn [String.length].
  replace (String.length s + 1 - 1)%nat with (String.length s) by lia.
  assert (G : forall t, String.get (String.length t) (t ++ "]") = Some "]"%char)
    by (induction t as [| x r IH]; cbn; [reflexivity | exact IH]).
  rewrite G. destruct (String.eqb_spec (s ++ "]") "") as [E | _].
  - destruct s; discriminate.
  - cbn. unfold SV.substr. apply substring_app_l.
Qed.

Lemma setw_no_char (c : ascii) (w : nat) (n : Z) : 0 <= n -> is_digit c = false ->
  Shapes.no_char c (setw_fill0 w n).
Proof.
  intros Hn Hc. apply digits_no_char; [exact Hc |]. apply setw_fill0_digits. exact Hn.
Qed.

(** X1: A time stamp of year 0 whose fields fit in 32 bits, printed by [TimeStamp::print] and put in brackets, is read back by [parse_timestamp_hhmmssmmm_struct]: the hour, minute, second and millisecond fields are the printed ones and [combat_ms] is recomputed from them. *)
Theorem print_parse_timestamp (t t0 : TimeStamp) :
  t_year t = 0 ->
  0 <= t_h t < 2 ^ 32 -> 0 <= t_m t < 2 ^ 32 -> 0 <= t_s t < 2 ^ 32 -> 0 <= t_ms t < 2 ^ 32 ->
  parse_timestamp_hhmmssmmm_struct ("[" ++ TimeStamp_print t ++ "]") t0
  = (true, update_combat_ms (ts_with_hms t0 (t_h t) (t_m t) (t_s t) (t_ms t))).
Proof.
  intros Hy Hh Hm Hs Hms. unfold parse_timestamp_hhmmssmmm_struct.
  rewrite strip_one_brackets. unfold TimeStamp_print. rewrite Hy. cbn [Z.gtb Z.compare String.append].
  rewrite split_once_app by (apply setw_no_char; [lia | reflexivity]). cbv beta iota.
  rewrite split_once_app by (apply setw_no_char; [lia | reflexivity]). cbv beta iota.
  rewrite split_once_app by (apply setw_no_char; [lia | reflexivity]). cbv beta iota.
  rewrite !fast_to_u32_setw by assumption. reflexivity.
Qed.

Lemma print_parse_timestamp_witness :
  parse_timestamp_hhmmssmmm_struct
    ("[" ++ TimeStamp_print
       {| t_combat_ms := 0; t_refined_epoch_ms := 0; t_h := 23; t_m := 59; t_s := 59;
          t_ms := 500; t_year := 0; t_month := 0; t_day := 0 |} ++ "]") TimeStamp_default
  = (true, update_combat_ms (ts_with_hms TimeStamp_default 23 59 59 500)).
Proof.
  apply (print_parse_timestamp
    {| t_combat_ms := 0; t_refined_epoch_ms := 0; t_h := 23; t_m := 59; t_s := 59;
       t_ms := 500; t_year := 0; t_month := 0; t_day := 0 |} TimeStamp_default);
    cbn; first [reflexivity | lia].
Defined.


Lemma strip_one_wrap (l r : ascii) (s : string) :
  SV.strip_one (String l (s ++ String r "")) l r = s.
Proof.
  unfold SV.strip_one. cbn [SV.front_is]. rewrite Ascii.eqb_refl.
  unfold SV.substr_from. cbn [String.length substring].
  rewrite Nat.sub_succ, Nat.sub_0_r, substring_0_length.
  unfold SV.back_is. rewrite str_length_app. cbn [String.length].
  replace (String.length s + 1 - 1)%nat with (String.length s) by lia.
  assert (G : forall t, String.get (String.length t) (t ++ String r "") = Some r)
    by (induction t as [| x y IH]; cbn; [reflexivity | exact IH]).
  rewrite G. destruct (String.eqb_spec (s ++ String r "") "") as [E | _].
  - destruct s; discriminate.
  - rewrite Ascii.eqb_refl. cbn. unfold SV.substr. apply substring_app_l.
Qed.

Lemma setw_cons (w : nat) (n : Z) : 0 <= n ->
  exists ch r, setw_fill0 w n = String ch r /\ is_digit ch = true
  /\ digits_acc (String ch r) 0 = Some n.
Proof.
  intros Hn. destruct (setw_fill0_digits w n Hn) as [H1 [H2 H3]].
  destruct (setw_fill0 w n) as [| ch r]; [contradiction |].
  inversion H2; subst. exists ch, r. auto.
Qed.

Lemma parse_signed_digit (ch : ascii) (r : string) :
  is_digit ch = true ->
  parse_signed (String ch r)
  = match digits_acc (String ch r) 0 with
    | Some v => if v <? 2 ^ 63 then Some v else None | None => None end.
Proof.
  intros Hd. destruct ch as [[] [] [] [] [] [] [] []]; cbn in Hd; try discriminate Hd;
    reflexivity.
Qed.

Lemma parse_signed_setw (w : nat) (n : Z) : 0 <= n < 2 ^ 63 ->
  parse_signed (setw_fill0 w n) = Some n.
Proof.
  intros Hn. destruct (setw_cons w n) as [ch [r [E [Hd Hv]]]]; [lia |].
  rewrite E, parse_signed_digit, Hv by exact Hd.
  destruct (Z.ltb_spec n (2 ^ 63)); [reflexivity | lia].
Qed.

Lemma fast_to_u64_setw (w : nat) (n : Z) : 0 <= n < 2 ^ 64 ->
  fast_to_u64 (setw_fill0 w n) = Some n.
Proof.
  intros Hn. destruct (setw_fill0_digits w n) as [H1 [_ H3]]; [lia |].
  unfold fast_to_u64, all_digits.
  destruct (setw_fill0 w n) as [| c r]; [contradiction |]. rewrite H1.
  destruct (Z.ltb_spec n (2 ^ 64)); [reflexivity | lia].
Qed.

(** X3: A health group ["(cur/max)"] written with two non-negative decimal numbers below 2^63 is read back by [parse_health] as those two numbers. *)
Theorem parse_health_roundtrip (c mx : Z) (h : Health) :
  0 <= c < 2 ^ 63 -> 0 <= mx < 2 ^ 63 ->
  parse_health ("(" ++ (setw_fill0 0 c ++ "/" ++ setw_fill0 0 mx) ++ ")") h
  = (true, {| hp_current := c; hp_max := mx |}).
Proof.
  intros Hc Hm. unfold parse_health.
  change ("(" ++ (setw_fill0 0 c ++ "/" ++ setw_fill0 0 mx) ++ ")")%string
    with (String "(" ((setw_fill0 0 c ++ String "/" (setw_fill0 0 mx)) ++ String ")" "")).
  rewrite strip_one_wrap.
  rewrite split_once_app by (apply setw_no_char; [lia | reflexivity]). cbv beta iota.
  rewrite !parse_signed_setw by assumption. reflexivity.
Qed.

Lemma parse_health_roundtrip_witness :
  parse_health ("(" ++ (setw_fill0 0 120 ++ "/" ++ setw_fill0 0 1000) ++ ")") Health_default
  = (true, {| hp_current := 120; hp_max := 1000 |}).
Proof. apply (parse_health_roundtrip 120 1000 Health_default); lia. Defined.

Lemma substr_from_0 (s : string) : SV.substr_from s 0 = s.
Proof. unfold SV.substr_from. rewrite Nat.sub_0_r. apply substring_0_length. Qed.

Lemma substring_app_shift (a b : string) (k m : nat) :
  substring (String.length a + k) m (a ++ b) = substring k m b.
Proof. induction a as [| x r IH]; cbn; [reflexivity | exact IH]. Qed.

Lemma substr_from_app_shift (a b : string) (k : nat) :
  SV.substr_from (a ++ b) (String.length a + k) = SV.substr_from b k.
Proof.
  unfold SV.substr_from. rewrite str_length_app.
  replace (String.length a + String.length b - (String.length a + k))%nat
    with (String.length b - k)%nat by lia.
  apply substring_app_shift.
Qed.

Lemma find_app_char (c : ascii) (a b : string) :
  Shapes.no_char c a -> SV.find c (a ++ String c b) 0 = Some (String.length a).
Proof.
  intros H. unfold SV.find. rewrite substr_from_0, find_aux_app by exact H. reflexivity.
Qed.

(** X4: A named id ["name {id}"] whose name holds no ['{'] and whose id is a decimal number below 2^64 is read back by [parse_named_id] as the name without its trailing spaces and the id. *)
Theorem parse_named_id_roundtrip (name : string) (id : Z) (out : NamedId) :
  ~ In "{"%char (list_ascii_of_string name) -> 0 <= id < 2 ^ 64 ->
  parse_named_id (name ++ "{" ++ setw_fill0 0 id ++ "}") out
  = (true, {| ni_name := SV.rtrim name; ni_id := id |}).
Proof.
  intros Hn Hid. unfold parse_named_id.
  change (name ++ "{" ++ setw_fill0 0 id ++ "}")%string
    with (name ++ String "{" (setw_fill0 0 id ++ String "}" ""))%string.
  rewrite find_app_char by (intros x Hx E; subst x; exact (Hn Hx)).
  unfold SV.find. rewrite substr_from_app_shift.
  change (SV.substr_from (String "{" (setw_fill0 0 id ++ String "}" "")) 1)
    with (SV.substr_from (setw_fill0 0 id ++ String "}" "") 0).
  rewrite substr_from_0, find_aux_app by (apply setw_no_char; [lia | reflexivity]).
  unfold SV.substr. rewrite substring_app_l.
  replace (String.length name + 1 + String.length (setw_fill0 0 id) - String.length name - 1)%nat
    with (String.length (setw_fill0 0 id)) by lia.
  rewrite substring_app_shift. cbn [substring]. rewrite substring_app_l.
  rewrite fast_to_u64_setw by exact Hid. reflexivity.
Qed.

Lemma parse_named_id_roundtrip_witness :
  parse_named_id ("Foo " ++ "{" ++ setw_fill0 0 42 ++ "}") NamedId_default
  = (true, {| ni_name := SV.rtrim "Foo "; ni_id := 42 |}).
Proof.
  apply (parse_named_id_roundtrip "Foo " 42 NamedId_default).
  - cbn. intuition discriminate.
  - lia.
Defined.


Lemma substring_split (s : string) (k : nat) : (k <= String.length s)%nat ->
  s = (substring 0 k s ++ SV.substr_from s k)%string /\ String.length (substring 0 k s) = k.
Proof.
  unfold SV.substr_from. revert k. induction s as [| c r IH]; intros k Hk.
  - destruct k; [split; reflexivity | cbn in Hk; lia].
  - destruct k as [| k].
    + cbn [substring String.append String.length]. rewrite Nat.sub_0_r.
      change (substring 0 (S (String.length r)) (String c r)) with (String c (substring 0 (String.length r) r)).
      rewrite substring_0_length. split; reflexivity.
    + cbn in Hk. destruct (IH k) as [E L]; [lia |].
      cbn [substring String.append String.length]. rewrite Nat.sub_succ.
      split; [now rewrite <- E | cbn; now rewrite L].
Qed.

Lemma str_app_assoc (a b c : string) : (a ++ (b ++ c))%string = ((a ++ b) ++ c)%string.
Proof. induction a as [| x r IH]; cbn; [reflexivity | now rewrite IH]. Qed.

Lemma substring_far (s : string) (k : nat) : (String.length s < k)%nat ->
  SV.substr_from s k = ""%string.
Proof.
  unfold SV.substr_from. intros H. replace (String.length s - k)%nat with 0%nat by lia.
  revert k H. induction s as [| c r IH]; intros k H; destruct k; cbn in *; try reflexivity; try lia.
  apply (IH k). lia.
Qed.

Lemma find_some_split (c : ascii) (s : string) (from k : nat) :
  SV.find c s from = Some k ->
  exists pre post, s = (pre ++ String c post)%string /\ String.length pre = k
  /\ (from <= k)%nat /\ Shapes.no_char c (substring from (k - from) s).
Proof.
  unfold SV.find. destruct (SV.find_aux c (SV.substr_from s from) 0) as [p |] eqn:E;
    [intros H; injection H as <- | discriminate].
  destruct (Nat.le_gt_cases from (String.length s)) as [Hle | Hgt];
    [| rewrite substring_far in E by lia; discriminate].
  destruct (find_aux_some c _ p E) as [a [b [Ea [La Na]]]].
  destruct (substring_split s from Hle) as [Es Ls].
  exists (substring 0 from s ++ a)%string, b. repeat split.
  - rewrite Es at 1. rewrite Ea. apply str_app_assoc.
  - rewrite str_length_app, Ls, La. reflexivity.
  - lia.
  - replace (from + p - from)%nat with (String.length a) by lia.
    rewrite Es, Ea, <- Ls at 1.
    replace (String.length (substring 0 from s)) with (String.length (substring 0 from s) + 0)%nat
      by lia.
    rewrite substring_app_shift, substring_app_l. exact Na.
Qed.

Lemma substring_app_char (a b : string) (c : ascii) :
  substring 0 (S (String.length a)) (a ++ String c b) = (a ++ String c "")%string.
Proof.
  induction a as [| x r IH]; cbn; [destruct b; reflexivity | now rewrite IH].
Qed.

(** X5: When [next_bracket] finds a group, the line is [pre ++ "[" ++ inner ++ "]" ++ post] where the ['['] is the first one at or after the cursor, [inner] holds no [']'], the returned view is ["[" ++ inner ++ "]"] and the new cursor is just past its [']']. *)
Theorem next_bracket_shape (line : string) (cur : nat) (br : string) (cur' : nat) :
  next_bracket line cur = Some (br, cur') ->
  exists pre inner post,
    line = (pre ++ "[" ++ inner ++ "]" ++ post)%string
    /\ br = ("[" ++ inner ++ "]")%string
    /\ ~ In "]"%char (list_ascii_of_string inner)
    /\ ~ In "["%char (list_ascii_of_string (substring cur (String.length pre - cur) line))
    /\ (cur <= String.length pre)%nat
    /\ cur' = (String.length pre + String.length inner + 2)%nat.
Proof.
  unfold next_bracket.
  destruct (SV.find "[" line cur) as [l |] eqn:F1; [| discriminate].
  destruct (find_some_split _ _ _ _ F1) as [P [Q [E1 [L1 [C1 N1]]]]]. subst l.
  destruct (SV.find "]" line (String.length P + 1)) as [r |] eqn:F2; [| discriminate].
  intros H. injection H as <- <-.
  unfold SV.find in F2. rewrite E1, substr_from_app_shift in F2.
  change (SV.substr_from (String "[" Q) 1) with (SV.substr_from Q 0) in F2.
  rewrite substr_from_0 in F2.
  destruct (SV.find_aux "]" Q 0) as [k |] eqn:F3; [injection F2 as <- | discriminate].
  destruct (find_aux_some _ _ _ F3) as [A [B [E3 [L3 N3]]]].
  exists P, A, B. repeat split.
  - rewrite E1, E3. reflexivity.
  - unfold SV.substr. rewrite E1, E3.
    replace (String.length P) with (String.length P + 0)%nat at 1 by lia.
    rewrite substring_app_shift.
    replace (String.length P + 1 + k - String.length P + 1)%nat with (S (S (String.length A))) by lia.
    cbn [substring]. rewrite substring_app_char. reflexivity.
  - intros Hin. exact (N3 _ Hin eq_refl).
  - intros Hin. exact (N1 _ Hin eq_refl).
  - exact C1.
  - lia.
Qed.

Lemma next_bracket_shape_witness :
  exists pre inner post,
    "[a] [b] c" = (pre ++ "[" ++ inner ++ "]" ++ post)%string
    /\ "[b]" = ("[" ++ inner ++ "]")%string
    /\ ~ In "]"%char (list_ascii_of_string inner)
    /\ ~ In "["%char (list_ascii_of_string (substring 3 (String.length pre - 3) "[a] [b] c"))
    /\ (3 <= String.length pre)%nat
    /\ 7%nat = (String.length pre + String.length inner + 2)%nat.
Proof. apply (next_bracket_shape "[a] [b] c" 3 "[b]" 7). reflexivity. Defined.

End StringProofs.


(** ** More on the time reconstructor *)

Module TimeCruncherExtra.
Import TimeCruncher.

Lemma roll_back_midnight (fuel : nat) (z c now : Z) :
  z mod MS_PER_DAY = 0 -> roll_back fuel z c now mod MS_PER_DAY = 0.
Proof.
  revert z. induction fuel as [| f IH]; intros z Hz; cbn; [exact Hz |].
  destruct (z + c >? now); [| exact Hz]. apply IH.
  rewrite Zminus_mod, Hz, Z_mod_same_full. reflexivity.
Qed.

Lemma roll_back_window (fuel : nat) (z c now : Z) :
  now < z + MS_PER_DAY + c -> z + c - now <= Z.of_nat fuel * MS_PER_DAY ->
  let z' := roll_back fuel z c now in
  z' + c <= now < z' + MS_PER_DAY + c /\ z' <= z.
Proof.
  revert z. induction fuel as [| f IH]; intros z H1 H2; cbn -[Z.mul].
  - cbn in H2. lia.
  - destruct (Z.gtb_spec (z + c) now) as [G | G].
    + destruct (IH (z - MS_PER_DAY)) as [A B]; [lia | rewrite Nat2Z.inj_succ in H2; lia |].
      split; [exact A | lia].
    + lia.
Qed.

Lemma getZeroHour_spec (t : Z) :
  getZeroHour t <= t < getZeroHour t + MS_PER_DAY /\ getZeroHour t mod MS_PER_DAY = 0.
Proof.
  unfold getZeroHour. split; [| apply Z_mod_mult].
  pose proof (Z.mul_div_le t MS_PER_DAY). pose proof (Z.mod_pos_bound t MS_PER_DAY).
  pose proof (Z.div_mod t MS_PER_DAY). unfold MS_PER_DAY in *. lia.
Qed.

Lemma set_Base_Date_spec (now : Z) (l : CombatLine) (st : state) :
  0 <= t_combat_ms (cl_t l) ->
  let b := base_date_epoch_ms_ (set_Base_Date now l st) in
  b + t_combat_ms (cl_t l) <= now < b + MS_PER_DAY + t_combat_ms (cl_t l)
  /\ b mod MS_PER_DAY = 0 /\ b <= getZeroHour now.
Proof.
  intros Hc. unfold set_Base_Date. cbv zeta. cbn [base_date_epoch_ms_]. set (c := t_combat_ms (cl_t l)) in *.
  destruct (getZeroHour_spec now) as [[Z1 Z2] Z3].
  destruct (roll_back_window (S (S (Z.to_nat (c / MS_PER_DAY)))) (getZeroHour now) c now)
    as [A B].
  - lia.
  - rewrite !Nat2Z.inj_succ, Z2Nat.id by (apply Z.div_pos; unfold MS_PER_DAY; lia).
    pose proof (Z.mul_div_le c MS_PER_DAY). pose proof (Z.mod_pos_bound c MS_PER_DAY).
    pose proof (Z.div_mod c MS_PER_DAY). unfold MS_PER_DAY in *. lia.
  - split; [exact A | split; [apply roll_back_midnight; exact Z3 | exact B]].
Qed.

(** An anchor line: the first line or an AreaEntered line. *)
(** X6: On an AreaEntered line, or on the first line, the time cruncher anchors the line to the last day whose midnight plus the line's combat time is not after the clock: the refined epoch is the new base date plus [combat_ms], lies within one day before the clock, and the base date is a midnight no later than the clock's. *)
Theorem anchor_epoch_within_day (now : Z) (st : state) (l : CombatLine) :
  isAreaEntered l = true \/ initialized_ st = false ->
  0 <= t_combat_ms (cl_t l) < 2 ^ 32 ->
  let '(st', l') := processLine now st l in
  t_refined_epoch_ms (cl_t l') <= now < t_refined_epoch_ms (cl_t l') + MS_PER_DAY
  /\ t_refined_epoch_ms (cl_t l') = base_date_epoch_ms_ st' + t_combat_ms (cl_t l)
  /\ base_date_epoch_ms_ st' mod MS_PER_DAY = 0
  /\ base_date_epoch_ms_ st' <= getZeroHour now.
Proof.
  intros Hanc Hc.
  destruct (set_Base_Date_spec now l st) as [A [B C]]; [lia |].
  assert (Hi : initializeBaseDate now l st
               = with_stats (set_Base_Date now l st)
                   (if isAreaEntered l then incr_area (stats_ (set_Base_Date now l st))
                    else stats_ (set_Base_Date now l st))).
  { unfold initializeBaseDate. destruct (isAreaEntered l); [reflexivity |].
    destruct Hanc as [H | H]; [discriminate | rewrite H]. destruct st; reflexivity. }
  unfold processLine. rewrite Hi.
  assert (M : midnight_close_ (set_Base_Date now l st) = false) by exact (eq_refl false).
  revert A B C M. generalize (set_Base_Date now l st) as S0.
  intros [ini mc b day lc le stt] A B C M. cbn in A, B, C, M. subst mc.
  set (c := t_combat_ms (cl_t l)) in *.
  cbv beta zeta iota delta [with_stats set_last set_midnight_close handleMidnightRollover
    calculateEpochMs initialized_ midnight_close_ base_date_epoch_ms_ current_day_offset_
    last_processed_combat_ms_ last_processed_epoch_ms_ stats_ andb t_refined_epoch_ms cl_t
    with_t set_refined_epoch].
  destruct (c <? lc); destruct (c >? CloseToMidnightThreshold);
  cbv beta zeta iota delta [with_stats set_last set_midnight_close handleMidnightRollover
    calculateEpochMs initialized_ midnight_close_ base_date_epoch_ms_ current_day_offset_
    last_processed_combat_ms_ last_processed_epoch_ms_ stats_ andb t_refined_epoch_ms cl_t
    with_t set_refined_epoch];
  destruct ini; try destruct (c <? MIDNIGHT_ROLLOVER_THRESHOLD_MS * 2); cbv beta iota;
  unfold u32; rewrite Z.mod_small by exact Hc; lia.
Qed.

Lemma anchor_epoch_within_day_witness :
  let '(st', l') := processLine (20000 * MS_PER_DAY + 5000000) init (Samples.timed_line 3000000) in
  t_refined_epoch_ms (cl_t l') <= 20000 * MS_PER_DAY + 5000000
    < t_refined_epoch_ms (cl_t l') + MS_PER_DAY
  /\ t_refined_epoch_ms (cl_t l') = base_date_epoch_ms_ st' + t_combat_ms (cl_t (Samples.timed_line 3000000))
  /\ base_date_epoch_ms_ st' mod MS_PER_DAY = 0
  /\ base_date_epoch_ms_ st' <= getZeroHour (20000 * MS_PER_DAY + 5000000).
Proof.
  apply (anchor_epoch_within_day (20000 * MS_PER_DAY + 5000000) init (Samples.timed_line 3000000)).
  - right. reflexivity.
  - cbn. lia.
Defined.


Ltac tc_unfold := cbv beta zeta iota delta [processLine with_stats set_last set_midnight_close
  handleMidnightRollover calculateEpochMs initializeBaseDate set_Base_Date initialized_
  midnight_close_ base_date_epoch_ms_ current_day_offset_ last_processed_combat_ms_
  last_processed_epoch_ms_ stats_ andb negb incr_area incr_lines incr_time_jumps incr_rollovers
  total_lines_processed area_entered_count time_jumps_detected midnight_rollovers_detected fst snd].
Ltac tc_cases := repeat (match goal with |- context [if ?b then _ else _] => destruct b end; tc_unfold).

Lemma processLine_stats (now : Z) (st : state) (l : CombatLine) :
  let s' := stats_ (fst (processLine now st l)) in
  total_lines_processed s' = total_lines_processed (stats_ st) + 1
  /\ area_entered_count s' = area_entered_count (stats_ st) + (if isAreaEntered l then 1 else 0)
  /\ time_jumps_detected s' = time_jumps_detected (stats_ st)
       + (if t_combat_ms (cl_t l) <? last_processed_combat_ms_ st then 1 else 0).
Proof.
  destruct st as [ini mc b day lc le [a1 a2 a3 a4 a5 a6]]. tc_unfold.
  destruct (isAreaEntered l), ini; tc_unfold; tc_cases; lia.
Qed.

Lemma processLine_last (now : Z) (st : state) (l : CombatLine) :
  last_processed_combat_ms_ (fst (processLine now st l)) = t_combat_ms (cl_t l)
  /\ initialized_ (fst (processLine now st l)) = true.
Proof.
  destruct st as [ini mc b day lc le [a1 a2 a3 a4 a5 a6]]. tc_unfold.
  destruct (isAreaEntered l), ini; tc_unfold; tc_cases; auto.
Qed.


Lemma run_cons_fst (st : state) (now : Z) (l : CombatLine) (rest : list (Z * CombatLine)) :
  fst (run st ((now, l) :: rest)) = fst (run (fst (processLine now st l)) rest).
Proof.
  cbn [run]. destruct (processLine now st l) as [st1 l1]. cbn [fst].
  destruct (run st1 rest). reflexivity.
Qed.

(** X7: Over a run, [total_lines_processed] grows by the number of lines, [area_entered_count] by the number of AreaEntered lines, and [time_jumps_detected] by the number of lines whose [combat_ms] is below that of the line before. *)
Theorem run_statistics (st : state) (evs : list (Z * CombatLine)) :
  let s' := stats_ (fst (run st evs)) in
  total_lines_processed s' = total_lines_processed (stats_ st) + Z.of_nat (length evs)
  /\ area_entered_count s'
     = area_entered_count (stats_ st) + Z.of_nat (length (filter (fun e => isAreaEntered (snd e)) evs))
  /\ time_jumps_detected s'
     = time_jumps_detected (stats_ st)
       + Shapes.drops (last_processed_combat_ms_ st) (map (fun e => t_combat_ms (cl_t (snd e))) evs).
Proof.
  revert st. induction evs as [| [now l] rest IH]; intros st; cbn zeta.
  - cbn. lia.
  - rewrite run_cons_fst. destruct (IH (fst (processLine now st l))) as [A [B C]].
    destruct (processLine_stats now st l) as [A1 [B1 C1]].
    destruct (processLine_last now st l) as [L _].
    cbn [length filter map Shapes.drops snd]. rewrite L in C.
    split; [| split].
    + rewrite A, A1. lia.
    + rewrite B, B1. destruct (isAreaEntered l); cbn [length]; lia.
    + rewrite C, C1. lia.
Qed.

Lemma mod_day_add (x : Z) : x mod MS_PER_DAY = 0 -> (x + MS_PER_DAY) mod MS_PER_DAY = 0.
Proof.
  intros H. replace (x + MS_PER_DAY) with (x + 1 * MS_PER_DAY) by lia.
  rewrite Z_mod_plus_full. exact H.
Qed.

Lemma processLine_base_midnight (now : Z) (st : state) (l : CombatLine) :
  base_date_epoch_ms_ st mod MS_PER_DAY = 0 ->
  base_date_epoch_ms_ (fst (processLine now st l)) mod MS_PER_DAY = 0.
Proof.
  destruct st as [ini mc b day lc le [a1 a2 a3 a4 a5 a6]]. cbn [base_date_epoch_ms_]. intros H.
  pose proof (roll_back_midnight (S (S (Z.to_nat (t_combat_ms (cl_t l) / MS_PER_DAY))))
    (getZeroHour now) (t_combat_ms (cl_t l)) now (proj2 (getZeroHour_spec now))) as R.
  tc_unfold. destruct (isAreaEntered l), ini; tc_unfold; tc_cases.
  all: first [exact H | exact R | apply mod_day_add; assumption].
Qed.

(** X8: If the base date is a midnight (a multiple of [MS_PER_DAY]), it stays one over any run of lines. *)
Theorem run_base_midnight (st : state) (evs : list (Z * CombatLine)) :
  base_date_epoch_ms_ st mod MS_PER_DAY = 0 ->
  base_date_epoch_ms_ (fst (run st evs)) mod MS_PER_DAY = 0.
Proof.
  revert st. induction evs as [| [now l] rest IH]; intros st H; [exact H |].
  rewrite run_cons_fst. apply IH, processLine_base_midnight, H.
Qed.

Lemma run_base_midnight_witness :
  base_date_epoch_ms_ (fst (run init [(5000000, Samples.timed_line 3000000);
                                      (MS_PER_DAY + 1000, Samples.timed_line 60000)]))
    mod MS_PER_DAY = 0.
Proof. apply run_base_midnight. reflexivity. Defined.

Lemma processLine_offset (now : Z) (st : state) (l : CombatLine) :
  isAreaEntered l = false -> initialized_ st = true ->
  let st' := fst (processLine now st l) in
  base_date_epoch_ms_ st' - MS_PER_DAY * current_day_offset_ st'
  = base_date_epoch_ms_ st - MS_PER_DAY * current_day_offset_ st
  /\ current_day_offset_ st <= current_day_offset_ st'.
Proof.
  destruct st as [ini mc b day lc le [a1 a2 a3 a4 a5 a6]]. cbn [initialized_]. intros HA HI.
  subst ini. tc_unfold. rewrite HA. tc_unfold. tc_cases; lia.
Qed.

(** X9: Once initialised, over lines that are not AreaEntered the base date only moves by whole days counted in [current_day_offset_], which never decreases. *)
Theorem run_offset (st : state) (evs : list (Z * CombatLine)) :
  Forall (fun e => isAreaEntered (snd e) = false) evs -> initialized_ st = true ->
  let st' := fst (run st evs) in
  base_date_epoch_ms_ st' = base_date_epoch_ms_ st
    + MS_PER_DAY * (current_day_offset_ st' - current_day_offset_ st)
  /\ current_day_offset_ st <= current_day_offset_ st'.
Proof.
  revert st. induction evs as [| [now l] rest IH]; intros st HF HI; cbn zeta.
  - cbn [run fst]. lia.
  - inversion HF as [| ? ? HA HF']; subst. cbn [snd] in HA.
    rewrite run_cons_fst.
    destruct (processLine_offset now st l HA HI) as [E1 E2].
    destruct (IH (fst (processLine now st l)) HF' (proj2 (processLine_last now st l))) as [E3 E4].
    split; lia.
Qed.

Lemma run_offset_witness :
  let st := fst (processLine 5000000 init (Samples.timed_line 3000000)) in
  let st' := fst (run st [(MS_PER_DAY - 1000, Samples.timed_line (MS_PER_DAY - 30000));
                          (MS_PER_DAY + 200000, Samples.timed_line 100000)]) in
  base_date_epoch_ms_ st' = base_date_epoch_ms_ st
    + MS_PER_DAY * (current_day_offset_ st' - current_day_offset_ st)
  /\ current_day_offset_ st <= current_day_offset_ st'.
Proof.
  cbv zeta. apply run_offset.
  - repeat constructor.
  - reflexivity.
Defined.

Theorem reset_processLine (now : Z) (st : state) (l : CombatLine) :
  processLine now (reset st) l = processLine now init l.
Proof.
  unfold reset, init. tc_unfold. destruct (isAreaEntered l); reflexivity.
Qed.

(** X10: After [reset], a non-empty run gives the same state and lines as from the initial state, although [reset] leaves [midnight_close_] and the base date as they were. *)
Theorem reset_run (st : state) (e : Z * CombatLine) (evs : list (Z * CombatLine)) :
  run (reset st) (e :: evs) = run init (e :: evs).
Proof.
  destruct e as [now l]. cbn [run]. rewrite reset_processLine. reflexivity.
Qed.

End TimeCruncherExtra.


(** ** More on the combat state *)

Module CombatStateExtra.
Import CombatState.

Ltac cs_unfold := cbv beta zeta iota delta [ParseLine combat_state_parse_entercombat
  combat_state_parse_areaenter combat_state_parse_revive combat_state_parse_death
  combat_state_parse_damage combat_state_parse_disciplinechange combat_state_parse_exitcombat
  combat_state_reset start_encounter clear_monitor andb negb
  monitor_combat_state_ combat_revive_line_ in_combat_ last_combat_entered_
  last_combat_line_time_ last_combat_line_ last_combat_exit_ last_died_ died_in_combat_
  all_players_dead dead_players_ fighting_players_ last_area_entered_ owner_ owner_dead_].
Ltac cs_cases := repeat (match goal with |- context [if ?b then _ else _] => destruct b eqn:? end; cs_unfold).

(** X11: The combat state goes from out of combat to in combat only on an EnterCombat line. *)
Theorem enter_combat_only_by_EnterCombat (l : CombatLine) (cs : state) :
  in_combat_ cs = false -> in_combat_ (ParseLine l cs) = true ->
  line_is_action l ACT_EnterCombat = true.
Proof.
  destruct cs; cbn [in_combat_]; intros H; subst. cs_unfold.
  destruct (line_is_action l ACT_EnterCombat); [reflexivity |]. cs_unfold.
  cs_cases; discriminate.
Qed.

Lemma enter_combat_only_by_EnterCombat_witness :
  line_is_action (Samples.event_line 1000 (Samples.player 1) (Samples.player 1)
                    KINDID_Event ACT_EnterCombat) ACT_EnterCombat = true.
Proof. apply (enter_combat_only_by_EnterCombat _ init); reflexivity. Defined.

(** X12: [last_combat_entered_] changes only on an EnterCombat or an AreaEntered line. *)
Theorem last_combat_entered_changes (l : CombatLine) (cs : state) :
  last_combat_entered_ (ParseLine l cs) <> last_combat_entered_ cs ->
  line_is_action l ACT_EnterCombat = true \/ line_is_type l KINDID_AreaEntered = true.
Proof.
  destruct cs. cs_unfold.
  destruct (line_is_action l ACT_EnterCombat); [left; reflexivity |].
  destruct (line_is_type l KINDID_AreaEntered); [right; reflexivity |].
  cs_unfold. cs_cases; intros H; exfalso; apply H; reflexivity.
Qed.

Lemma last_combat_entered_changes_witness :
  line_is_action (Samples.event_line 1000 (Samples.player 1) (Samples.player 1)
                    KINDID_Event ACT_EnterCombat) ACT_EnterCombat = true
  \/ line_is_type (Samples.event_line 1000 (Samples.player 1) (Samples.player 1)
                    KINDID_Event ACT_EnterCombat) KINDID_AreaEntered = true.
Proof.
  apply (last_combat_entered_changes _ init). vm_compute. intros H. discriminate H.
Defined.

(** X13: Combat monitoring is switched on only by a Revived line whose source is the owner. *)
Theorem monitor_only_by_owner_revive (l : CombatLine) (cs : state) :
  monitor_combat_state_ cs = false -> monitor_combat_state_ (ParseLine l cs) = true ->
  line_is_action l ACT_Revived = true /\ e_id (owner_ cs) = e_id (cl_source l).
Proof.
  destruct cs; cbn [monitor_combat_state_ owner_]; intros H; subst. cs_unfold.
  cs_cases; try discriminate; intros _; split; first [reflexivity | apply Z.eqb_eq; assumption].
Qed.

Lemma monitor_only_by_owner_revive_witness :
  line_is_action (Samples.event_line 7000 (Samples.player 0) (Samples.player 0)
                    KINDID_Event ACT_Revived) ACT_Revived = true
  /\ e_id (owner_ init) = e_id (cl_source (Samples.event_line 7000 (Samples.player 0)
                                            (Samples.player 0) KINDID_Event ACT_Revived)).
Proof. apply monitor_only_by_owner_revive; reflexivity. Defined.

(** X14: [died_in_combat_] is set only by a Death line whose target is the owner. *)
Theorem died_only_by_owner_death (l : CombatLine) (cs : state) :
  died_in_combat_ cs = false -> died_in_combat_ (ParseLine l cs) = true ->
  line_is_action l ACT_Death = true /\ e_id (owner_ cs) = e_id (cl_target l).
Proof.
  destruct cs; cbn [died_in_combat_ owner_]; intros H; subst. cs_unfold.
  cs_cases; try discriminate; intros _; split; first [reflexivity | apply Z.eqb_eq; assumption].
Qed.

Lemma died_only_by_owner_death_witness :
  line_is_action (Samples.event_line 7000 (Samples.player 3) (Samples.player 0)
                    KINDID_Event ACT_Death) ACT_Death = true
  /\ e_id (owner_ init) = e_id (cl_target (Samples.event_line 7000 (Samples.player 3)
                                            (Samples.player 0) KINDID_Event ACT_Death)).
Proof. apply died_only_by_owner_death; reflexivity. Defined.

(** X15: Every line, whatever its kind, becomes [last_combat_line_] and its refined epoch [last_combat_line_time_]. *)
Theorem ParseLine_records_line (l : CombatLine) (cs : state) :
  last_combat_line_ (ParseLine l cs) = l /\ last_combat_line_time_ (ParseLine l cs) = epoch_of l.
Proof.
  destruct cs. cs_unfold. cs_cases; split; reflexivity.
Qed.

Lemma erase_first_incl (l : list Entity) (e x : Entity) :
  In x (erase_first l e) -> In x l.
Proof.
  induction l as [| y r IH]; cbn; [tauto |].
  destruct (entity_eqb y e); cbn; intuition.
Qed.

Lemma erase_first_Forall (P : Entity -> Prop) (l : list Entity) (e : Entity) :
  Forall P l -> Forall P (erase_first l e).
Proof.
  intros H. apply Forall_forall. intros x Hx. apply erase_first_incl in Hx.
  exact (proj1 (Forall_forall P l) H x Hx).
Qed.

Lemma erase_first_NoDup (l : list Entity) (e : Entity) :
  NoDup (map e_id l) -> NoDup (map e_id (erase_first l e)).
Proof.
  induction l as [| y r IH]; cbn; intros H; [exact H |].
  inversion H as [| ? ? Hn Hd]; subst.
  destruct (entity_eqb y e); [exact Hd |]. cbn. constructor; [| exact (IH Hd)].
  intros Hin. apply Hn. apply in_map_iff in Hin. destruct Hin as [x [Ex Hx]].
  apply in_map_iff. exists x. split; [exact Ex | exact (erase_first_incl r e x Hx)].
Qed.

Lemma erase_first_match (l : list Entity) (e : Entity) :
  match l with [] => [] | x :: r => erase_first (x :: r) e end = erase_first l e.
Proof. destruct l; reflexivity. Qed.

Lemma contains_entity_false (l : list Entity) (e : Entity) :
  contains_entity l e = false -> ~ In (e_id e) (map e_id l).
Proof.
  unfold contains_entity. intros H Hin. apply in_map_iff in Hin.
  destruct Hin as [x [Ex Hx]].
  assert (existsb (entity_eqb e) l = true).
  { apply existsb_exists. exists x. split; [exact Hx |].
    unfold entity_eqb. rewrite Ex. apply Z.eqb_refl. }
  congruence.
Qed.

Lemma NoDup_snoc_entity (l : list Entity) (e : Entity) :
  NoDup (map e_id l) -> contains_entity l e = false -> NoDup (map e_id (l ++ [e])).
Proof.
  intros H C. apply contains_entity_false in C. rewrite map_app. cbn.
  apply NoDup_app; [exact H | constructor; [intros [] | constructor] |].
  intros x Hx [Hy | []]. subst. exact (C Hx).
Qed.

Lemma ParseLine_dead_fight_ok (l : CombatLine) (cs : state) :
  Shapes.dead_fight_ok cs -> Shapes.dead_fight_ok (ParseLine l cs).
Proof.
  destruct cs. unfold Shapes.dead_fight_ok. cbn [dead_players_ fighting_players_].
  intros [F [N1 N2]]. cs_unfold. cs_cases;
  repeat match goal with H : (if ?x then _ else _) = true |- _ => destruct x eqn:?; try discriminate H end;
  rewrite ?erase_first_match;
  repeat split; cbn [map];
  first [ assumption | constructor
        | apply erase_first_Forall; assumption | apply erase_first_NoDup; assumption
        | apply NoDup_snoc_entity; assumption
        | apply Forall_app; split; [assumption | constructor; [assumption | constructor]] ].

Qed.

(** X16: Over any run of lines the dead list holds players only, and neither the dead nor the fighting list holds an id twice, provided this held at the start. *)
Theorem run_dead_fight_ok (cs : state) (ls : list CombatLine) :
  Shapes.dead_fight_ok cs -> Shapes.dead_fight_ok (run cs ls).
Proof.
  revert cs. induction ls as [| l r IH]; intros cs H; [exact H |].
  apply IH, ParseLine_dead_fight_ok, H.
Qed.

Lemma run_dead_fight_ok_witness :
  Shapes.dead_fight_ok
    (run init [Samples.event_line 1000 (Samples.player 1) (Samples.player 1) KINDID_Event ACT_EnterCombat;
               Samples.event_line 2000 (Samples.player 2) (Samples.player 1) KINDID_Event ACT_Death;
               Samples.event_line 3000 (Samples.player 2) (Samples.player 1) KINDID_Event ACT_Death]).
Proof. apply run_dead_fight_ok. split; [constructor | split; constructor]. Defined.

End CombatStateExtra.


(** ** More on the entity registry *)

Module EntityManagerExtra.
Import EntityManager EntityManagerProofs.
Local Open Scope list_scope.

Lemma ParseLine_ids (l : CombatLine) (m : state) :
  exists ents0 si ti,
    lookup_or_create l (entities_ (if line_is_type l KINDID_AreaEntered then reset m else m))
      = (ents0, si, ti)
    /\ map es_id (entities_ (ParseLine l m)) = map es_id ents0.
Proof.
  cbv delta [ParseLine]. cbv beta. let_pose m1.
  destruct (lookup_or_create l (entities_ m1)) as [[ents0 si] ti] eqn:LC.
  cbv beta iota. exists ents0, si, ti. split; [exact LC |].
  let_pose vf. let_pose threat. let_pose e1. let_pose e2. let_pose e3. let_pose e4.
  let_pose e5. let_pose e6. let_pose e7. let_pose e8. let_pose e9. let_pose e10.
  let_pose effect_guard. let_pose e11. cbn [entities_].
  assert (I1 : map es_id e1 = map es_id ents0) by (unfold e1; ids_layer; reflexivity).
  assert (I2 : map es_id e2 = map es_id ents0) by (unfold e2; ids_layer; exact I1).
  assert (I3 : map es_id e3 = map es_id ents0) by (unfold e3; ids_layer; exact I2).
  assert (I4 : map es_id e4 = map es_id ents0) by (unfold e4; ids_layer; exact I3).
  assert (I5 : map es_id e5 = map es_id ents0) by (unfold e5; ids_layer; exact I4).
  assert (I6 : map es_id e6 = map es_id ents0) by (unfold e6; ids_layer; exact I5).
  assert (I7 : map es_id e7 = map es_id ents0) by (unfold e7; ids_layer; exact I6).
  assert (I8 : map es_id e8 = map es_id ents0) by (unfold e8; ids_layer; exact I7).
  assert (I9 : map es_id e9 = map es_id ents0) by (unfold e9; ids_layer; exact I8).
  assert (I10 : map es_id e10 = map es_id ents0) by (unfold e10; ids_layer; exact I9).
  unfold e11; cbv zeta; ids_layer; exact I10.
Qed.

Lemma new_combat_reset_list_ids (l : list EntityState) :
  map es_id (new_combat_reset_list l)
  = map es_id (filter (fun es => is_player es || is_companion es) l).
Proof.
  induction l as [| es r IH]; cbn; [reflexivity |].
  destruct (is_player es), (is_companion es); cbn; rewrite ?IH; reflexivity.
Qed.

Lemma NoDup_map_filter {A B} (g : A -> B) (p : A -> bool) (l : list A) :
  NoDup (map g l) -> NoDup (map g (filter p l)).
Proof.
  induction l as [| x r IH]; cbn; intros H; [exact H |].
  inversion H as [| ? ? Hn Hd]; subst. destruct (p x); cbn; [| exact (IH Hd)].
  constructor; [| exact (IH Hd)].
  intros Hin. apply Hn. apply in_map_iff in Hin as [y [Ey Hy]].
  apply filter_In in Hy as [Hy _]. apply in_map_iff. exists y. auto.
Qed.

Lemma ParseLine_NoDup (l : CombatLine) (m : state) :
  NoDup (map es_id (entities_ m)) -> NoDup (map es_id (entities_ (ParseLine l m))).
Proof.
  intros Hnd. destruct (ParseLine_ids l m) as [ents0 [si [ti [LC E]]]]. rewrite E.
  refine (proj1 (lookup_or_create_unique _ _ _ _ _ _ LC)).
  destruct (line_is_type l KINDID_AreaEntered); [constructor | exact Hnd].
Qed.

Lemma step_NoDup (o : op) (m : state) :
  NoDup (map es_id (entities_ m)) -> NoDup (map es_id (entities_ (step o m))).
Proof.
  intros Hnd. destruct o as [l | b | | ent]; cbn [step].
  - apply ParseLine_NoDup, Hnd.
  - unfold combat_state_update.
    destruct (negb (Bool.eqb (last_combat_state m) b)); [| exact Hnd].
    destruct b; cbn; [| exact Hnd].
    rewrite new_combat_reset_list_ids. apply NoDup_map_filter, Hnd.
  - constructor.
  - unfold entity_of. destruct (find _ _) eqn:F; cbn; [exact Hnd |].
    apply NoDup_ids_snoc; [exact Hnd |].
    apply find_None_iff in F. cbn. eapply Forall_impl; [| exact F].
    intros a Ha. apply Z.eqb_neq. exact Ha.
Qed.

(** X17: The entity registry never holds two states with the same id, provided it did not at the start. *)
Theorem run_ids_NoDup (m : state) (ops : list op) :
  NoDup (map es_id (entities_ m)) -> NoDup (map es_id (entities_ (run m ops))).
Proof.
  revert m. induction ops as [| o r IH]; intros m H; [exact H |].
  apply IH, step_NoDup, H.
Qed.

Lemma run_ids_NoDup_witness :
  NoDup (map es_id (entities_ (run init
    [Op_ParseLine Samples.effect_line;
     Op_ParseLine (Samples.event_line 0 (Samples.player 2) (Samples.player 3)
                     KINDID_ApplyEffect ACT_Damage)]))).
Proof. apply run_ids_NoDup. constructor. Defined.

(** X18: [new_combat_reset] keeps exactly the players and companions, in order, clears their target owner and all their counters, and leaves [last_combat_state] alone. *)
Theorem new_combat_reset_spec (m : state) :
  map es_id (entities_ (new_combat_reset m))
  = map es_id (filter (fun es => is_player es || is_companion es) (entities_ m))
  /\ Forall (fun es => (is_player es || is_companion es) = true
                       /\ es_target_owner es = None /\ forall c, get es c = 0)
       (entities_ (new_combat_reset m))
  /\ last_combat_state (new_combat_reset m) = last_combat_state m.
Proof.
  unfold new_combat_reset. cbn [entities_ last_combat_state].
  split; [apply new_combat_reset_list_ids | split; [| reflexivity]].
  induction (entities_ m) as [| es r IH]; cbn; [constructor |].
  unfold is_player, is_companion in *.
  destruct (e_is_player (es_entity es)) eqn:P, (e_is_companion (es_entity es)) eqn:C; cbn;
    try exact IH; constructor; try exact IH; cbn; rewrite ?P, ?C; auto.
Qed.

(** X19: [combat_state_update b] is idempotent, sets [last_combat_state] to [b], and with [false] leaves the entity states as they are. *)
Theorem combat_state_update_spec (b : bool) (m : state) :
  combat_state_update b (combat_state_update b m) = combat_state_update b m
  /\ last_combat_state (combat_state_update b m) = b
  /\ entities_ (combat_state_update false m) = entities_ m.
Proof.
  unfold combat_state_update.
  destruct m as [ents lcs]. destruct lcs, b; cbn; repeat split; reflexivity.
Qed.


Ltac owner_kept :=
  let a := fresh "a" in let Ha := fresh "Ha" in
  intros a Ha; cbv beta; try (unfold mitigation_update; cbv zeta);
  repeat match goal with |- context [if ?b then _ else _] => destruct b end;
  cbn [es_owner es_set_target es_set_Effects es_set_AppliedBy es_set_counters add_counter
       es_set_entity es_set_dead es_set_owner]; exact Ha.

Lemma ParseLine_last_combat_state (l : CombatLine) (m : state) :
  last_combat_state (ParseLine l m)
  = last_combat_state (if line_is_type l KINDID_AreaEntered then reset m else m).
Proof.
  unfold ParseLine. destruct (lookup_or_create _ _) as [[? ?] ?]. reflexivity.
Qed.

Lemma area_entered_shape (l : CombatLine) (m : state) :
  line_is_type l KINDID_AreaEntered = true -> Shapes.area_shape l (entities_ (ParseLine l m)).
Proof.
  intros HA. cbv delta [ParseLine]. cbv beta. let_pose m1.
  assert (M1 : m1 = reset m) by (unfold m1; rewrite HA; reflexivity).
  destruct (lookup_or_create l (entities_ m1)) as [[ents0 si] ti] eqn:LC.
  rewrite M1 in LC. cbn [reset entities_ lookup_or_create] in LC.
  set (G := negb (e_empty (cl_target l)) && negb (e_id (cl_source l) =? e_id (cl_target l))) in *.
  assert (E0 : map es_id ents0 = e_id (cl_source l) :: (if G then [e_id (cl_target l)] else [])
               /\ si = Some 0%nat).
  { destruct G; injection LC as <- <- <-; cbn; split; reflexivity. }
  destruct E0 as [E0 ->].
  cbv beta iota.
  let_pose vf. let_pose threat. let_pose e1. let_pose e2. let_pose e3. let_pose e4.
  let_pose e5. let_pose e6. let_pose e7. let_pose e8. let_pose e9. let_pose e10.
  let_pose effect_guard. let_pose e11. cbn [entities_].
  assert (I1 : map es_id e1 = map es_id ents0) by (unfold e1; ids_layer; reflexivity).
  assert (I2 : map es_id e2 = map es_id ents0) by (unfold e2; ids_layer; exact I1).
  assert (I3 : map es_id e3 = map es_id ents0) by (unfold e3; ids_layer; exact I2).
  assert (I4 : map es_id e4 = map es_id ents0) by (unfold e4; ids_layer; exact I3).
  assert (I5 : map es_id e5 = map es_id ents0) by (unfold e5; ids_layer; exact I4).
  assert (I6 : map es_id e6 = map es_id ents0) by (unfold e6; ids_layer; exact I5).
  assert (I7 : map es_id e7 = map es_id ents0) by (unfold e7; ids_layer; exact I6).
  assert (I8 : map es_id e8 = map es_id ents0) by (unfold e8; ids_layer; exact I7).
  assert (I9 : map es_id e9 = map es_id ents0) by (unfold e9; ids_layer; exact I8).
  assert (I10 : map es_id e10 = map es_id ents0) by (unfold e10; ids_layer; exact I9).
  assert (I11 : map es_id e11 = map es_id ents0) by (unfold e11; cbv zeta; ids_layer; exact I10).
  assert (O6 : exists a, nth_error e6 0 = Some a /\ True).
  { rewrite E0 in I6. destruct e6 as [| a6 r6]; [discriminate | exists a6; split; [reflexivity | exact I]]. }
  assert (O7 : exists a, nth_error e7 0 = Some a /\ es_owner a = true).
  { unfold e7. rewrite HA. apply (layer_at 0 (fun _ => True)); [reflexivity | exact O6]. }
  assert (O8 : exists a, nth_error e8 0 = Some a /\ es_owner a = true).
  { unfold e8. destruct (line_is_action l ACT_TargetSet); [| exact O7].
    destruct (nth_opt ti e7); [| exact O7]. apply layer_keep; [owner_kept | exact O7]. }
  assert (O9 : exists a, nth_error e9 0 = Some a /\ es_owner a = true).
  { unfold e9. destruct (line_is_action l ACT_TargetCleared); [| exact O8].
    apply layer_keep; [owner_kept | exact O8]. }
  assert (O10 : exists a, nth_error e10 0 = Some a /\ es_owner a = true).
  { unfold e10. destruct (negb (ValueKind_eqb (tl_kind (cl_tail l)) VK_None)); [| exact O9].
    apply layer_keep; [owner_kept | exact O9]. }
  assert (O11 : exists a, nth_error e11 0 = Some a /\ es_owner a = true).
  { unfold e11. cbv zeta.
    repeat match goal with
    | |- exists a, nth_error (match ?o with _ => _ end) 0 = Some a /\ _ => destruct o
    | |- exists a, nth_error (modify_opt _ _ _) 0 = Some a /\ _ =>
        apply layer_keep; [owner_kept |]
    end; exact O10. }
  destruct O11 as [a [Ha Ho]]. unfold Shapes.area_shape. fold G. rewrite I11, E0.
  split; [reflexivity |].
  destruct e11 as [| a' r']; [discriminate |]. cbn in Ha. injection Ha as ->. eauto.
Qed.

(** On an AreaEntered line the registry is emptied and refilled with the
    source, and the target when it is a different non-empty entity; the
    source becomes the owner. *)
(** X20: After an AreaEntered line the registry holds only the line's source, followed by its target when that is a different, non-empty entity; the source is the owner and [last_combat_state] is false. *)
Theorem area_entered_registry (l : CombatLine) (m : state) :
  line_is_type l KINDID_AreaEntered = true ->
  map es_id (entities_ (ParseLine l m))
    = e_id (cl_source l)
      :: (if negb (e_empty (cl_target l)) && negb (e_id (cl_source l) =? e_id (cl_target l))
          then [e_id (cl_target l)] else [])
  /\ option_map es_id (owner (ParseLine l m)) = Some (e_id (cl_source l))
  /\ last_combat_state (ParseLine l m) = false.
Proof.
  intros HA. destruct (area_entered_shape l m HA) as [K1 [a [r [K2 K3]]]].
  split; [exact K1 | split].
  - unfold owner. rewrite K2. cbn [find]. rewrite K3. cbn [option_map].
    rewrite K2 in K1. cbn in K1. injection K1 as K1 _. rewrite K1. reflexivity.
  - rewrite ParseLine_last_combat_state, HA. reflexivity.
Qed.

Lemma area_entered_registry_witness :
  let l := Samples.event_line 0 (Samples.player 1) (Samples.player 2)
             KINDID_AreaEntered KINDID_AreaEntered in
  map es_id (entities_ (ParseLine l init))
    = e_id (cl_source l)
      :: (if negb (e_empty (cl_target l)) && negb (e_id (cl_source l) =? e_id (cl_target l))
          then [e_id (cl_target l)] else [])
  /\ option_map es_id (owner (ParseLine l init)) = Some (e_id (cl_source l))
  /\ last_combat_state (ParseLine l init) = false.
Proof. cbv zeta. apply area_entered_registry. reflexivity. Defined.

End EntityManagerExtra.


(** ** More on the pipeline *)

Module PipelineExtra.
Import Pipeline.

Lemma processLine_event (now : Z) (st : TimeCruncher.state) (l : CombatLine) :
  cl_event (snd (TimeCruncher.processLine now st l)) = cl_event l.
Proof. reflexivity. Qed.

Lemma combat_state_update_last (b : bool) (m : EntityManager.state) :
  EntityManager.last_combat_state (EntityManager.combat_state_update b m) = b.
Proof.
  unfold EntityManager.combat_state_update.
  destruct m as [ents lcs]. destruct lcs, b; reflexivity.
Qed.

Lemma EM_ParseLine_last (l : CombatLine) (m : EntityManager.state) :
  EntityManager.last_combat_state (EntityManager.ParseLine l m)
  = if line_is_type l KINDID_AreaEntered then false else EntityManager.last_combat_state m.
Proof.
  unfold EntityManager.ParseLine. destruct (EntityManager.lookup_or_create _ _) as [[? ?] ?].
  destruct (line_is_type l KINDID_AreaEntered); reflexivity.
Qed.

(** X21: After processing a line that is not both an AreaEntered and an EnterCombat line, the registry's [last_combat_state] equals the combat state's [in_combat_]. *)
Theorem registry_tracks_combat {Plugin : Type} (is_enabled : Plugin -> bool)
    (get_priority : Plugin -> Z) (ingest : Plugin -> CombatLine -> Plugin)
    (plugin_reset : Plugin -> Plugin) (sort_plugins : list Plugin -> list Plugin)
    (now : Z) (pd : parse_data Plugin) (l : CombatLine) :
  line_is_type l KINDID_AreaEntered = false \/ line_is_action l ACT_EnterCombat = false ->
  let pd' := process_line_event Plugin is_enabled get_priority ingest plugin_reset sort_plugins
               now pd l in
  EntityManager.last_combat_state (entities _ pd') = CombatState.in_combat_ (combat_state _ pd').
Proof.
  intros H pd'. unfold pd', process_line_event.
  pose proof (processLine_event now (time_cruncher _ pd) l) as Ev.
  destruct (TimeCruncher.processLine now (time_cruncher _ pd) l) as [tc l1]. cbn [snd] in Ev.
  cbn [entities combat_state].
  rewrite EM_ParseLine_last, combat_state_update_last. unfold CombatState.is_in_combat.
  unfold line_is_type, line_is_action in *. rewrite Ev.
  destruct (matches_type (cl_event l) KINDID_AreaEntered) eqn:A; [| reflexivity].
  destruct H as [H | H]; [discriminate |].
  unfold CombatState.ParseLine. unfold line_is_action, line_is_type. rewrite Ev, H, A.
  reflexivity.
Qed.

Lemma registry_tracks_combat_witness :
  let pd' := process_line_event unit (fun _ => true) (fun _ => 0) (fun p _ => p) (fun p => p)
               (fun ps => ps) 5000000
               {| time_cruncher := TimeCruncher.init; combat_state := CombatState.init;
                  entities := EntityManager.init; plugins := [tt];
                  last_line := CombatLine_default; last_area_enter := CombatLine_default;
                  last_enter_combat := CombatLine_default |} Samples.effect_line in
  EntityManager.last_combat_state (entities _ pd') = CombatState.in_combat_ (combat_state _ pd').
Proof.
  apply (registry_tracks_combat (fun _ : unit => true) (fun _ => 0) (fun p _ => p) (fun p => p)
           (fun ps => ps)).
  left. reflexivity.
Defined.

End PipelineExtra.


(** ** Trimming and small tables *)

Module TrimProofs.
Local Open Scope list_scope.

Lemma ltrim_list (s : string) :
  list_ascii_of_string (SV.ltrim s) = SV.drop_spaces_list (list_ascii_of_string s).
Proof.
  induction s as [| a r IH]; [reflexivity |].
  destruct (ascii_dec a " ") as [E | NE].
  - subst a. exact IH.
  - destruct a as [[] [] [] [] [] [] [] []]; try reflexivity; contradiction NE; reflexivity.
Qed.

Lemma drop_spaces_cons (a : ascii) (r : list ascii) : a <> " "%char ->
  SV.drop_spaces_list (a :: r) = a :: r.
Proof.
  intros NE. destruct a as [[] [] [] [] [] [] [] []]; try reflexivity; contradiction NE; reflexivity.
Qed.

Lemma drop_spaces_head (l : list ascii) :
  SV.drop_spaces_list l = [] \/
  exists a r, SV.drop_spaces_list l = a :: r /\ a <> " "%char.
Proof.
  induction l as [| a r IH]; [left; reflexivity |].
  destruct (ascii_dec a " ") as [E | NE].
  - subst a. exact IH.
  - right. exists a, r. split; [apply drop_spaces_cons |]; exact NE.
Qed.

Lemma drop_spaces_idem (l : list ascii) :
  SV.drop_spaces_list (SV.drop_spaces_list l) = SV.drop_spaces_list l.
Proof.
  destruct (drop_spaces_head l) as [E | [a [r [E NE]]]]; rewrite E; [reflexivity |].
  apply drop_spaces_cons, NE.
Qed.

Lemma drop_spaces_snoc (l : list ascii) (c : ascii) : c <> " "%char ->
  SV.drop_spaces_list (l ++ [c]) = SV.drop_spaces_list l ++ [c].
Proof.
  intros NE. induction l as [| a r IH].
  - apply drop_spaces_cons, NE.
  - destruct (ascii_dec a " ") as [E | NA].
    + subst a. exact IH.
    + cbn [app]. rewrite !drop_spaces_cons by exact NA. reflexivity.
Qed.

Lemma string_of_list_length (l : list ascii) :
  String.length (string_of_list_ascii l) = length l.
Proof. induction l; cbn; congruence. Qed.

Lemma back_is_snoc (l : list ascii) (c d : ascii) :
  SV.back_is (string_of_list_ascii (l ++ [c])) d = Ascii.eqb c d.
Proof.
  unfold SV.back_is. rewrite string_of_list_length, length_app. cbn [length].
  replace (length l + 1 - 1)%nat with (length l) by lia.
  assert (G : String.get (length l) (string_of_list_ascii (l ++ [c])) = Some c)
    by (induction l as [| x y IH]; cbn; [reflexivity | exact IH]).
  rewrite G. destruct l; reflexivity.
Qed.

(** the list form of [trim_ws] *)
Lemma trim_ws_list (s : string) :
  list_ascii_of_string (SV.trim_ws s)
  = rev (SV.drop_spaces_list (rev (SV.drop_spaces_list (list_ascii_of_string s)))).
Proof.
  unfold SV.trim_ws, SV.rtrim. rewrite list_ascii_of_string_of_list_ascii, ltrim_list.
  reflexivity.
Qed.

Lemma trim_shape (l : list ascii) :
  rev (SV.drop_spaces_list (rev (SV.drop_spaces_list l))) = []
  \/ (exists a m b, rev (SV.drop_spaces_list (rev (SV.drop_spaces_list l))) = a :: m ++ [b]
       /\ a <> " "%char /\ b <> " "%char)
  \/ exists a, rev (SV.drop_spaces_list (rev (SV.drop_spaces_list l))) = [a] /\ a <> " "%char.
Proof.
  destruct (drop_spaces_head l) as [E | [a [r [E NA]]]]; rewrite E; [left; reflexivity |].
  cbn [rev]. rewrite drop_spaces_snoc by exact NA. rewrite rev_app_distr. cbn [rev app].
  destruct (drop_spaces_head (rev r)) as [F | [b [m [F NB]]]]; rewrite F.
  - right; right. exists a. split; [reflexivity | exact NA].
  - right; left. exists a, (rev m), b. cbn [rev]. repeat split; assumption.
Qed.

(** X22: [trim_ws] leaves no leading or trailing space and is idempotent. *)
Theorem trim_ws_spec (s : string) :
  SV.trim_ws (SV.trim_ws s) = SV.trim_ws s
  /\ SV.front_is (SV.trim_ws s) " " = false
  /\ SV.back_is (SV.trim_ws s) " " = false.
Proof.
  assert (R : forall t, SV.trim_ws t = string_of_list_ascii (list_ascii_of_string (SV.trim_ws t)))
    by (intros; symmetry; apply string_of_list_ascii_of_string).
  rewrite (R (SV.trim_ws s)), (R s), !trim_ws_list, list_ascii_of_string_of_list_ascii.
  set (l := list_ascii_of_string s).
  destruct (trim_shape l) as [E | [[a [m [b [E [NA NB]]]]] | [a [E NA]]]]; rewrite E.
  - repeat split; reflexivity.
  - rewrite drop_spaces_cons by exact NA.
    change (a :: m ++ [b]) with ((a :: m) ++ [b]). rewrite rev_unit.
    rewrite drop_spaces_cons by exact NB.
    change (rev (b :: rev (a :: m))) with (rev (rev (a :: m)) ++ [b]). rewrite rev_involutive.
    repeat split.
    + cbn. destruct (Ascii.eqb_spec a " "); [contradiction | reflexivity].
    + change (string_of_list_ascii (a :: m ++ [b])) with (string_of_list_ascii ((a :: m) ++ [b])).
      rewrite back_is_snoc. destruct (Ascii.eqb_spec b " "); [contradiction | reflexivity].
  - rewrite drop_spaces_cons by exact NA. cbn [rev app].
    rewrite drop_spaces_cons by exact NA. cbn [rev app]. repeat split.
    + cbn. destruct (Ascii.eqb_spec a " "); [contradiction | reflexivity].
    + change [a] with ([] ++ [a]). rewrite back_is_snoc.
      destruct (Ascii.eqb_spec a " "); [contradiction | reflexivity].
Qed.

(** X23: Since [deduce_area_difficulty] always gives [Solo], [number_of_players] of a deduced difficulty is 1 whatever the id; and [number_of_players] never returns 4 (4-player difficulties give 0). *)
Theorem number_of_players_parsed (id : Z) :
  number_of_players (deduce_area_difficulty id) = 1
  /\ forall d, number_of_players d <> 4.
Proof. split; [reflexivity | intros []; discriminate]. Qed.

(** X24: [deduce_combat_role] never returns [Unknown]: a discipline outside the healer and tank lists is DPS. *)
Theorem deduce_combat_role_known (disc : Z) : deduce_combat_role disc <> Role_Unknown.
Proof.
  unfold deduce_combat_role.
  destruct (existsb _ _); [discriminate | destruct (existsb _ _); discriminate].
Qed.

End TrimProofs.
